(** * MNIST digit classification notebook: model and verification

    Shallow embedding of [tf_classification_mnist.ipynb].  The notebook is
    glue code around NumPy, PIL, tf.data and Keras; every cell is transcribed
    below under its own name, and the library calls it makes are given the
    semantics their implementations have (TensorFlow 2.x, NumPy 1.x, the
    versions a Python 3.7 kernel can load).

    Numbers.  Pixels are 8-bit integers ([Z] in [0,255]).  Floating values
    are IEEE 754 floats as specified by [SpecFloat]: [f32] is binary32
    (TensorFlow's [float32]), [f64] is binary64 (NumPy's [float64]); rounding,
    infinities and NaN are the real ones.  The losses of the training
    loop are float32 values as well.  Where a statement speaks of the
    number a finite float denotes, that number is a rational ([Q]); the
    value of the loss function is given in real arithmetic ([R]). *)

From Stdlib Require Import String.
From Stdlib Require Import Reals Lra.
From Stdlib Require Import ZArith List Bool Lia QArith Qabs Qpower Lqa Permutation.
From Stdlib Require Import Floats.SpecFloat.
Import ListNotations.
Open Scope Z_scope.

(** ** IEEE 754 arithmetic *)

Module f32.
Definition prec := 24.
Definition emax := 128.
Abbreviation t := spec_float (only parsing).

Definition zero : t := S754_zero false.
Definition nan : t := S754_nan.

(** Conversion of an integer, rounded to nearest even. *)
Definition of_Z (z : Z) : t := binary_normalize prec emax z 0 false.
Definition one : t := of_Z 1.

Definition add (x y : t) : t := SFadd prec emax x y.
Definition mul (x y : t) : t := SFmul prec emax x y.
Definition div (x y : t) : t := SFdiv prec emax x y.
Definition ltb (x y : t) : bool := SFltb x y.
Definition leb (x y : t) : bool := SFleb x y.

(** The least finite value, [-(2 - 2^-23) * 2^127]. *)
Definition lowest : t := S754_finite true 16777215 104.

Definition is_nan (x : t) : bool :=
  match x with S754_nan => true | _ => false end.
Definition is_finite (x : t) : bool :=
  match x with S754_zero _ | S754_finite _ _ _ => true | _ => false end.

(** Cast of a float of another format, rounded to nearest even. *)
Definition round (x : spec_float) : t :=
  match x with
  | S754_finite s m e => binary_normalize prec emax (cond_Zopp s (Zpos m)) e s
  | _ => x
  end.

(** The rational a finite float denotes (0 for the special values). *)
Definition to_Q (x : t) : Q :=
  match x with
  | S754_finite s m e => (inject_Z (cond_Zopp s (Zpos m)) * Qpower 2 e)%Q
  | _ => 0%Q
  end.
End f32.

Module f64.
Definition prec := 53.
Definition emax := 1024.
Abbreviation t := spec_float (only parsing).

Definition zero : t := S754_zero false.
Definition nan : t := S754_nan.
Definition of_Z (z : Z) : t := binary_normalize prec emax z 0 false.
Definition add (x y : t) : t := SFadd prec emax x y.
Definition div (x y : t) : t := SFdiv prec emax x y.
Definition ltb (x y : t) : bool := SFltb x y.

(** A float32 value as a float64 (exact). *)
Definition of_f32 (x : spec_float) : t :=
  match x with
  | S754_finite s m e => binary_normalize prec emax (cond_Zopp s (Zpos m)) e s
  | _ => x
  end.
End f64.

(** ** Arrays *)

(** A NumPy array or TensorFlow tensor: a shape and the elements in
    row-major order. *)
Record ndarray (A : Type) : Type := mk_ndarray {
  shape : list nat;
  data : list A
}.
Arguments mk_ndarray {A} _ _.
Arguments shape {A} _.
Arguments data {A} _.

Definition size_of (sh : list nat) : nat := fold_right Nat.mul 1%nat sh.

(** [tf.cast(image, tf.float32)] on a [uint8] tensor. *)
Definition tf_cast_f32 (a : ndarray Z) : ndarray f32.t :=
  mk_ndarray (shape a) (map f32.of_Z (data a)).

(** [tensor / c]: elementwise float32 division by a scalar. *)
Definition tf_div (a : ndarray f32.t) (c : f32.t) : ndarray f32.t :=
  mk_ndarray (shape a) (map (fun x => f32.div x c) (data a)).

(** ** Cell "Pipe the data": [normalize_img] *)

(** A sample as tfds delivers it with [as_supervised=True]: a [uint8] image
    tensor and an integer label. *)
Definition Sample : Type := ndarray Z * Z.
Definition NormalizedSample : Type := ndarray f32.t * Z.

Definition uint8 (p : Z) : Prop := 0 <= p <= 255.

(** <<
    def normalize_img(image, label):
        return tf.cast(image, tf.float32) / 255., label
    >> *)
Definition normalize_img (s : Sample) : NormalizedSample :=
  let '(image, label) := s in
  (tf_div (tf_cast_f32 image) (f32.of_Z 255), label).

(** ** Exceptions and notebook state *)

(** The Python exceptions the modelled calls raise. *)
Inductive exception : Type :=
| FileNotFoundError (path : string)
| ValueError (msg : string)
| TypeError (msg : string)
| InvalidArgumentError (msg : string)
| DownloadError (msg : string).

Inductive result (A : Type) : Type :=
| Ok (a : A)
| Raise (e : exception).
Arguments Ok {A} _.
Arguments Raise {A} _.

Definition rbind {A B} (r : result A) (k : A -> result B) : result B :=
  match r with
  | Ok a => k a
  | Raise e => Raise e
  end.

Fixpoint rmapM {A B} (f : A -> result B) (l : list A) : result (list B) :=
  match l with
  | [] => Ok []
  | x :: l' =>
      rbind (f x) (fun y => rbind (rmapM f l') (fun ys => Ok (y :: ys)))
  end.

(** ** tf.data *)

Module tfdata.

(** [tf.data.experimental.AUTOTUNE]. *)
Definition AUTOTUNE : Z := -1.

(** A dataset is the graph of transformations it was built by; nothing is
    computed until it is iterated. *)
Inductive Dataset : Type -> Type :=
| TensorSliceDataset {A} (elements : list A) : Dataset A
| MapDataset {A B} (map_func : A -> B) (num_parallel_calls : Z)
    (input : Dataset A) : Dataset B
| CacheDataset {A} (input : Dataset A) : Dataset A
| ShuffleDataset {A} (buffer_size : nat) (input : Dataset A) : Dataset A
| BatchDataset {A} (batch_size : nat) (input : Dataset A) : Dataset (list A)
| PrefetchDataset {A} (buffer_size : Z) (input : Dataset A) : Dataset A.

(** The methods of [tf.data.Dataset] the notebook calls. *)
Definition map {A B} (ds : Dataset A) (f : A -> B) (num_parallel_calls : Z) :=
  MapDataset f num_parallel_calls ds.
Definition cache {A} (ds : Dataset A) := CacheDataset ds.
Definition shuffle {A} (ds : Dataset A) (buffer_size : nat) :=
  ShuffleDataset buffer_size ds.
Definition batch {A} (ds : Dataset A) (batch_size : nat) :=
  BatchDataset batch_size ds.
Definition prefetch {A} (ds : Dataset A) (buffer_size : Z) :=
  PrefetchDataset buffer_size ds.



Section Iteration.
Context {A : Type}.

(** [BatchDataset]'s iterator: elements are collected until [batch_size]
    of them are there or the input ends; a last, shorter batch is kept
    ([drop_remainder=False]).  [acc] holds the current batch, newest
    element first. *)
Fixpoint batch_iter (batch_size : nat) (acc input : list A) : list (list A) :=
  match input with
  | [] => match acc with [] => [] | _ => [rev acc] end
  | x :: rest =>
      if (length (x :: acc) =? batch_size)%nat
      then rev (x :: acc) :: batch_iter batch_size [] rest
      else batch_iter batch_size (x :: acc) rest
  end.

(** Slot [i] of the shuffle buffer taken out, or overwritten by [x]. *)
Definition take_slot (i : nat) (buf : list A) : list A :=
  firstn i buf ++ skipn (S i) buf.
Definition fill_slot (i : nat) (x : A) (buf : list A) : list A :=
  firstn i buf ++ x :: skipn (S i) buf.

(** [ShuffleDataset]'s iterator once the input has ended: the buffer is
    emptied, one randomly chosen slot at a time.  [rnd k] is the [k]-th
    draw of the random generator. *)
Fixpoint shuffle_drain (rnd : nat -> nat) (k n : nat) (buf : list A) : list A :=
  match n, buf with
  | S n', d :: _ =>
      let i := (rnd k mod length buf)%nat in
      nth i buf d :: shuffle_drain rnd (S k) n' (take_slot i buf)
  | _, _ => []
  end.

(** [ShuffleDataset]'s iterator while the input lasts: a randomly chosen
    slot of the buffer is emitted and refilled with the next element. *)
Fixpoint shuffle_iter (rnd : nat -> nat) (k : nat) (buf input : list A) : list A :=
  match input with
  | [] => shuffle_drain rnd k (length buf) buf
  | x :: rest =>
      match buf with
      | [] => []
      | d :: _ =>
          let i := (rnd k mod length buf)%nat in
          nth i buf d :: shuffle_iter rnd (S k) (fill_slot i x buf) rest
      end
  end.

Definition shuffle_pass (rnd : nat -> nat) (buffer_size : nat) (l : list A) : list A :=
  shuffle_iter rnd 0 (firstn buffer_size l) (skipn buffer_size l).
End Iteration.

(** One pass over a dataset.  [map] keeps the order of its input, [cache]
    and [prefetch] hand the elements on unchanged; a batch or buffer size
    of 0 is rejected when the iterator is created. *)
Fixpoint iterate {A} (ds : Dataset A) (rnd : nat -> nat) : result (list A) :=
  match ds with
  | TensorSliceDataset elements => Ok elements
  | MapDataset f _ input =>
      rbind (iterate input rnd) (fun l => Ok (List.map f l))
  | CacheDataset input => iterate input rnd
  | ShuffleDataset buffer_size input =>
      match buffer_size with
      | O => Raise (InvalidArgumentError "buffer_size must be greater than zero."%string)
      | _ => rbind (iterate input rnd) (fun l => Ok (shuffle_pass rnd buffer_size l))
      end
  | BatchDataset batch_size input =>
      match batch_size with
      | O => Raise (InvalidArgumentError "Batch size must be greater than zero."%string)
      | _ => rbind (iterate input rnd) (fun l => Ok (batch_iter batch_size [] l))
      end
  | PrefetchDataset _ input => iterate input rnd
  end.

End tfdata.

(** ** tensorflow_datasets *)

Record SplitInfo : Type := { num_examples : nat }.
Record DatasetInfo : Type := { splits : string -> SplitInfo }.

(** ** Cells "Pipe the data": the two input pipelines *)

(** <<
    ds_train = ds_train.map(normalize_img, num_parallel_calls=AUTOTUNE)
    ds_train = ds_train.cache()
    ds_train = ds_train.shuffle(ds_info.splits['train'].num_examples)
    ds_train = ds_train.batch(128)
    ds_train = ds_train.prefetch(AUTOTUNE)
    >> *)
Definition ds_train (ds_train : tfdata.Dataset Sample) (ds_info : DatasetInfo)
  : tfdata.Dataset (list NormalizedSample) :=
  let ds_train := tfdata.map ds_train normalize_img tfdata.AUTOTUNE in
  let ds_train := tfdata.cache ds_train in
  let ds_train := tfdata.shuffle ds_train (num_examples (splits ds_info "train"%string)) in
  let ds_train := tfdata.batch ds_train 128 in
  let ds_train := tfdata.prefetch ds_train tfdata.AUTOTUNE in
  ds_train.

(** <<
    ds_test = ds_test.map(normalize_img, num_parallel_calls=AUTOTUNE)
    ds_test = ds_test.cache()
    ds_test = ds_test.batch(128)
    ds_test = ds_test.prefetch(AUTOTUNE)
    >> *)
Definition ds_test (ds_test : tfdata.Dataset Sample)
  : tfdata.Dataset (list NormalizedSample) :=
  let ds_test := tfdata.map ds_test normalize_img tfdata.AUTOTUNE in
  let ds_test := tfdata.cache ds_test in
  let ds_test := tfdata.batch ds_test 128 in
  let ds_test := tfdata.prefetch ds_test tfdata.AUTOTUNE in
  ds_test.

(** ** NumPy *)

Module np.

(** [ndarray.reshape(newshape)]: the same elements under a new shape, or
    [ValueError] when the sizes differ. *)
Definition reshape {A} (a : ndarray A) (newshape : list nat) : result (ndarray A) :=
  if (size_of newshape =? length (data a))%nat
  then Ok (mk_ndarray newshape (data a))
  else Raise (ValueError "cannot reshape array").

(** [np.max] of a [uint8] array. *)
Definition max (a : ndarray Z) : result Z :=
  match data a with
  | [] => Raise (ValueError "zero-size array to reduction operation maximum which has no identity")
  | x :: l => Ok (fold_left Z.max l x)
  end.

(** [a / m] for a [uint8] array and a [uint8] scalar: NumPy's
    [true_divide], whose result is [float64].  Division by zero is not an
    error: it yields [inf] or [nan] (and a warning). *)
Definition true_divide (a : ndarray Z) (m : Z) : ndarray f64.t :=
  mk_ndarray (shape a) (map (fun p => f64.div (f64.of_Z p) (f64.of_Z m)) (data a)).

(** [np.argmax] over the flattened array: the loop of NumPy's
    [FLOAT_argmax].  The running maximum is replaced by any element that is
    not [<=] it, and the scan stops at the first NaN. *)
Fixpoint argmax_scan (mp : f32.t) (mi i : nat) (l : list f32.t) : nat :=
  match l with
  | [] => mi
  | x :: l' =>
      if f32.leb x mp then argmax_scan mp mi (S i) l'
      else if f32.is_nan x then i
      else argmax_scan x i (S i) l'
  end.

Definition argmax (a : ndarray f32.t) : result nat :=
  match data a with
  | [] => Raise (ValueError "attempt to get argmax of an empty sequence")
  | x :: l => Ok (if f32.is_nan x then O else argmax_scan x 0 1 l)
  end.

(** [a[0, ..., 0]] on an array of shape (N, ..., C): first index 0, last
    index 0, every index in between kept. *)
Definition first_last {A} (a : ndarray A) (d : A) : ndarray A :=
  let inner := removelast (tl (shape a)) in
  let c := last (shape a) 1%nat in
  mk_ndarray inner (map (fun k => nth (k * c) (data a) d) (seq 0 (size_of inner))).

End np.

(** ** PIL *)

(** A decoded image file.  [convert_L] is what [Image.convert("L")] returns
    for it: [height] rows of [width] 8-bit intensities, row by row. *)
Record GrayImage : Type := {
  width : nat;
  height : nat;
  pixels : list Z
}.

Record Image : Type := {
  mode : string;
  convert_L : GrayImage
}.

(** [np.array(img)] for an image of mode L: shape (height, width). *)
Definition np_array (img : GrayImage) : ndarray Z :=
  mk_ndarray [height img; width img] (pixels img).

(** ** Keras: layers and the forward pass *)

Module keras.

Inductive Activation : Type := linear | relu.
Inductive Padding : Type := valid | same.

(** Layer constructors with the keyword arguments the notebook passes. *)
Inductive Layer : Type :=
| Conv2D (kernel_size filters : nat) (input_shape : option (list nat))
    (activation : Activation) (padding : Padding)
| Flatten (input_shape : option (list nat))
| Dense (units : nat) (activation : Activation).

(** The trainable arrays of one layer, as functions of the index: Keras
    creates them with the shape the layer and its input demand, so no
    index is ever out of range.  A convolution kernel is indexed
    (row, column, input channel, filter), a dense kernel (input, unit). *)
Record LayerWeights : Type := {
  kernel : list nat -> f32.t;
  bias : nat -> f32.t
}.

(** A built model: the layers in order and the weights of the [i]-th. *)
Record Model : Type := {
  layers : list Layer;
  weights : nat -> LayerWeights
}.

(** [tf.nn.relu] is [max(x, 0)] with NaN handed on. *)
Definition activate (a : Activation) (x : f32.t) : f32.t :=
  match a with
  | linear => x
  | relu => if f32.ltb x f32.zero then f32.zero else x
  end.

Definition sum (l : list f32.t) : f32.t := fold_left f32.add l f32.zero.

(** Element (r, c, ch) of an H x W x C tensor, 0 outside of it (the
    zero padding). *)
Definition pixel (H W C : nat) (x : list f32.t) (r c : Z) (ch : nat) : f32.t :=
  if (0 <=? r) && (r <? Z.of_nat H) && (0 <=? c) && (c <? Z.of_nat W)
  then nth ((Z.to_nat r * W + Z.to_nat c) * C + ch) x f32.zero
  else f32.zero.

(** Stride 1.  With "same" padding the output keeps the height and width
    and [kernel_size - 1] rows and columns of zeros are added, the smaller
    half of them before the data; with "valid" padding nothing is added. *)
Definition pad_before (p : Padding) (kernel_size : nat) : nat :=
  match p with
  | same => (kernel_size - 1) / 2
  | valid => 0
  end.

Definition out_dim (p : Padding) (kernel_size n : nat) : nat :=
  match p with
  | same => n
  | valid => n + 1 - kernel_size
  end.

(** The products summed for output element (i, j, f). *)
Definition conv_terms (k : nat) (p : Padding) (w : LayerWeights)
    (H W C : nat) (x : list f32.t) (i j f : nat) : list f32.t :=
  flat_map (fun di =>
    flat_map (fun dj =>
      map (fun ch =>
        f32.mul
          (pixel H W C x
             (Z.of_nat i + Z.of_nat di - Z.of_nat (pad_before p k))
             (Z.of_nat j + Z.of_nat dj - Z.of_nat (pad_before p k)) ch)
          (kernel w [di; dj; ch; f]))
        (seq 0 C))
      (seq 0 k))
    (seq 0 k).

Definition conv2d (k filters : nat) (a : Activation) (p : Padding)
    (w : LayerWeights) (H W C : nat) (x : list f32.t) : list f32.t :=
  flat_map (fun i =>
    flat_map (fun j =>
      map (fun f =>
        activate a (f32.add (sum (conv_terms k p w H W C x i j f)) (bias w f)))
        (seq 0 filters))
      (seq 0 (out_dim p k W)))
    (seq 0 (out_dim p k H)).

Definition dense (units : nat) (a : Activation) (w : LayerWeights)
    (x : list f32.t) : list f32.t :=
  map (fun j =>
    activate a
      (f32.add
         (sum (map (fun i => f32.mul (nth i x f32.zero) (kernel w [i; j]))
                 (seq 0 (length x))))
         (bias w j)))
    (seq 0 units).

(** One layer applied to one sample. *)
Definition call_layer (l : Layer) (w : LayerWeights) (x : ndarray f32.t)
  : result (ndarray f32.t) :=
  match l with
  | Conv2D k filters _ a p =>
      match shape x with
      | [H; W; C] =>
          if (k <=? H)%nat && (k <=? W)%nat || match p with same => true | valid => false end
          then Ok (mk_ndarray [out_dim p k H; out_dim p k W; filters]
                     (conv2d k filters a p w H W C (data x)))
          else Raise (ValueError "Negative dimension size")
      | _ => Raise (ValueError "Input 0 of layer conv2d is incompatible with the layer")
      end
  | Flatten _ => Ok (mk_ndarray [size_of (shape x)] (data x))
  | Dense units a =>
      match shape x with
      | [_] => Ok (mk_ndarray [units] (dense units a w (data x)))
      | _ => Raise (ValueError "Input 0 of layer dense is incompatible with the layer")
      end
  end.

Fixpoint call_layers (ls : list Layer) (w : nat -> LayerWeights) (i : nat)
    (x : ndarray f32.t) : result (ndarray f32.t) :=
  match ls with
  | [] => Ok x
  | l :: ls' => rbind (call_layer l (w i) x) (call_layers ls' w (S i))
  end.

(** The input shape of a model is the [input_shape] of its first layer. *)
Definition input_shape_of (ls : list Layer) : option (list nat) :=
  match ls with
  | Conv2D _ _ s _ _ :: _ => s
  | Flatten s :: _ => s
  | _ => None
  end.

(** The forward pass on one sample. *)
Definition forward (m : Model) (x : ndarray f32.t) : result (ndarray f32.t) :=
  call_layers (layers m) (weights m) 0 x.

(** The samples of a batch of shape (N, ...). *)
Fixpoint unstack (n : nat) (sh : list nat) (l : list f32.t) : list (ndarray f32.t) :=
  match n with
  | O => []
  | S n' => mk_ndarray sh (firstn (size_of sh) l) :: unstack n' sh (skipn (size_of sh) l)
  end.

Definition stack (outs : list (ndarray f32.t)) : ndarray f32.t :=
  mk_ndarray (length outs :: match outs with o :: _ => shape o | [] => [] end)
    (concat (List.map data outs)).

(** The checks and the cast every entry point of a model makes first: the
    input is cast to [float32] and its shape, batch dimension apart, must
    be the model's input shape. *)
Definition prepare (m : Model) (x : ndarray f64.t) : result (list (ndarray f32.t)) :=
  match shape x with
  | n :: sh =>
      match input_shape_of (layers m) with
      | Some s =>
          if list_eq_dec Nat.eq_dec sh s
          then Ok (unstack n sh (List.map f32.round (data x)))
          else Raise (ValueError "Input 0 of layer sequential is incompatible with the layer")
      | None => Ok (unstack n sh (List.map f32.round (data x)))
      end
  | [] => Raise (ValueError "Input 0 of layer sequential is incompatible with the layer")
  end.

(** [model(x)]: one forward pass over the whole batch. *)
Definition call (m : Model) (x : ndarray f64.t) : result (ndarray f32.t) :=
  rbind (prepare m x) (fun xs =>
  rbind (rmapM (forward m) xs) (fun outs =>
  Ok (stack outs))).

(** [model.predict(x)] does not run the layers one by one: it runs the
    function TensorFlow compiles the model to, with the kernels the runtime
    picks for it, some of them fused.  That function is no part of the
    notebook and need not agree with [call] bit for bit (nor on NaN, which a
    fused kernel may replace); it is a parameter here: [graph_function rt m b]
    is the array it returns for the batch [b].  Whether [predict] reports its
    progress on the standard output depends on the default of its argument
    [verbose], which changed between releases. *)
Record Runtime : Type := {
  graph_function : Model -> ndarray f32.t -> ndarray f32.t;
  predict_verbose : bool
}.

Definition predict_batch_size : nat := 32.

(** [np.concatenate] of the outputs of the batches along the first axis. *)
Definition concatenate (outs : list (ndarray f32.t)) : ndarray f32.t :=
  match outs with
  | [o] => o
  | _ =>
      mk_ndarray
        (list_sum (List.map (fun o => hd O (shape o)) outs)
         :: match outs with o :: _ => tl (shape o) | [] => [] end)
        (concat (List.map data outs))
  end.

(** [model.predict(x)]: the input is checked and cast, cut into batches of
    [batch_size] (32 unless given), each batch goes through the compiled
    function, and the outputs are concatenated.  The result comes with the
    number of batches, which is what the progress bar counts. *)
Definition predict (rt : Runtime) (m : Model) (x : ndarray f64.t)
  : result (nat * ndarray f32.t) :=
  rbind (prepare m x) (fun xs =>
  let batches := List.map stack (tfdata.batch_iter predict_batch_size [] xs) in
  Ok (length batches, concatenate (List.map (graph_function rt m) batches))).

End keras.

(** ** Cell "Create the model" *)

(** <<
    model = tf.keras.models.Sequential([
        layers.Conv2D(kernel_size=4, filters=3, input_shape=(28, 28, 1),
                      activation='relu', padding='same'),
        layers.Flatten(input_shape=(28, 28, 1)),
        layers.Dense(64, activation='relu'),
        layers.Dense(10),
    ])
    >> *)
Definition model : list keras.Layer :=
  [ keras.Conv2D 4 3 (Some [28; 28; 1]%nat) keras.relu keras.same;
    keras.Flatten (Some [28; 28; 1]%nat);
    keras.Dense 64 keras.relu;
    keras.Dense 10 keras.linear ].

(** The model once Keras has built it, with the weights [ws]. *)
Definition built (ws : nat -> keras.LayerWeights) : keras.Model :=
  {| keras.layers := model; keras.weights := ws |}.

(** ** Keras: compilation *)

Inductive Optimizer : Type :=
| Adam (learning_rate : Q)
| SGD (learning_rate : Q).

Inductive Loss : Type :=
| SparseCategoricalCrossentropy (from_logits : bool)
| CategoricalCrossentropy (from_logits : bool).

Inductive Metric : Type :=
| SparseCategoricalAccuracy
| CategoricalAccuracy.

Record CompileArgs : Type := {
  optimizer : Optimizer;
  loss : Loss;
  metrics : list Metric
}.

(** [tf.argmax] along the last axis: Eigen's reduction of the pairs
    (index, value).  The accumulator starts as (0, lowest finite float) and
    is replaced by a pair whose value is greater.  A NaN is never greater,
    so it is passed over; an array of NaNs yields 0. *)
Fixpoint tf_argmax_scan (mp : f32.t) (mi i : nat) (l : list f32.t) : nat :=
  match l with
  | [] => mi
  | x :: l' =>
      if f32.ltb mp x then tf_argmax_scan x i (S i) l'
      else tf_argmax_scan mp mi (S i) l'
  end.

Definition tf_argmax (l : list f32.t) : nat :=
  tf_argmax_scan f32.lowest 0 0 l.

(** [sparse_categorical_accuracy(y_true, y_pred)]: 1 when the position of
    the greatest prediction is the integer label, else 0.  The metric
    [SparseCategoricalAccuracy] reports the mean of it over the samples. *)
Definition sparse_categorical_accuracy (y_true : Z) (y_pred : list f32.t) : bool :=
  Z.of_nat (tf_argmax y_pred) =? y_true.

(** <<
    model.compile(
        optimizer=tf.keras.optimizers.Adam(0.001),
        loss=tf.keras.losses.SparseCategoricalCrossentropy(from_logits=True),
        metrics=[tf.keras.metrics.SparseCategoricalAccuracy()],
    )
    >> *)
Definition model_compile : CompileArgs :=
  {| optimizer := Adam (1 # 1000);
     loss := SparseCategoricalCrossentropy true;
     metrics := [SparseCategoricalAccuracy] |}.

(** ** Keras: the loss

    The value of the loss for one sample, in real arithmetic: the function
    the float32 kernel approximates.  With [from_logits=True] the sparse
    categorical cross-entropy is
    [tf.nn.sparse_softmax_cross_entropy_with_logits]: the logarithm of the
    sum of the exponentials of the logits, minus the logit of the label.
    The other losses are not used by the notebook and are given no
    function here. *)
(** The sum of the exponentials of the logits. *)
Definition sum_exp (z : list R) : R := fold_right Rplus 0%R (map exp z).

(** The probabilities the logits stand for. *)
Definition softmax (z : list R) : list R := map (fun a => (exp a / sum_exp z)%R) z.

(** The distribution that puts all weight on class [y]. *)
Definition one_hot (n y : nat) : list R :=
  map (fun j => if (j =? y)%nat then 1%R else 0%R) (seq 0 n).

(** The cross-entropy of a predicted distribution against a target. *)
Definition crossentropy (target predicted : list R) : R :=
  (- fold_right Rplus 0 (map (fun tq => fst tq * ln (snd tq)) (combine target predicted)))%R.

Definition sparse_softmax_cross_entropy_with_logits (labels : nat) (logits : list R) : R :=
  (ln (sum_exp logits) - nth labels logits 0)%R.

Definition loss_fn (l : Loss) : option (nat -> list R -> R) :=
  match l with
  | SparseCategoricalCrossentropy true => Some sparse_softmax_cross_entropy_with_logits
  | _ => None
  end.

(** ** Keras: the training loop and early stopping

    Keras logs the losses of an epoch as float32 values and hands them to
    the callbacks.  [EarlyStopping] compares [current + min_delta < best],
    the sum taken in float64.  The model decides the comparison on the
    exact values of the float32 losses ([improved]); [improved_float64] is
    the comparison in float64 arithmetic, against which [improved] is
    checked on the runs given below.  Infinities and NaN compare as they
    do in IEEE arithmetic. *)

Definition Qltb (x y : Q) : bool := negb (Qle_bool y x).

Module EarlyStopping.

(** The constructor arguments the notebook gives; [monitor] is left at
    ["val_loss"], so the callback looks for a decrease. *)
Record Args : Type := {
  patience : nat;
  min_delta : Q;
  restore_best_weights : bool
}.

(** The callback has been rewritten more than once.  As far as the
    notebook's arguments reach, the releases are of four kinds:
    - [restores_unchecked]: when the patience is used up the callback stops
      the training and calls [set_weights(best_weights)], whether or not a
      checkpoint was ever taken;
    - [restores_checked]: it restores only if there is a checkpoint;
    - [checkpoints_first_epoch]: as long as there is no checkpoint the
      weights at the end of the epoch are taken as one, and the training
      is stopped no earlier than after the second epoch;
    - [restores_on_train_end]: as the last, but the weights are restored in
      [on_train_end], whenever there is a checkpoint, whether the training
      was stopped or ran all its epochs (Keras 3). *)
Inductive Release : Type :=
| restores_unchecked
| restores_checked
| checkpoints_first_epoch
| restores_on_train_end.

Definition takes_first_checkpoint (r : Release) : bool :=
  match r with
  | checkpoints_first_epoch | restores_on_train_end => true
  | _ => false
  end.

Definition restores_at_stop (r : Release) : bool :=
  match r with restores_on_train_end => false | _ => true end.

Definition restores_at_train_end (r : Release) : bool :=
  match r with restores_on_train_end => true | _ => false end.

Definition checks_checkpoint (r : Release) : bool :=
  match r with restores_unchecked => false | _ => true end.

(** Whether the training is stopped at the end of epoch [epoch], given
    whether the epoch improved on the record and the epochs waited. *)
Definition stops (r : Release) (better : bool) (patience wait epoch : nat) : bool :=
  match r with
  | restores_unchecked => negb better && (patience <=? wait)%nat
  | restores_checked => (patience <=? wait)%nat
  | checkpoints_first_epoch => (patience <=? wait)%nat && (0 <? epoch)%nat
  | restores_on_train_end => negb better && (patience <=? wait)%nat && (0 <? epoch)%nat
  end.

(** The callback's attributes. *)
Record State (Weights : Type) : Type := {
  wait : nat;
  stopped_epoch : nat;
  best : f32.t;
  best_weights : option Weights
}.
Arguments wait {Weights} _.
Arguments stopped_epoch {Weights} _.
Arguments best {Weights} _.
Arguments best_weights {Weights} _.

(** [on_train_begin]: the record starts at [np.Inf]. *)
Definition on_train_begin {Weights} : State Weights :=
  {| wait := 0; stopped_epoch := 0; best := S754_infinity false; best_weights := None |}.

(** [monitor_op(current - min_delta, best)] with [monitor_op = np.less]
    and [min_delta] negated for a loss: [current + min_delta < best].  A
    comparison with NaN is false, and so is [inf < inf]. *)
Definition improved (a : Args) (current best : f32.t) : bool :=
  match current, best with
  | S754_nan, _ | _, S754_nan => false
  | S754_infinity false, _ => false
  | S754_infinity true, S754_infinity true => false
  | S754_infinity true, _ => true
  | _, S754_infinity false => true
  | _, S754_infinity true => false
  | _, _ => Qltb (f32.to_Q current + min_delta a) (f32.to_Q best)
  end.

(** The same comparison as the callback computes it: the loss and the
    record are widened to float64, [min_delta] is the float64 nearest to
    the argument, and the sum is rounded to float64. *)
Definition improved_float64 (a : Args) (current best : f32.t) : bool :=
  f64.ltb
    (f64.add (f64.of_f32 current)
       (f64.div (f64.of_Z (Qnum (min_delta a))) (f64.of_Z (Zpos (Qden (min_delta a))))))
    (f64.of_f32 best).

End EarlyStopping.

(** The logs of one epoch. *)
Record Logs : Type := {
  logs_loss : f32.t;
  logs_accuracy : f32.t;
  val_loss : f32.t;
  val_accuracy : f32.t
}.

Section Training.

(** What [model.get_weights()] returns, and the optimizer's own slots. *)
Variable Weights : Type.
Variable OptimizerState : Type.

(** One pass over [ds_train] in epoch [epoch]: the optimizer steps of
    all batches, and the mean training loss and accuracy. *)
Variable train_epoch :
  nat -> Weights * OptimizerState -> (Weights * OptimizerState) * (f32.t * f32.t).

(** One pass over [ds_test]: validation loss and accuracy. *)
Variable evaluate : Weights -> f32.t * f32.t.

(** The model under training, the callback, the history so far, and the
    exception that has ended the training, if one has. *)
Record FitState : Type := {
  get_weights : Weights;
  optimizer_state : OptimizerState;
  stop_training : bool;
  callback : EarlyStopping.State Weights;
  history : list Logs;
  raised : option exception
}.

(** [EarlyStopping.on_epoch_end(epoch, logs)] *)
Definition on_epoch_end (r : EarlyStopping.Release) (a : EarlyStopping.Args)
    (epoch : nat) (logs : Logs) (st : FitState) : FitState :=
  let cb := callback st in
  let current := val_loss logs in
  let restore := EarlyStopping.restore_best_weights a in
  let first_checkpoint :=
    match EarlyStopping.best_weights cb with
    | None =>
        if restore && EarlyStopping.takes_first_checkpoint r
        then Some (get_weights st) else None
    | Some w => Some w
    end in
  let better := EarlyStopping.improved a current (EarlyStopping.best cb) in
  let wait := if better then O else S (EarlyStopping.wait cb) in
  let checkpoint := if better && restore then Some (get_weights st) else first_checkpoint in
  let stop := EarlyStopping.stops r better (EarlyStopping.patience a) wait epoch in
  let cb' :=
    {| EarlyStopping.wait := wait;
       EarlyStopping.stopped_epoch := if stop then epoch else EarlyStopping.stopped_epoch cb;
       EarlyStopping.best := if better then current else EarlyStopping.best cb;
       EarlyStopping.best_weights := checkpoint |} in
  if stop && restore && EarlyStopping.restores_at_stop r then
    match checkpoint with
    | Some w =>
        {| get_weights := w;
           optimizer_state := optimizer_state st;
           stop_training := true;
           callback := cb';
           history := history st;
           raised := raised st |}
    | None =>
        {| get_weights := get_weights st;
           optimizer_state := optimizer_state st;
           stop_training := true;
           callback := cb';
           history := history st;
           raised :=
             if EarlyStopping.checks_checkpoint r then raised st
             else Some (TypeError "object of type 'NoneType' has no len()") |}
    end
  else
    {| get_weights := get_weights st;
       optimizer_state := optimizer_state st;
       stop_training := stop || stop_training st;
       callback := cb';
       history := history st;
       raised := raised st |}.

(** One epoch of [Model.fit]: train, validate, record the logs in the
    history, run the callback. *)
Definition run_epoch (r : EarlyStopping.Release) (a : EarlyStopping.Args)
    (epoch : nat) (st : FitState) : FitState :=
  let '(w, o, (l, acc)) := train_epoch epoch (get_weights st, optimizer_state st) in
  let '(vl, vacc) := evaluate w in
  let logs := {| logs_loss := l; logs_accuracy := acc;
                 val_loss := vl; val_accuracy := vacc |} in
  on_epoch_end r a epoch logs
    {| get_weights := w;
       optimizer_state := o;
       stop_training := stop_training st;
       callback := callback st;
       history := history st ++ [logs];
       raised := raised st |}.

(** <<
    for epoch in range(initial_epoch, epochs):
        ...
        if self.stop_training: break
    >>
    [n] epochs are left, the next one is [epoch].  An exception raised in
    the callback ends the loop as well. *)
Fixpoint fit_loop (r : EarlyStopping.Release) (a : EarlyStopping.Args)
    (n epoch : nat) (st : FitState) : FitState :=
  match n with
  | O => st
  | S n' =>
      let st' := run_epoch r a epoch st in
      if stop_training st' then st' else fit_loop r a n' (S epoch) st'
  end.

(** [EarlyStopping.on_train_end] *)
Definition on_train_end (r : EarlyStopping.Release) (a : EarlyStopping.Args)
    (st : FitState) : FitState :=
  if EarlyStopping.restores_at_train_end r && EarlyStopping.restore_best_weights a then
    match EarlyStopping.best_weights (callback st) with
    | Some w =>
        {| get_weights := w;
           optimizer_state := optimizer_state st;
           stop_training := stop_training st;
           callback := callback st;
           history := history st;
           raised := raised st |}
    | None => st
    end
  else st.

(** [model.fit(ds_train, epochs=epochs, validation_data=ds_test,
    callbacks=[cb])] on a model with the given weights: the state it
    leaves behind.  When [raised] is set the call has raised and the
    callbacks were not told of the end of the training. *)
Definition fit (r : EarlyStopping.Release) (a : EarlyStopping.Args) (epochs : nat)
    (w0 : Weights) (o0 : OptimizerState) : FitState :=
  let st :=
    fit_loop r a epochs 0
      {| get_weights := w0;
         optimizer_state := o0;
         stop_training := false;
         callback := EarlyStopping.on_train_begin;
         history := [];
         raised := None |} in
  match raised st with
  | Some _ => st
  | None => on_train_end r a st
  end.

End Training.

Arguments get_weights {Weights OptimizerState} _.
Arguments optimizer_state {Weights OptimizerState} _.
Arguments stop_training {Weights OptimizerState} _.
Arguments callback {Weights OptimizerState} _.
Arguments history {Weights OptimizerState} _.
Arguments raised {Weights OptimizerState} _.
Arguments fit {Weights OptimizerState} _ _ _ _ _ _ _.

(** ** Cell "Train the model" *)

(** <<
    early_stopping = tf.keras.callbacks.EarlyStopping(
        patience=5, min_delta=0.001, restore_best_weights=True)
    >> *)
Definition early_stopping : EarlyStopping.Args :=
  {| EarlyStopping.patience := 5;
     EarlyStopping.min_delta := 1 # 1000;
     EarlyStopping.restore_best_weights := true |}.

(** <<
    history = model.fit(ds_train, epochs=100, validation_data=ds_test,
                        callbacks=[early_stopping])
    >> *)
Definition model_fit {Weights OptimizerState} (release : EarlyStopping.Release)
    (train_epoch : nat -> Weights * OptimizerState -> (Weights * OptimizerState) * (f32.t * f32.t))
    (evaluate : Weights -> f32.t * f32.t) (w0 : Weights) (o0 : OptimizerState)
  : FitState Weights OptimizerState :=
  fit train_epoch evaluate release early_stopping 100 w0 o0.

(** ** The world outside the notebook, and cells as computations in it *)

(** What [tfds.load] delivers when it succeeds. *)
Record Mnist : Type := {
  train : list Sample;
  test : list Sample;
  info : DatasetInfo
}.

(** What a cell prints or draws. *)
Inductive Output : Type :=
| ProgressBar (steps : nat)
| PrintArray (a : ndarray f32.t)
| PrintPrediction (digit : nat)
| Imshow (a : ndarray f64.t).

Record World : Type := {
  (** what the [n]-th attempt to fetch a dataset meets *)
  tfds_outcome : string -> nat -> result Mnist;
  tfds_attempts : nat;
  (** the image files there are, decoded *)
  files : string -> option Image;
  stdout : list Output
}.

(** A cell (or a call in it) either returns or raises; what it did to the
    world before raising stays done. *)
Definition Cell (A : Type) : Type := World -> result A * World.

Definition ret {A} (a : A) : Cell A := fun w => (Ok a, w).

Definition bind {A B} (c : Cell A) (k : A -> Cell B) : Cell B :=
  fun w =>
    match c w with
    | (Ok a, w') => k a w'
    | (Raise e, w') => (Raise e, w')
    end.

Definition lift {A} (r : result A) : Cell A := fun w => (r, w).

Declare Scope cell_scope.
Delimit Scope cell_scope with cell.
Notation "x <- c ;; k" := (bind c (fun x => k))
  (at level 61, c at next level, right associativity) : cell_scope.
Notation "c ;; k" := (bind c (fun _ => k))
  (at level 61, right associativity) : cell_scope.

(** [tfds.load(name, split=['train', 'test'], shuffle_files=...,
    as_supervised=True, with_info=True)]: one attempt to fetch the dataset.
    With [shuffle_files=True] the files of a split are read in an order
    chosen at random; the lists of the outcome hold the samples in the
    order in which this load delivers them. *)
Definition tfds_load (name : string) (shuffle_files : bool)
  : Cell (tfdata.Dataset Sample * tfdata.Dataset Sample * DatasetInfo) :=
  fun w =>
    (rbind (tfds_outcome w name (tfds_attempts w)) (fun m =>
       Ok (tfdata.TensorSliceDataset (train m),
           tfdata.TensorSliceDataset (test m),
           info m)),
     {| tfds_outcome := tfds_outcome w;
        tfds_attempts := S (tfds_attempts w);
        files := files w;
        stdout := stdout w |}).

(** [PIL.Image.open(path)] *)
Definition Image_open (path : string) : Cell Image :=
  fun w =>
    match files w path with
    | Some img => (Ok img, w)
    | None => (Raise (FileNotFoundError path), w)
    end.

Definition with_stdout (w : World) (out : list Output) : World :=
  {| tfds_outcome := tfds_outcome w;
     tfds_attempts := tfds_attempts w;
     files := files w;
     stdout := out |}.

(** [print] and [plt.imshow]: one more piece of output. *)
Definition emit (o : Output) : Cell unit :=
  fun w => (Ok tt, with_stdout w (stdout w ++ [o])).

(** [model.predict(x)] as a call in a cell: when it is verbose it writes
    its progress bar before it returns. *)
Definition model_predict (rt : keras.Runtime) (model : keras.Model) (x : ndarray f64.t)
  : Cell (ndarray f32.t) :=
  fun w =>
    match keras.predict rt model x with
    | Ok (steps, out) =>
        (Ok out,
         if keras.predict_verbose rt
         then with_stdout w (stdout w ++ [ProgressBar steps])
         else w)
    | Raise e => (Raise e, w)
    end.

(** ** Cell "Get MNIST input data" *)

(** <<
    (ds_train, ds_test), ds_info = tfds.load(
        'mnist', split=['train', 'test'], shuffle_files=True,
        as_supervised=True, with_info=True)
    >> *)
Definition load_cell
  : Cell (tfdata.Dataset Sample * tfdata.Dataset Sample * DatasetInfo) :=
  tfds_load "mnist" true.

(** ** The inference cell *)

(** <<
    img = PIL.Image.open("tf_classification_user.png").convert("L")
    imgarr = np.array(img).reshape((1,28,28,1))
    imgarr = imgarr / np.max(imgarr)
    print(model.predict(imgarr))
    print(f"prediction: {np.argmax(model(imgarr))}")
    plt.imshow(imgarr[0,:,:,0], cmap="gray")
    >> *)
Definition inference_cell (rt : keras.Runtime) (model : keras.Model) : Cell unit :=
  (img <- Image_open "tf_classification_user.png" ;;
   let img := convert_L img in
   imgarr <- lift (np.reshape (np_array img) [1; 28; 28; 1]%nat) ;;
   m <- lift (np.max imgarr) ;;
   let imgarr := np.true_divide imgarr m in
   logits <- model_predict rt model imgarr ;;
   emit (PrintArray logits) ;;
   out <- lift (keras.call model imgarr) ;;
   digit <- lift (np.argmax out) ;;
   emit (PrintPrediction digit) ;;
   emit (Imshow (np.first_last imgarr f64.zero)))%cell.

(** ** The inference step as the specification words it

    Load, convert to single-channel intensity, reshape, divide every pixel
    by the image's own maximum, run the forward pass, report the position
    of the greatest logit.  The functions below say this on the pixel list;
    the verification relates [inference_cell] to them. *)

Definition image_maximum (px : list Z) : Z := fold_left Z.max (tl px) (hd 0 px).

Definition per_image_normalized (px : list Z) : list f64.t :=
  map (fun p => f64.div (f64.of_Z p) (f64.of_Z (image_maximum px))) px.

(** The forward pass of the notebook's model written out, element by
    element, in float32 additions and multiplications.  [x] holds the
    28 x 28 intensities of one sample, row by row.

    - Convolution: output (i, j, f) sums the 16 products of the 4 x 4 window
      whose upper left corner is (i - 1, j - 1) with filter [f], taken row
      by row, adds the bias, and applies ReLU; outside of the image the
      window reads 0.  The 28 x 28 x 3 outputs are laid out row by row, the
      filters of one position next to each other.
    - Hidden layer: unit [j] sums the products of the 2352 convolution
      outputs with its weights, adds its bias, and applies ReLU.
    - Output layer: logit [j] sums the products of the 64 hidden units with
      its weights and adds its bias. *)
Definition relu_of (s : f32.t) : f32.t :=
  if f32.ltb s f32.zero then f32.zero else s.

Definition input_at (x : list f32.t) (r c : Z) : f32.t :=
  if (0 <=? r) && (r <? 28) && (0 <=? c) && (c <? 28)
  then nth (Z.to_nat (r * 28 + c)) x f32.zero
  else f32.zero.

Definition weighted_sum (products : list f32.t) (b : f32.t) : f32.t :=
  f32.add (fold_left f32.add products f32.zero) b.

Definition conv_value (ws : nat -> keras.LayerWeights) (x : list f32.t) (i j f : nat) : f32.t :=
  relu_of
    (weighted_sum
       (map (fun d =>
               f32.mul
                 (input_at x (Z.of_nat i + Z.of_nat (fst d) - 1)
                             (Z.of_nat j + Z.of_nat (snd d) - 1))
                 (keras.kernel (ws 0%nat) [fst d; snd d; 0; f]%nat))
          (list_prod (seq 0 4) (seq 0 4)))
       (keras.bias (ws 0%nat) f)).

Definition conv_values (ws : nat -> keras.LayerWeights) (x : list f32.t) : list f32.t :=
  map (fun k => conv_value ws x (k / 84) (k mod 84 / 3) (k mod 84 mod 3)) (seq 0 2352).

Definition hidden_value (ws : nat -> keras.LayerWeights) (conv : list f32.t) (j : nat) : f32.t :=
  relu_of
    (weighted_sum
       (map (fun i => f32.mul (nth i conv f32.zero) (keras.kernel (ws 2%nat) [i; j]))
          (seq 0 2352))
       (keras.bias (ws 2%nat) j)).

Definition logit_value (ws : nat -> keras.LayerWeights) (hidden : list f32.t) (j : nat) : f32.t :=
  weighted_sum
    (map (fun i => f32.mul (nth i hidden f32.zero) (keras.kernel (ws 3%nat) [i; j]))
       (seq 0 64))
    (keras.bias (ws 3%nat) j).

Definition logits_of (ws : nat -> keras.LayerWeights) (x : list f32.t) : list f32.t :=
  map (logit_value ws (map (hidden_value ws (conv_values ws x)) (seq 0 64))) (seq 0 10).

(** The logits of an image given as [float64] intensities, which the model
    casts to [float32] first. *)
Definition logits_for (ws : nat -> keras.LayerWeights) (input : list f64.t) : list f32.t :=
  logits_of ws (map f32.round input).

Definition first_greatest (l : list f32.t) : nat :=
  match l with
  | [] => O
  | x :: l' => if f32.is_nan x then O else np.argmax_scan x 0 1 l'
  end.


(** What the cell prints and draws for the pixels [px]: the progress bar
    of [model.predict] when it is verbose, what the compiled function
    returns, the position found in the logits of [model(imgarr)], and the
    picture. *)
Definition inference_output (rt : keras.Runtime) (ws : nat -> keras.LayerWeights)
    (px : list Z) : list Output :=
  let imgarr := per_image_normalized px in
  (if keras.predict_verbose rt then [ProgressBar 1] else [])
  ++ [ PrintArray
         (keras.graph_function rt (built ws)
            (mk_ndarray [1; 28; 28; 1]%nat (map f32.round imgarr)));
       PrintPrediction (first_greatest (logits_for ws imgarr));
       Imshow (mk_ndarray [28; 28]%nat imgarr) ].


(** ** Early stopping as the specification words it

    [current] improves on [record] by at least [d].  The record starts at
    infinity, on which every number improves; NaN improves on nothing and
    nothing improves on it. *)
Definition improves_by_at_least (d : Q) (current record : f32.t) : bool :=
  match current, record with
  | S754_nan, _ | _, S754_nan => false
  | S754_infinity false, _ => false
  | S754_infinity true, S754_infinity true => false
  | S754_infinity true, _ => true
  | _, S754_infinity false => true
  | _, S754_infinity true => false
  | _, _ => Qle_bool d (f32.to_Q record - f32.to_Q current)
  end.

(** The callback replayed on the list of validation losses alone:
    [recorded d vals] is the loss on record after [vals] (a loss goes on
    record only if it improves on the record by at least [d]) and the
    number of epochs since then. *)
Definition record_epoch (d : Q) (s : f32.t * nat) (current : f32.t) : f32.t * nat :=
  if improves_by_at_least d current (fst s) then (current, O)
  else (fst s, S (snd s)).

Definition recorded (d : Q) (vals : list f32.t) : f32.t * nat :=
  fold_left (record_epoch d) vals (S754_infinity false, O).

Definition recorded_best (d : Q) (vals : list f32.t) : f32.t :=
  fst (recorded d vals).

(** The number of consecutive epochs, up to the last one, without a loss
    going on record. *)
Definition stale_epochs (d : Q) (vals : list f32.t) : nat :=
  snd (recorded d vals).

(** What holds of the training state after every epoch, in terms of the
    validation losses in the history. *)
Definition losses {Weights OptimizerState} (st : FitState Weights OptimizerState)
  : list f32.t :=
  map val_loss (history st).

Record fit_inv {Weights OptimizerState} (evaluate : Weights -> f32.t * f32.t)
    (r : EarlyStopping.Release) (a : EarlyStopping.Args)
    (st : FitState Weights OptimizerState) : Prop := {
  inv_recorded :
    recorded (EarlyStopping.min_delta a) (losses st)
    = (EarlyStopping.best (callback st), EarlyStopping.wait (callback st));
  inv_stop :
    stop_training st = true
    <-> (EarlyStopping.patience a <= EarlyStopping.wait (callback st))%nat;
  inv_wait : (EarlyStopping.wait (callback st) <= EarlyStopping.patience a)%nat;
  inv_waited : (EarlyStopping.wait (callback st) <= length (history st))%nat;
  inv_prefix :
    forall k, (k < length (losses st))%nat ->
      (stale_epochs (EarlyStopping.min_delta a) (firstn k (losses st))
       < EarlyStopping.patience a)%nat;
  inv_unbeaten :
    forall c, In c (losses st) ->
      improves_by_at_least (EarlyStopping.min_delta a) c
        (EarlyStopping.best (callback st)) = false;
  inv_checkpoint :
    EarlyStopping.best (callback st) <> S754_infinity false ->
    exists wb,
      EarlyStopping.best_weights (callback st) = Some wb /\
      fst (evaluate wb) = EarlyStopping.best (callback st) /\
      In (EarlyStopping.best (callback st)) (losses st);
  inv_restored :
    stop_training st = true -> EarlyStopping.restores_at_stop r = true ->
    forall wb, EarlyStopping.best_weights (callback st) = Some wb -> get_weights st = wb;
  inv_raised :
    raised st <> None ->
    stop_training st = true /\
    EarlyStopping.best (callback st) = S754_infinity false /\
    EarlyStopping.best_weights (callback st) = None
}.

(** A training run.  Weights are identified with the number of epochs
    that produced them.  In [plateau] the validation loss is 1 except after
    the second epoch, when it is 2047/2048 = 0.99951171875. *)
Definition count_epoch (epoch : nat) (s : nat * unit) : (nat * unit) * (f32.t * f32.t) :=
  ((S (fst s), tt), (f32.zero, f32.zero)).

Definition plateau (w : nat) : f32.t * f32.t :=
  (if (w =? 2)%nat then f32.div (f32.of_Z 2047) (f32.of_Z 2048) else f32.one, f32.zero).

(** The four kinds of releases. *)
Definition releases : list EarlyStopping.Release :=
  [ EarlyStopping.restores_unchecked; EarlyStopping.restores_checked;
    EarlyStopping.checkpoints_first_epoch; EarlyStopping.restores_on_train_end ].

(** ** Training without the callback

    The state after [n] epochs of training that nothing interrupts, and
    the logs of epoch [n] (counted from 0) of such training. *)
Fixpoint trained {Weights OptimizerState}
    (train_epoch : nat -> Weights * OptimizerState -> (Weights * OptimizerState) * (f32.t * f32.t))
    (w0 : Weights) (o0 : OptimizerState) (n : nat) : Weights * OptimizerState :=
  match n with
  | O => (w0, o0)
  | S n' => fst (train_epoch n' (trained train_epoch w0 o0 n'))
  end.

Definition plain_logs {Weights OptimizerState}
    (train_epoch : nat -> Weights * OptimizerState -> (Weights * OptimizerState) * (f32.t * f32.t))
    (evaluate : Weights -> f32.t * f32.t) (w0 : Weights) (o0 : OptimizerState) (n : nat) : Logs :=
  let '(w, o, (l, acc)) := train_epoch n (trained train_epoch w0 o0 n) in
  let '(vl, vacc) := evaluate w in
  {| logs_loss := l; logs_accuracy := acc; val_loss := vl; val_accuracy := vacc |}.

(** How the state of the training loop relates to uninterrupted training
    after [epoch] epochs. *)
Record follows_training {Weights OptimizerState}
    (train_epoch : nat -> Weights * OptimizerState -> (Weights * OptimizerState) * (f32.t * f32.t))
    (evaluate : Weights -> f32.t * f32.t) (w0 : Weights) (o0 : OptimizerState)
    (r : EarlyStopping.Release)
    (st : FitState Weights OptimizerState) (epoch : nat) : Prop := {
  ft_history : history st = map (plain_logs train_epoch evaluate w0 o0) (seq 0 epoch);
  ft_optimizer : optimizer_state st = snd (trained train_epoch w0 o0 epoch);
  ft_weights :
    stop_training st = false \/ EarlyStopping.restores_at_stop r = false
    \/ EarlyStopping.best_weights (callback st) = None ->
    get_weights st = fst (trained train_epoch w0 o0 epoch);
  ft_checkpoint :
    EarlyStopping.best (callback st) <> S754_infinity false ->
    forall wb, EarlyStopping.best_weights (callback st) = Some wb ->
      (EarlyStopping.wait (callback st) < epoch)%nat /\
      wb = fst (trained train_epoch w0 o0 (epoch - EarlyStopping.wait (callback st)));
  ft_recorded :
    EarlyStopping.best (callback st) <> S754_infinity false ->
    EarlyStopping.best_weights (callback st) <> None
}.

(** A run in which the validation loss falls by 1 in every epoch. *)
Definition steady_fall (w : nat) : f32.t * f32.t :=
  (f32.of_Z (200 - Z.of_nat w), f32.zero).


(** ** Cell "lookup": a look at one training sample

    <<
    lookup_index = 7
    for images, labels in ds_train.take(lookup_index):
        lookup_index -= 1
        if lookup_index == 0:
            print(f"label: {labels}")
            plt.imshow(images[:,:,0], cmap="gray")
            break
    >>
    The cell runs on the dataset as loaded, before the pipelines are built. *)

(** One pass over [ds.take(count)]: the first [count] elements of a pass
    over [ds]. *)
Definition take_pass {A} (ds : tfdata.Dataset A) (count : nat) (rnd : nat -> nat)
  : result (list A) :=
  rbind (tfdata.iterate ds rnd) (fun l => Ok (firstn count l)).

(** [images[:,:,0]]: channel 0 of a tensor of rank 3; an array of lower
    rank has too many indices, and an empty last axis has no index 0. *)
Definition channel0 (images : ndarray Z) : result (ndarray Z) :=
  match shape images with
  | [H; W; O] => Raise (ValueError "index 0 is out of bounds for axis 2 with size 0")
  | [H; W; C] =>
      Ok (mk_ndarray [H; W]
            (map (fun k => nth (k * C) (data images) 0) (seq 0 (H * W))))
  | _ => Raise (ValueError "too many indices for array")
  end.

(** The loop: the counter after it, and the sample at which it broke off,
    if it did. *)
Fixpoint lookup_loop (lookup_index : Z) (elements : list Sample) : Z * option Sample :=
  match elements with
  | [] => (lookup_index, None)
  | (images, labels) :: rest =>
      let lookup_index := lookup_index - 1 in
      if lookup_index =? 0 then (lookup_index, Some (images, labels))
      else lookup_loop lookup_index rest
  end.

(** The cell: the final [lookup_index], and the label printed and the
    picture drawn, if any. *)
Definition lookup_cell (ds_train : tfdata.Dataset Sample) (rnd : nat -> nat)
  : result (Z * option (Z * ndarray Z)) :=
  let lookup_index := 7 in
  rbind (take_pass ds_train (Z.to_nat lookup_index) rnd) (fun elements =>
  match lookup_loop lookup_index elements with
  | (lookup_index, Some (images, labels)) =>
      rbind (channel0 images) (fun picture => Ok (lookup_index, Some (labels, picture)))
  | (lookup_index, None) => Ok (lookup_index, None)
  end).


(** ** Checks on single pixels, for the statements about normalization *)

(** The training normalization of one pixel. *)
Definition train_pixel (p : Z) : f32.t := f32.div (f32.of_Z p) (f32.of_Z 255).

(** The inference normalization of one pixel [p] of an image whose
    greatest pixel is [m], as the model receives it. *)
Definition inference_pixel (p m : Z) : f32.t :=
  f32.round (f64.div (f64.of_Z p) (f64.of_Z m)).

Definition in_unit_interval (x : f32.t) : bool :=
  f32.is_finite x && f32.leb f32.zero x && f32.leb x f32.one.

Definition ratio_ok (m p : Z) : bool :=
  in_unit_interval (inference_pixel p m)
  && (negb (p =? m) || SFeqb (inference_pixel p m) f32.one).

(** The integers 0, ..., [n]. *)
Definition upto (n : Z) : list Z := map Z.of_nat (seq 0 (S (Z.to_nat n))).


(** ** Cell "Visualization"

    <<
    history_df = pd.DataFrame(history.history)
    history_df.loc[:, ['loss', 'val_loss']].plot(
        title="Sparse Categorical Cross-entropy")
    history_df.loc[:, ['sparse_categorical_accuracy',
                       'val_sparse_categorical_accuracy']].plot(
        title="Sparse Categorical Accuracy")
    >> *)









(** ** Predicates used in the statements *)

(** What one normalized pixel has to satisfy: it is a finite float of
    [0,1], at most half a unit in the last place away from [p/255]. *)
Definition unit_pixel (p : Z) (x : f32.t) : bool :=
  f32.is_finite x && f32.leb f32.zero x && f32.leb x f32.one
  && Qle_bool (Qabs (f32.to_Q x - inject_Z p / 255)) (1 # 2 ^ 25).



(** ** Small concrete inputs *)

(** A split of three samples, and what the dataset reports about it. *)
Definition tiny_sample (p label : Z) : Sample :=
  (mk_ndarray [1; 1; 1]%nat [p], label).

Definition tiny_mnist : Mnist :=
  {| train := [tiny_sample 0 0; tiny_sample 51 1; tiny_sample 255 2];
     test := [tiny_sample 102 3];
     info := {| splits := fun name =>
                  if String.eqb name "train"
                  then {| num_examples := 3 |}
                  else {| num_examples := 1 |} |} |}.


(** Weights that are all zero. *)
Definition zero_weights (i : nat) : keras.LayerWeights :=
  {| keras.kernel := fun _ => f32.zero; keras.bias := fun _ => f32.zero |}.


(** A runtime whose compiled function returns zeros for every sample of
    a batch, as the model with the weights [zero_weights] does on finite
    input, and whose [predict] is silent. *)
Definition quiet_runtime : keras.Runtime :=
  {| keras.graph_function := fun _ b =>
       mk_ndarray [hd O (shape b); 10]%nat (repeat f32.zero (hd O (shape b) * 10));
     keras.predict_verbose := false |}.

(** The decoded image file of a 28 x 28 image whose pixels all are [p]. *)
Definition flat_image (p : Z) : Image :=
  {| mode := "L";
     convert_L := {| width := 28; height := 28; pixels := repeat p 784 |} |}.


(** A world whose only image file is [img] under the name the inference
    cell reads (or that has no file at all), in which every attempt to
    fetch a dataset meets [fetch], and where nothing was printed yet. *)
Definition world_with (img : option Image) (fetch : nat -> result Mnist) : World :=
  {| tfds_outcome := fun _ => fetch;
     tfds_attempts := 0;
     files := fun path =>
                if String.eqb path "tf_classification_user.png" then img else None;
     stdout := [] |}.

(** A dataset server that fails once and then delivers. *)
Definition fails_once (n : nat) : result Mnist :=
  match n with
  | O => Raise (DownloadError "connection reset")
  | S _ => Ok tiny_mnist
  end.

(** A decoded image of 2 x 2 pixels. *)
Definition small_image : Image :=
  {| mode := "L";
     convert_L := {| width := 2; height := 2; pixels := [0; 10; 20; 30] |} |}.

(** * Verification *)

(** ** Normalization of the training and test samples *)

Lemma uint8_enumerated (p : Z) : uint8 p -> In p (map Z.of_nat (seq 0 256)).
Proof.
  intros [Hlo Hhi].
  rewrite <- (Z2Nat.id p) by exact Hlo.
  apply in_map, in_seq. lia.
Qed.

Lemma unit_pixel_all :
  forallb (fun p => unit_pixel p (f32.div (f32.of_Z p) (f32.of_Z 255)))
    (map Z.of_nat (seq 0 256)) = true.
Proof. vm_compute. reflexivity. Qed.

Lemma unit_pixel_div (p : Z) :
  uint8 p -> unit_pixel p (f32.div (f32.of_Z p) (f32.of_Z 255)) = true.
Proof.
  intros Hp. apply uint8_enumerated in Hp.
  exact (proj1 (forallb_forall _ _) unit_pixel_all p Hp).
Qed.

(** C4: [normalize_img] keeps the label and the shape and replaces every
    8-bit pixel [p] by the float32 quotient [p / 255.], which is a finite
    value of [0,1], within 2^-25 of the rational [p/255]. *)
Theorem normalize_img_unit_interval (image : ndarray Z) (label : Z) :
  Forall uint8 (data image) ->
  let (image', label') := normalize_img (image, label) in
  label' = label /\
  shape image' = shape image /\
  data image' = map (fun p => f32.div (f32.of_Z p) (f32.of_Z 255)) (data image) /\
  Forall2 (fun p x =>
             f32.is_finite x = true /\
             f32.leb f32.zero x = true /\ f32.leb x f32.one = true /\
             (Qabs (f32.to_Q x - inject_Z p / 255) <= 1 # 2 ^ 25)%Q)
    (data image) (data image').
Proof.
  intros Hpix. cbn [normalize_img tf_div tf_cast_f32 data shape].
  repeat split.
  - now rewrite map_map.
  - rewrite map_map.
    induction Hpix as [|p ps Hp _ IH]; cbn [map]; constructor; [|exact IH].
    pose proof (unit_pixel_div p Hp) as H. unfold unit_pixel in H.
    repeat (apply andb_prop in H; destruct H as [H ?]).
    repeat split; try assumption.
    now apply Qle_bool_iff.
Qed.

Lemma normalize_img_unit_interval_witness :
  let image := mk_ndarray [1; 2; 1]%nat [0; 255] in
  Forall uint8 (data image) /\
  let (image', label') := normalize_img (image, 7) in
  label' = 7 /\
  shape image' = shape image /\
  data image' = map (fun p => f32.div (f32.of_Z p) (f32.of_Z 255)) (data image) /\
  Forall2 (fun p x =>
             f32.is_finite x = true /\
             f32.leb f32.zero x = true /\ f32.leb x f32.one = true /\
             (Qabs (f32.to_Q x - inject_Z p / 255) <= 1 # 2 ^ 25)%Q)
    (data image) (data image').
Proof.
  assert (H : Forall uint8 [0; 255]) by (repeat constructor; unfold uint8; lia).
  split; [exact H|].
  exact (normalize_img_unit_interval (mk_ndarray [1; 2; 1]%nat [0; 255]) 7 H).
Defined.

(** ** Batching *)

Section BatchFacts.
Context {A : Type}.
Implicit Types (acc l : list A) (n : nat).

Lemma batch_iter_concat n l : forall acc,
  concat (tfdata.batch_iter n acc l) = rev acc ++ l.
Proof.
  induction l as [|x l IH]; intros acc.
  - destruct acc; cbn [tfdata.batch_iter concat].
    + reflexivity.
    + now rewrite !app_nil_r.
  - cbn [tfdata.batch_iter].
    destruct (length (x :: acc) =? n)%nat.
    + cbn [concat]. rewrite IH. cbn [rev app]. now rewrite <- app_assoc.
    + rewrite IH. cbn [rev]. now rewrite <- app_assoc.
Qed.

(** No batch is empty and none exceeds the batch size. *)
Lemma batch_iter_bounds n l : forall acc,
  (length acc < n)%nat ->
  Forall (fun b => 1 <= length b <= n)%nat (tfdata.batch_iter n acc l).
Proof.
  induction l as [|x l IH]; intros acc Hacc.
  - destruct acc as [|a acc]; cbn [tfdata.batch_iter]; constructor; [|constructor].
    rewrite length_rev. cbn [length] in *. lia.
  - cbn [tfdata.batch_iter].
    destruct (Nat.eqb_spec (length (x :: acc)) n) as [E|E].
    + constructor.
      * rewrite length_rev. lia.
      * apply IH. cbn [length] in *. lia.
    + apply IH. cbn [length] in *. lia.
Qed.

(** Every batch but the last is full. *)
Lemma batch_iter_full n l : forall acc,
  (length acc < n)%nat ->
  Forall (fun b => length b = n) (removelast (tfdata.batch_iter n acc l)).
Proof.
  induction l as [|x l IH]; intros acc Hacc.
  - destruct acc; cbn; constructor.
  - cbn [tfdata.batch_iter].
    destruct (Nat.eqb_spec (length (x :: acc)) n) as [E|E].
    + assert (H0 : (length (@nil A) < n)%nat) by (cbn [length] in *; lia).
      specialize (IH [] H0).
      destruct (tfdata.batch_iter n [] l) as [|b bs] eqn:Eb.
      * cbn. constructor.
      * change (removelast (rev (x :: acc) :: b :: bs))
          with (rev (x :: acc) :: removelast (b :: bs)).
        constructor; [now rewrite length_rev | exact IH].
    + apply IH. cbn [length] in *. lia.
Qed.

(** The number of samples fixes the number of batches: the quotient
    rounded up. *)
Lemma batch_iter_count n l : forall acc,
  (length acc < n)%nat ->
  length (tfdata.batch_iter n acc l) = ((length acc + length l + (n - 1)) / n)%nat.
Proof.
  induction l as [|x l IH]; intros acc Hacc.
  - destruct acc as [|a acc]; cbn [tfdata.batch_iter length] in *.
    + rewrite Nat.add_0_l. symmetry. apply Nat.div_small. lia.
    + rewrite Nat.add_0_r.
      replace (S (length acc) + (n - 1))%nat with (length acc + 1 * n)%nat by lia.
      rewrite Nat.div_add by lia. rewrite Nat.div_small by lia. reflexivity.
  - cbn [tfdata.batch_iter].
    destruct (Nat.eqb_spec (length (x :: acc)) n) as [E|E].
    + cbn [length] in *. rewrite IH by (cbn [length]; lia). cbn [length].
      replace (length acc + S (length l) + (n - 1))%nat
        with (length l + (n - 1) + 1 * n)%nat by lia.
      rewrite Nat.div_add by lia. rewrite Nat.add_0_l. lia.
    + rewrite IH by (cbn [length] in *; lia). cbn [length]. f_equal. lia.
Qed.


End BatchFacts.

(** ** Shuffling *)

Section ShuffleFacts.
Context {A : Type}.
Implicit Types (buf input : list A).

Lemma slot_split i buf d :
  (i < length buf)%nat ->
  buf = firstn i buf ++ nth i buf d :: skipn (S i) buf.
Proof.
  revert buf. induction i as [|i IH]; intros [|b buf] Hi; cbn [length] in Hi; try lia.
  - reflexivity.
  - cbn [firstn nth skipn app]. f_equal. apply IH. lia.
Qed.

Lemma take_slot_perm i buf d :
  (i < length buf)%nat ->
  Permutation (nth i buf d :: tfdata.take_slot i buf) buf.
Proof.
  intros Hi. rewrite (slot_split i buf d Hi) at 3.
  apply Permutation_middle.
Qed.

Lemma fill_slot_perm i x buf d :
  (i < length buf)%nat ->
  Permutation (nth i buf d :: tfdata.fill_slot i x buf) (x :: buf).
Proof.
  intros Hi. unfold tfdata.fill_slot.
  rewrite (slot_split i buf d Hi) at 4.
  rewrite <- !Permutation_middle. apply perm_swap.
Qed.

Lemma take_slot_length i buf :
  (i < length buf)%nat -> length buf = S (length (tfdata.take_slot i buf)).
Proof.
  intros Hi. unfold tfdata.take_slot.
  rewrite length_app, length_firstn, length_skipn. lia.
Qed.

Lemma fill_slot_length i x buf :
  (i < length buf)%nat -> length (tfdata.fill_slot i x buf) = length buf.
Proof.
  intros Hi. unfold tfdata.fill_slot.
  rewrite length_app, length_firstn. cbn [length]. rewrite length_skipn. lia.
Qed.

Lemma shuffle_drain_perm rnd n : forall k buf,
  length buf = n -> Permutation (tfdata.shuffle_drain rnd k n buf) buf.
Proof.
  induction n as [|n IH]; intros k buf Hn.
  - destruct buf; [constructor | discriminate].
  - destruct buf as [|d buf']; [discriminate|].
    cbn [tfdata.shuffle_drain].
    set (buf := d :: buf') in *.
    assert (Hi : (rnd k mod length buf < length buf)%nat)
      by (apply Nat.mod_upper_bound; subst buf; discriminate).
    rewrite IH.
    + now apply take_slot_perm.
    + pose proof (take_slot_length _ _ Hi). lia.
Qed.

Lemma shuffle_iter_perm rnd input : forall k buf,
  buf <> [] \/ input = [] ->
  Permutation (tfdata.shuffle_iter rnd k buf input) (buf ++ input).
Proof.
  induction input as [|x rest IH]; intros k buf Hne.
  - cbn [tfdata.shuffle_iter]. rewrite app_nil_r. now apply shuffle_drain_perm.
  - destruct Hne as [Hne|]; [|discriminate].
    destruct buf as [|d buf']; [contradiction|].
    cbn [tfdata.shuffle_iter].
    set (buf := d :: buf') in *.
    assert (Hi : (rnd k mod length buf < length buf)%nat)
      by (apply Nat.mod_upper_bound; subst buf; discriminate).
    rewrite IH.
    + rewrite app_comm_cons, (fill_slot_perm _ x _ d Hi).
      exact (Permutation_middle buf rest x).
    + left. intros E. apply (f_equal (@length A)) in E.
      rewrite fill_slot_length in E by exact Hi. subst buf. discriminate.
Qed.

(** With a buffer of at least one slot, a pass through the shuffle emits
    every element of the input once; the draws only decide the order. *)
Lemma shuffle_pass_perm rnd b (l : list A) :
  Permutation (tfdata.shuffle_pass rnd (S b) l) l.
Proof.
  unfold tfdata.shuffle_pass.
  rewrite shuffle_iter_perm.
  - now rewrite firstn_skipn.
  - destruct l; [right; reflexivity | left; discriminate].
Qed.
End ShuffleFacts.

(** With a buffer that holds the whole input the shuffle is a full one. *)
Section ShuffleReach.
Context {A : Type}.

(** A pass consults only the draws from its position on. *)
Lemma shuffle_drain_ext (rnd rnd' : nat -> nat) n : forall k (buf : list A),
  (forall j, (k <= j)%nat -> rnd j = rnd' j) ->
  tfdata.shuffle_drain rnd k n buf = tfdata.shuffle_drain rnd' k n buf.
Proof.
  induction n as [|n IH]; intros k buf Hext; [reflexivity|].
  destruct buf as [|d buf']; [reflexivity|].
  cbn [tfdata.shuffle_drain]. rewrite (Hext k) by lia.
  f_equal. apply IH. intros j Hj. apply Hext. lia.
Qed.

(** Whatever order of the buffer is wanted, some draws empty it in that
    order. *)
Lemma shuffle_drain_reaches (target : list A) : forall (buf : list A) k,
  Permutation buf target ->
  exists rnd, tfdata.shuffle_drain rnd k (length buf) buf = target.
Proof.
  induction target as [|x target IH]; intros buf k Hperm.
  - apply Permutation_sym, Permutation_nil in Hperm. subst buf.
    exists (fun _ => 0%nat). reflexivity.
  - assert (Hin : In x buf)
      by (apply (Permutation_in x (Permutation_sym Hperm)); now left).
    destruct (In_nth buf x x Hin) as (i & Hi & Hnth).
    assert (Hrest : Permutation (tfdata.take_slot i buf) target).
    { unfold tfdata.take_slot. apply Permutation_sym.
      assert (Hx : Permutation (x :: target)
                     (firstn i buf ++ x :: skipn (S i) buf)).
      { rewrite <- Hnth at 2. rewrite <- (slot_split i buf x Hi).
        now apply Permutation_sym. }
      exact (Permutation_cons_app_inv _ _ Hx). }
    destruct (IH (tfdata.take_slot i buf) (S k) Hrest) as [rnd' Hrnd'].
    exists (fun j => if (j =? k)%nat then i else rnd' j).
    pose proof (take_slot_length i buf Hi) as Hlen.
    rewrite Hlen. destruct buf as [|d buf']; [destruct Hin|].
    cbn [tfdata.shuffle_drain]. rewrite Nat.eqb_refl.
    rewrite Nat.mod_small by exact Hi.
    rewrite (nth_indep _ d x Hi), Hnth. f_equal.
    rewrite <- Hrnd'. apply shuffle_drain_ext.
    intros j Hj. destruct (Nat.eqb_spec j k); [lia | reflexivity].
Qed.

(** With a buffer as large as the input, every order of the input is the
    outcome of some sequence of draws. *)
Lemma shuffle_pass_reaches (l target : list A) :
  Permutation l target ->
  exists rnd, tfdata.shuffle_pass rnd (length l) l = target.
Proof.
  intros Hperm. unfold tfdata.shuffle_pass.
  rewrite firstn_all, skipn_all. cbn [tfdata.shuffle_iter].
  now apply shuffle_drain_reaches.
Qed.
End ShuffleReach.

(** ** The input pipelines *)

Lemma ds_train_iterate (train_split : list Sample) (ds_info : DatasetInfo) rnd :
  tfdata.iterate (ds_train (tfdata.TensorSliceDataset train_split) ds_info) rnd
  = match num_examples (splits ds_info "train") with
    | O => Raise (InvalidArgumentError "buffer_size must be greater than zero.")
    | S _ => Ok (tfdata.batch_iter 128 []
                   (tfdata.shuffle_pass rnd (num_examples (splits ds_info "train"))
                      (map normalize_img train_split)))
    end.
Proof.
  cbn [ds_train tfdata.prefetch tfdata.batch tfdata.shuffle tfdata.cache
       tfdata.map tfdata.iterate].
  destruct (num_examples (splits ds_info "train")); reflexivity.
Qed.


(** ** Exhaustive batching *)

(** C6: a pass over either pipeline yields batches that together hold every
    sample of the split exactly once (for the test split in the split's
    order), each batch but the last one of exactly 128 samples, the last one
    of at least 1 and at most 128. *)
Theorem batching_exhaustive (m : Mnist) (rnd : nat -> nat) :
  num_examples (splits (info m) "train") = length (train m) ->
  train m <> [] ->
  (exists batches,
     tfdata.iterate (ds_train (tfdata.TensorSliceDataset (train m)) (info m)) rnd
     = Ok batches /\
     Permutation (concat batches) (map normalize_img (train m)) /\
     Forall (fun b => length b = 128%nat) (removelast batches) /\
     Forall (fun b => 1 <= length b <= 128)%nat batches /\
     length batches = ((length (train m) + 127) / 128)%nat) /\
  (exists batches,
     tfdata.iterate (ds_test (tfdata.TensorSliceDataset (test m))) rnd
     = Ok batches /\
     concat batches = map normalize_img (test m) /\
     Forall (fun b => length b = 128%nat) (removelast batches) /\
     Forall (fun b => 1 <= length b <= 128)%nat batches /\
     length batches = ((length (test m) + 127) / 128)%nat).
Proof.
  intros Hinfo Hne.
  assert (H128 : (length (@nil NormalizedSample) < 128)%nat) by (cbn; lia).
  split.
  - pose proof (ds_train_iterate (train m) (info m) rnd) as Htrain.
    destruct (num_examples (splits (info m) "train")) as [|b] eqn:En.
    { destruct (train m); [contradiction | discriminate]. }
    eexists. split; [exact Htrain|].
    repeat split.
    + rewrite batch_iter_concat. cbn [rev app]. apply shuffle_pass_perm.
    + now apply batch_iter_full.
    + now apply batch_iter_bounds.
    + rewrite batch_iter_count by exact H128. cbn [length].
      rewrite (Permutation_length (shuffle_pass_perm rnd b _)), length_map.
      reflexivity.
  - eexists. split; [reflexivity|].
    repeat split.
    + now rewrite batch_iter_concat.
    + now apply batch_iter_full.
    + now apply batch_iter_bounds.
    + rewrite batch_iter_count by exact H128. cbn [length].
      now rewrite length_map.
Qed.

Lemma batching_exhaustive_witness :
  let m := tiny_mnist in
  let rnd := fun k : nat => (k + 1)%nat in
  (exists batches,
     tfdata.iterate (ds_train (tfdata.TensorSliceDataset (train m)) (info m)) rnd
     = Ok batches /\
     Permutation (concat batches) (map normalize_img (train m)) /\
     Forall (fun b => length b = 128%nat) (removelast batches) /\
     Forall (fun b => 1 <= length b <= 128)%nat batches /\
     length batches = ((length (train m) + 127) / 128)%nat) /\
  (exists batches,
     tfdata.iterate (ds_test (tfdata.TensorSliceDataset (test m))) rnd
     = Ok batches /\
     concat batches = map normalize_img (test m) /\
     Forall (fun b => length b = 128%nat) (removelast batches) /\
     Forall (fun b => 1 <= length b <= 128)%nat batches /\
     length batches = ((length (test m) + 127) / 128)%nat).
Proof.
  apply (batching_exhaustive tiny_mnist (fun k => (k + 1)%nat)).
  - reflexivity.
  - discriminate.
Defined.

(** ** The model *)

Lemma flat_map_length_const {A B} (f : A -> list B) (c : nat) (l : list A) :
  (forall a, In a l -> length (f a) = c) ->
  length (flat_map f l) = (length l * c)%nat.
Proof.
  induction l as [|a l IH]; intros H; [reflexivity|].
  cbn [flat_map length]. rewrite length_app, H by now left.
  rewrite IH by (intros; apply H; now right). lia.
Qed.

Lemma dense_length units a w x : length (keras.dense units a w x) = units.
Proof. unfold keras.dense. now rewrite length_map, length_seq. Qed.

Lemma conv2d_length k filters a p w H W C x :
  length (keras.conv2d k filters a p w H W C x)
  = (keras.out_dim p k H * (keras.out_dim p k W * filters))%nat.
Proof.
  unfold keras.conv2d.
  rewrite (flat_map_length_const _ (keras.out_dim p k W * filters)), length_seq;
    [reflexivity|].
  intros i _.
  rewrite (flat_map_length_const _ filters), length_seq; [reflexivity|].
  intros j _. now rewrite length_map, length_seq.
Qed.

(** The forward pass of the notebook's model on one 28 x 28 x 1 sample,
    layer by layer. *)
Lemma forward_model ws (x : ndarray f32.t) :
  shape x = [28; 28; 1]%nat ->
  keras.forward (built ws) x
  = Ok (mk_ndarray [10]%nat
          (keras.dense 10 keras.linear (ws 3%nat)
             (keras.dense 64 keras.relu (ws 2%nat)
                (keras.conv2d 4 3 keras.relu keras.same (ws 0%nat) 28 28 1 (data x))))).
Proof.
  intros Hx. unfold keras.forward, built, model.
  cbn [keras.layers keras.weights keras.call_layers keras.call_layer rbind].
  rewrite Hx. reflexivity.
Qed.

Lemma map_seq_offset {B} (g : nat -> B) c m :
  map g (seq c m) = map (fun k => g (c + k)%nat) (seq 0 m).
Proof.
  revert c. induction m as [|m IH]; intros c; [reflexivity|].
  cbn [seq map]. rewrite Nat.add_0_r. f_equal.
  rewrite IH, <- (seq_shift m 0), map_map. apply map_ext. intros k.
  f_equal. lia.
Qed.

(** Blocks of [c] elements laid out one after the other: element [k] is
    element [k mod c] of block [k / c]. *)
Lemma flat_map_seq_index {B} (h : nat -> nat -> B) (c : nat) : (0 < c)%nat ->
  forall n s,
    flat_map (fun i => map (h i) (seq 0 c)) (seq s n)
    = map (fun k => h (s + k / c)%nat (k mod c)%nat) (seq 0 (n * c)).
Proof.
  intros Hc. induction n as [|n IH]; intros s; [reflexivity|].
  cbn [seq flat_map]. rewrite IH.
  replace (S n * c)%nat with (c + n * c)%nat by lia.
  rewrite seq_app, map_app. f_equal.
  - apply map_ext_in. intros k Hk. apply in_seq in Hk.
    rewrite Nat.div_small, Nat.mod_small by lia. f_equal. lia.
  - cbn [Nat.add]. rewrite (map_seq_offset _ c). apply map_ext. intros k.
    replace (c + k)%nat with (k + 1 * c)%nat by lia.
    rewrite Nat.div_add, Nat.Div0.mod_add by lia. f_equal. lia.
Qed.

Lemma pixel_input_at x r c : keras.pixel 28 28 1 x r c 0 = input_at x r c.
Proof.
  unfold keras.pixel, input_at. change (Z.of_nat 28) with 28.
  destruct ((0 <=? r) && (r <? 28) && (0 <=? c) && (c <? 28)) eqn:E; [|reflexivity].
  rewrite !andb_true_iff, !Z.leb_le, !Z.ltb_lt in E.
  f_equal. lia.
Qed.

Lemma conv_element ws x i j f :
  keras.activate keras.relu
    (f32.add (keras.sum (keras.conv_terms 4 keras.same (ws 0%nat) 28 28 1 x i j f))
       (keras.bias (ws 0%nat) f))
  = conv_value ws x i j f.
Proof.
  unfold conv_value, weighted_sum, keras.sum, keras.conv_terms.
  change (Z.of_nat (keras.pad_before keras.same 4)) with 1.
  cbn [seq flat_map map app list_prod fst snd].
  rewrite !pixel_input_at. unfold keras.activate, relu_of. reflexivity.
Qed.

Lemma conv2d_values ws x :
  keras.conv2d 4 3 keras.relu keras.same (ws 0%nat) 28 28 1 x = conv_values ws x.
Proof.
  unfold keras.conv2d, conv_values. cbn [keras.out_dim].
  erewrite flat_map_ext.
  2:{ intros i. rewrite (flat_map_seq_index
                 (fun j f => keras.activate keras.relu
                    (f32.add (keras.sum (keras.conv_terms 4 keras.same (ws 0%nat) 28 28 1 x i j f))
                       (keras.bias (ws 0%nat) f))) 3) by lia.
      cbn [Nat.add]. reflexivity. }
  change (28 * 3)%nat with 84%nat.
  rewrite (flat_map_seq_index
             (fun i k => keras.activate keras.relu
                (f32.add (keras.sum (keras.conv_terms 4 keras.same (ws 0%nat) 28 28 1 x i (k / 3) (k mod 3)))
                   (keras.bias (ws 0%nat) (k mod 3)))) 84) by lia.
  change (28 * 84)%nat with 2352%nat.
  apply map_ext. intros k. cbn [Nat.add]. apply conv_element.
Qed.

Lemma dense_hidden ws conv :
  length conv = 2352%nat ->
  keras.dense 64 keras.relu (ws 2%nat) conv = map (hidden_value ws conv) (seq 0 64).
Proof.
  intros H. unfold keras.dense. rewrite H. apply map_ext. intros j.
  unfold hidden_value, logit_value, weighted_sum, relu_of, keras.sum, keras.activate.
  reflexivity.
Qed.

Lemma dense_logits ws hidden :
  length hidden = 64%nat ->
  keras.dense 10 keras.linear (ws 3%nat) hidden = map (logit_value ws hidden) (seq 0 10).
Proof.
  intros H. unfold keras.dense. rewrite H. apply map_ext. intros j.
  unfold hidden_value, logit_value, weighted_sum, relu_of, keras.sum, keras.activate.
  reflexivity.
Qed.

Lemma conv_values_length ws x : length (conv_values ws x) = 2352%nat.
Proof. unfold conv_values. now rewrite length_map, length_seq. Qed.

Lemma conv_values_nth ws x i j f :
  (i < 28)%nat -> (j < 28)%nat -> (f < 3)%nat ->
  nth ((i * 28 + j) * 3 + f) (conv_values ws x) f32.zero = conv_value ws x i j f.
Proof.
  intros Hi Hj Hf. unfold conv_values.
  set (k := ((i * 28 + j) * 3 + f)%nat).
  assert (Hk : (k < 2352)%nat) by (subst k; lia).
  rewrite (nth_indep _ f32.zero (conv_value ws x (0 / 84) (0 mod 84 / 3) (0 mod 84 mod 3)))
    by now rewrite length_map, length_seq.
  rewrite (map_nth (fun k => conv_value ws x (k / 84) (k mod 84 / 3) (k mod 84 mod 3))).
  rewrite seq_nth by exact Hk. cbn [Nat.add].
  assert (E1 : (k / 84 = i)%nat) by (subst k; symmetry; apply (Nat.div_unique _ 84 i (j * 3 + f)); lia).
  assert (E2 : (k mod 84 = j * 3 + f)%nat) by (subst k; symmetry; apply (Nat.mod_unique _ 84 i (j * 3 + f)); lia).
  rewrite E1, E2.
  replace ((j * 3 + f) / 3)%nat with j by (apply (Nat.div_unique _ 3 j f); lia).
  replace ((j * 3 + f) mod 3)%nat with f by (apply (Nat.mod_unique _ 3 j f); lia).
  reflexivity.
Qed.

(** The forward pass of the code is the forward pass written out. *)
Lemma forward_values ws (x : ndarray f32.t) :
  shape x = [28; 28; 1]%nat ->
  keras.forward (built ws) x = Ok (mk_ndarray [10]%nat (logits_of ws (data x))).
Proof.
  intros Hx. rewrite forward_model by exact Hx.
  rewrite conv2d_values, dense_hidden by apply conv_values_length.
  rewrite dense_logits by now rewrite length_map, length_seq.
  reflexivity.
Qed.

Lemma relu_of_sign s : f32.ltb (relu_of s) f32.zero = false.
Proof.
  unfold relu_of. destruct (f32.ltb s f32.zero) eqn:E; [reflexivity | exact E].
Qed.

Lemma nth_map_seq {B} (g : nat -> B) n j d :
  (j < n)%nat -> nth j (map g (seq 0 n)) d = g j.
Proof.
  intros Hj. rewrite (nth_indep _ d (g O)) by now rewrite length_map, length_seq.
  rewrite (map_nth g), seq_nth by exact Hj. reflexivity.
Qed.

(** C7: the model is the sequence convolution (4 x 4 kernel, 3 filters,
    "same" padding, ReLU, input 28 x 28 x 1), flatten, dense (64 units, ReLU),
    dense (10 units, no activation).  On every input of that shape the forward
    pass succeeds and returns 10 values, computed in three steps:
    28 x 28 x 3 convolution outputs, each the ReLU of the sum of the 16
    products of a 4 x 4 window (zero outside of the image) with the filter,
    plus the bias; 64 hidden units, each the ReLU of the weighted sum of all
    convolution outputs plus the bias; 10 logits, each the weighted sum of
    the hidden units plus the bias, with no activation.  No convolution
    output and no hidden unit is negative. *)
Theorem model_topology (ws : nat -> keras.LayerWeights) (x : ndarray f32.t) :
  shape x = [28; 28; 1]%nat ->
  model = [ keras.Conv2D 4 3 (Some [28; 28; 1]%nat) keras.relu keras.same;
            keras.Flatten (Some [28; 28; 1]%nat);
            keras.Dense 64 keras.relu;
            keras.Dense 10 keras.linear ] /\
  keras.input_shape_of model = Some [28; 28; 1]%nat /\
  exists conv hidden logits,
    keras.forward (built ws) x = Ok (mk_ndarray [10]%nat logits) /\
    length conv = (28 * 28 * 3)%nat /\
    length hidden = 64%nat /\
    length logits = 10%nat /\
    (forall i j f, (i < 28)%nat -> (j < 28)%nat -> (f < 3)%nat ->
       nth ((i * 28 + j) * 3 + f) conv f32.zero
       = let s :=
           f32.add
             (fold_left f32.add
                (map (fun d =>
                        f32.mul
                          (input_at (data x) (Z.of_nat i + Z.of_nat (fst d) - 1)
                                             (Z.of_nat j + Z.of_nat (snd d) - 1))
                          (keras.kernel (ws 0%nat) [fst d; snd d; 0; f]%nat))
                   (list_prod (seq 0 4) (seq 0 4)))
                f32.zero)
             (keras.bias (ws 0%nat) f) in
         if f32.ltb s f32.zero then f32.zero else s) /\
    (forall j, (j < 64)%nat ->
       nth j hidden f32.zero
       = let s :=
           f32.add
             (fold_left f32.add
                (map (fun i => f32.mul (nth i conv f32.zero)
                                       (keras.kernel (ws 2%nat) [i; j]))
                   (seq 0 (28 * 28 * 3)))
                f32.zero)
             (keras.bias (ws 2%nat) j) in
         if f32.ltb s f32.zero then f32.zero else s) /\
    (forall j, (j < 10)%nat ->
       nth j logits f32.zero
       = f32.add
           (fold_left f32.add
              (map (fun i => f32.mul (nth i hidden f32.zero)
                                     (keras.kernel (ws 3%nat) [i; j]))
                 (seq 0 64))
              f32.zero)
           (keras.bias (ws 3%nat) j)) /\
    Forall (fun y => f32.ltb y f32.zero = false) (conv ++ hidden).
Proof.
  intros Hx. split; [reflexivity|]. split; [reflexivity|].
  exists (conv_values ws (data x)),
         (map (hidden_value ws (conv_values ws (data x))) (seq 0 64)),
         (logits_of ws (data x)).
  split; [now apply forward_values|].
  split; [apply conv_values_length|].
  split; [now rewrite length_map, length_seq|].
  split; [unfold logits_of; now rewrite length_map, length_seq|].
  split.
  { intros i j f Hi Hj Hf. rewrite conv_values_nth by assumption.
    unfold conv_value, weighted_sum, relu_of. reflexivity. }
  split.
  { intros j Hj. rewrite (nth_map_seq (hidden_value ws _)) by exact Hj.
    unfold hidden_value, weighted_sum, relu_of.
    change (28 * 28 * 3)%nat with 2352%nat. reflexivity. }
  split.
  { intros j Hj. unfold logits_of.
    rewrite (nth_map_seq (logit_value ws _)) by exact Hj.
    unfold logit_value, weighted_sum. reflexivity. }
  apply Forall_app. split.
  - unfold conv_values. apply Forall_map, Forall_forall. intros k _.
    apply relu_of_sign.
  - apply Forall_map, Forall_forall. intros j _. apply relu_of_sign.
Qed.

Lemma model_topology_witness :
  let x := mk_ndarray [28; 28; 1]%nat (repeat f32.zero 784) in
  keras.input_shape_of model = Some [28; 28; 1]%nat /\
  exists logits,
    keras.forward (built zero_weights) x = Ok (mk_ndarray [10]%nat logits) /\
    length logits = 10%nat.
Proof.
  destruct (model_topology zero_weights
              (mk_ndarray [28; 28; 1]%nat (repeat f32.zero 784)) eq_refl)
    as (_ & Hin & conv & hidden & logits & Hf & _ & _ & Hlen & _).
  split; [exact Hin|]. exists logits. split; [exact Hf | exact Hlen].
Defined.

(** ** NaN in the forward pass *)

Lemma add_nan_l y : f32.add f32.nan y = f32.nan.
Proof. reflexivity. Qed.

Lemma add_nan_r x : f32.add x f32.nan = f32.nan.
Proof. now destruct x. Qed.

Lemma mul_nan_l y : f32.mul f32.nan y = f32.nan.
Proof. reflexivity. Qed.

Lemma activate_nan a : keras.activate a f32.nan = f32.nan.
Proof. now destruct a. Qed.

Lemma fold_add_nan l : fold_left f32.add l f32.nan = f32.nan.
Proof. induction l as [|y l IH]; [reflexivity|]. cbn [fold_left]. now rewrite add_nan_l. Qed.

(** One NaN among the terms makes the sum NaN. *)
Lemma sum_nan l : In f32.nan l -> keras.sum l = f32.nan.
Proof.
  intros Hin. apply in_split in Hin. destruct Hin as (l1 & l2 & ->).
  unfold keras.sum. rewrite fold_left_app. cbn [fold_left].
  now rewrite add_nan_r, fold_add_nan.
Qed.

Lemma Forall_eq_repeat {A} (a : A) l :
  Forall (fun y => y = a) l -> l = repeat a (length l).
Proof. induction 1 as [|y l -> _ IH]; cbn [length repeat]; congruence. Qed.

Lemma nth_all_nan (x : list f32.t) i :
  Forall (fun y => y = f32.nan) x -> (i < length x)%nat -> nth i x f32.zero = f32.nan.
Proof.
  intros Hall Hi. rewrite Forall_forall in Hall. apply Hall. now apply nth_In.
Qed.

Lemma dense_nan units a w x :
  x <> [] -> Forall (fun y => y = f32.nan) x ->
  keras.dense units a w x = repeat f32.nan units.
Proof.
  intros Hne Hall.
  rewrite <- (dense_length units a w x) at 2.
  apply Forall_eq_repeat. unfold keras.dense.
  apply Forall_map, Forall_forall. intros j _.
  rewrite sum_nan; [now rewrite add_nan_l, activate_nan|].
  apply in_map_iff. exists 0%nat. split.
  - rewrite nth_all_nan; [reflexivity | exact Hall |].
    destruct x; [contradiction | cbn; lia].
  - apply in_seq. destruct x; [contradiction | cbn; lia].
Qed.

(** Under "same" padding every window holds the pixel it is centred on,
    so a tensor of NaNs is convolved to a tensor of NaNs. *)
Lemma conv2d_nan k filters a w H W C x :
  (0 < k)%nat -> (0 < C)%nat -> length x = (H * W * C)%nat ->
  Forall (fun y => y = f32.nan) x ->
  keras.conv2d k filters a keras.same w H W C x = repeat f32.nan (H * (W * filters)).
Proof.
  intros Hk HC Hlen Hall.
  replace (H * (W * filters))%nat
    with (length (keras.conv2d k filters a keras.same w H W C x))
    by apply conv2d_length.
  apply Forall_eq_repeat. unfold keras.conv2d.
  apply Forall_flat_map, Forall_forall. intros i Hi. apply in_seq in Hi.
  apply Forall_flat_map, Forall_forall. intros j Hj. apply in_seq in Hj.
  apply Forall_map, Forall_forall. intros f _.
  cbn [keras.out_dim] in Hi, Hj.
  rewrite sum_nan; [now rewrite add_nan_l, activate_nan|].
  set (pb := keras.pad_before keras.same k).
  assert (Hpb : (pb < k)%nat).
  { subst pb. cbn [keras.pad_before].
    apply Nat.Div0.div_lt_upper_bound. lia. }
  unfold keras.conv_terms. fold pb.
  apply in_flat_map. exists pb. split; [apply in_seq; lia|].
  apply in_flat_map. exists pb. split; [apply in_seq; lia|].
  apply in_map_iff. exists 0%nat. split; [|apply in_seq; lia].
  unfold keras.pixel.
  replace (Z.of_nat i + Z.of_nat pb - Z.of_nat pb) with (Z.of_nat i) by lia.
  replace (Z.of_nat j + Z.of_nat pb - Z.of_nat pb) with (Z.of_nat j) by lia.
  replace ((0 <=? Z.of_nat i) && (Z.of_nat i <? Z.of_nat H)
           && (0 <=? Z.of_nat j) && (Z.of_nat j <? Z.of_nat W)) with true
    by (symmetry; rewrite !andb_true_iff, !Z.leb_le, !Z.ltb_lt; lia).
  rewrite !Nat2Z.id, nth_all_nan; [apply mul_nan_l | exact Hall |].
  rewrite Hlen.
  assert (Hij : (i * W + j + 1 <= H * W)%nat) by nia.
  generalize dependent (i * W + j)%nat. generalize (H * W)%nat.
  intros n m Hm. nia.
Qed.

(** The notebook's model maps the all-NaN sample to ten NaNs, whatever its
    weights are. *)
Lemma forward_nan ws :
  keras.forward (built ws) (mk_ndarray [28; 28; 1]%nat (repeat f32.nan 784))
  = Ok (mk_ndarray [10]%nat (repeat f32.nan 10)).
Proof.
  rewrite forward_model by reflexivity. cbn [data].
  rewrite (conv2d_nan 4 3 keras.relu (ws 0%nat) 28 28 1);
    [ | lia | lia | now rewrite repeat_length | apply Forall_forall; intros y Hy; now apply repeat_spec in Hy ].
  rewrite (dense_nan 64);
    [ | discriminate | apply Forall_forall; intros y Hy; now apply repeat_spec in Hy ].
  rewrite (dense_nan 10);
    [ reflexivity | discriminate | apply Forall_forall; intros y Hy; now apply repeat_spec in Hy ].
Qed.

(** ** The inference cell *)



Lemma fold_max_ge l : forall a, a <= fold_left Z.max l a.
Proof.
  induction l as [|x l IH]; intros a; cbn [fold_left]; [lia|].
  specialize (IH (Z.max a x)). lia.
Qed.

(** [fold_left Z.max] yields an element that no element exceeds. *)
Lemma fold_max_spec l : forall a,
  In (fold_left Z.max l a) (a :: l) /\
  forall p, In p (a :: l) -> p <= fold_left Z.max l a.
Proof.
  induction l as [|x l IH]; intros a; cbn [fold_left].
  - split; [now left|]. intros p [E|[]]. subst p. lia.
  - destruct (IH (Z.max a x)) as [Hin Hub]. split.
    + destruct Hin as [E|Hin].
      * rewrite <- E. destruct (Z.max_spec a x) as [[_ ->]|[_ ->]];
          [right; now left | now left].
      * right. now right.
    + intros p [E|[E|Hp]].
      * subst p. pose proof (fold_max_ge l (Z.max a x)). lia.
      * subst p. pose proof (fold_max_ge l (Z.max a x)). lia.
      * apply Hub. now right.
Qed.

(** The model applied to a batch of one 28 x 28 x 1 sample, through either
    entry point. *)
Lemma prepare_one ws (l : list f64.t) :
  length l = 784%nat ->
  keras.prepare (built ws) (mk_ndarray [1; 28; 28; 1]%nat l)
  = Ok [mk_ndarray [28; 28; 1]%nat (map f32.round l)].
Proof.
  intros Hl. unfold keras.prepare.
  cbn [shape data built keras.layers model keras.input_shape_of].
  destruct (list_eq_dec Nat.eq_dec [28; 28; 1]%nat [28; 28; 1]%nat) as [_|N];
    [|contradiction].
  cbn [keras.unstack]. change (size_of [28; 28; 1]%nat) with 784%nat.
  rewrite firstn_all2 by (rewrite length_map; lia). reflexivity.
Qed.

Lemma call_one ws (l : list f64.t) logits :
  length l = 784%nat ->
  keras.forward (built ws) (mk_ndarray [28; 28; 1]%nat (map f32.round l))
  = Ok (mk_ndarray [10]%nat logits) ->
  keras.call (built ws) (mk_ndarray [1; 28; 28; 1]%nat l)
  = Ok (mk_ndarray [1; 10]%nat logits).
Proof.
  intros Hl Hf. unfold keras.call. rewrite prepare_one by exact Hl.
  cbn [rbind rmapM]. rewrite Hf. cbn [rbind].
  unfold keras.stack. cbn [length map concat data shape]. now rewrite app_nil_r.
Qed.

Lemma predict_one rt ws (l : list f64.t) :
  length l = 784%nat ->
  keras.predict rt (built ws) (mk_ndarray [1; 28; 28; 1]%nat l)
  = Ok (1%nat,
        keras.graph_function rt (built ws)
          (mk_ndarray [1; 28; 28; 1]%nat (map f32.round l))).
Proof.
  intros Hl. unfold keras.predict. rewrite prepare_one by exact Hl.
  cbn [rbind]. change (tfdata.batch_iter keras.predict_batch_size [] [?x]) with [[x]].
  unfold keras.stack. cbn [length map concat data shape keras.concatenate].
  now rewrite app_nil_r.
Qed.

Lemma map_nth_seq {A} (l : list A) d :
  map (fun k => nth (k * 1) l d) (seq 0 (length l)) = l.
Proof.
  induction l as [|a l IH] using rev_ind; [reflexivity|].
  rewrite length_app. cbn [length]. rewrite Nat.add_1_r, seq_S, map_app.
  cbn [map Nat.add]. rewrite Nat.mul_1_r, nth_middle. f_equal.
  rewrite <- IH at 2. apply map_ext_in. intros k Hk. apply in_seq in Hk.
  rewrite Nat.mul_1_r. apply app_nth1. lia.
Qed.

Lemma forward_logits ws (input : list f64.t) :
  keras.forward (built ws) (mk_ndarray [28; 28; 1]%nat (map f32.round input))
  = Ok (mk_ndarray [10]%nat (logits_for ws input)).
Proof. now rewrite forward_values. Qed.

Lemma logits_for_length ws input : length (logits_for ws input) = 10%nat.
Proof. unfold logits_for, logits_of. now rewrite length_map, length_seq. Qed.

Lemma first_greatest_argmax sh l :
  l <> [] -> np.argmax (mk_ndarray sh l) = Ok (first_greatest l).
Proof. destruct l; [contradiction | reflexivity]. Qed.


(** What the inference cell does, in every world, for all weights and
    whatever the runtime is. *)
Lemma inference_cell_run rt ws (w : World) :
  inference_cell rt (built ws) w
  = match files w "tf_classification_user.png" with
    | None => (Raise (FileNotFoundError "tf_classification_user.png"), w)
    | Some img =>
        if (length (pixels (convert_L img)) =? 784)%nat
        then (Ok tt,
              with_stdout w (stdout w ++ inference_output rt ws (pixels (convert_L img))))
        else (Raise (ValueError "cannot reshape array"), w)
    end.
Proof.
  unfold inference_cell, bind at 1, Image_open.
  destruct (files w "tf_classification_user.png") as [img|]; [|reflexivity].
  unfold bind at 1, lift at 1, np.reshape.
  cbn [np_array data shape]. change (size_of [1; 28; 28; 1]%nat) with 784%nat.
  rewrite Nat.eqb_sym.
  destruct (Nat.eqb_spec (length (pixels (convert_L img))) 784) as [Hlen|_];
    [|reflexivity].
  set (px := pixels (convert_L img)) in *.
  assert (Hpx : px <> []) by (intros E; rewrite E in Hlen; discriminate).
  unfold bind at 1, lift at 1, np.max. cbn [data].
  destruct px as [|p0 ps] eqn:Epx; [contradiction|]. rewrite <- Epx in *.
  assert (Hdiv : np.true_divide (mk_ndarray [1; 28; 28; 1]%nat px) (fold_left Z.max ps p0)
                 = mk_ndarray [1; 28; 28; 1]%nat (per_image_normalized px)).
  { unfold np.true_divide, per_image_normalized, image_maximum.
    cbn [shape data]. now rewrite Epx. }
  rewrite Hdiv.
  assert (Hn : length (per_image_normalized px) = 784%nat)
    by (unfold per_image_normalized; now rewrite length_map).
  unfold bind at 1, model_predict.
  rewrite (predict_one rt ws _ Hn).
  unfold bind at 1, emit at 1.
  unfold bind at 1, lift at 1.
  rewrite (call_one ws _ _ Hn (forward_logits ws _)).
  unfold bind at 1, lift at 1.
  rewrite first_greatest_argmax
    by (intros E; apply (f_equal (@length _)) in E;
        rewrite logits_for_length in E; discriminate).
  unfold bind at 1, emit at 1. unfold emit, with_stdout.
  cbn [stdout tfds_outcome tfds_attempts files].
  unfold np.first_last. cbn [shape data tl removelast last].
  change (size_of [28; 28]%nat) with 784%nat. rewrite <- Hn at 1.
  rewrite map_nth_seq. unfold inference_output. cbv zeta.
  destruct (keras.predict_verbose rt);
    cbn [stdout tfds_outcome tfds_attempts files app];
    now rewrite <- !app_assoc.
Qed.

(** ** The order of floats, and what [np.argmax] finds *)

Ltac cmp_cases :=
  repeat match goal with
  | |- context [Pos.compare_cont Eq ?a ?b] =>
      change (Pos.compare_cont Eq a b) with (Pos.compare a b);
      destruct (Pos.compare_spec a b)
  | H : context [Pos.compare_cont Eq ?a ?b] |- _ =>
      change (Pos.compare_cont Eq a b) with (Pos.compare a b) in H;
      destruct (Pos.compare_spec a b)
  | |- context [Z.compare ?a ?b] => destruct (Z.compare_spec a b)
  | H : context [Z.compare ?a ?b] |- _ => destruct (Z.compare_spec a b)
  end.

Ltac by_cases :=
  cbn in *; try discriminate; try reflexivity;
  cmp_cases; cbn in *; subst; try discriminate; try reflexivity; try lia.

Lemma leb_ltb_trans y m x :
  f32.leb y m = true -> f32.ltb m x = true -> f32.ltb y x = true.
Proof.
  unfold f32.leb, f32.ltb, SFleb, SFltb, SFcompare.
  destruct y as [[]|[]| |[] my ey], m as [[]|[]| |[] mm em], x as [[]|[]| |[] mx ex];
    intros H1 H2; by_cases.
Qed.

Lemma leb_total x y :
  x <> f32.nan -> y <> f32.nan -> f32.leb x y = false -> f32.ltb y x = true.
Proof.
  unfold f32.leb, f32.ltb, f32.nan, SFleb, SFltb, SFcompare.
  destruct x as [[]|[]| |[] mx ex], y as [[]|[]| |[] my ey];
    intros Hx Hy H; try congruence; by_cases.
Qed.

Lemma ltb_leb x y : f32.ltb x y = true -> f32.leb x y = true.
Proof.
  unfold f32.leb, f32.ltb, SFleb, SFltb. destruct (SFcompare x y) as [[]|]; congruence.
Qed.

Lemma leb_refl x : x <> f32.nan -> f32.leb x x = true.
Proof.
  unfold f32.leb, f32.nan, SFleb, SFcompare.
  destruct x as [[]|[]| |[] mx ex]; intros Hx; try congruence; by_cases.
Qed.

Lemma is_nan_false x : x <> f32.nan -> f32.is_nan x = false.
Proof. destruct x; intros H; try reflexivity. now contradiction H. Qed.

(** The scan keeps the position of the first greatest element seen. *)
Lemma argmax_scan_spec l : forall pre mp mi,
  (mi < length pre)%nat -> nth mi pre f32.zero = mp -> mp <> f32.nan ->
  Forall (fun y => f32.leb y mp = true) pre ->
  (forall j, (j < mi)%nat -> f32.ltb (nth j pre f32.zero) mp = true) ->
  Forall (fun y => y <> f32.nan) l ->
  let r := np.argmax_scan mp mi (length pre) l in
  (r < length (pre ++ l))%nat /\
  Forall (fun y => f32.leb y (nth r (pre ++ l) f32.zero) = true) (pre ++ l) /\
  (forall j, (j < r)%nat ->
     f32.ltb (nth j (pre ++ l) f32.zero) (nth r (pre ++ l) f32.zero) = true).
Proof.
  induction l as [|x l IH]; intros pre mp mi Hmi Hmp Hnan Hall Hbefore Hl.
  - cbn [np.argmax_scan]. rewrite app_nil_r, Hmp. auto.
  - inversion Hl as [|? ? Hx Hl']; subst.
    cbn [np.argmax_scan].
    replace (pre ++ x :: l) with ((pre ++ [x]) ++ l) by now rewrite <- app_assoc.
    replace (S (length pre)) with (length (pre ++ [x]))
      by (rewrite length_app; cbn [length]; lia).
    destruct (f32.leb x (nth mi pre f32.zero)) eqn:Hle.
    + apply IH; try assumption.
      * rewrite length_app. lia.
      * now apply app_nth1.
      * apply Forall_app. split; [exact Hall | now constructor].
      * intros j Hj. rewrite app_nth1 by lia. now apply Hbefore.
    + rewrite (is_nan_false x Hx).
      pose proof (leb_total _ _ Hx Hnan Hle) as Hlt.
      apply IH; try assumption.
      * rewrite length_app. cbn [length]. lia.
      * apply nth_middle.
      * apply Forall_app. split.
        -- eapply Forall_impl; [|exact Hall]. cbn beta. intros y Hy.
           apply ltb_leb. eapply leb_ltb_trans; eassumption.
        -- constructor; [now apply leb_refl | constructor].
      * intros j Hj. rewrite app_nth1 by exact Hj.
        eapply leb_ltb_trans; [|exact Hlt].
        rewrite Forall_forall in Hall. apply Hall. now apply nth_In.
Qed.

(** On logits without NaN the reported position is that of a greatest
    logit, and the first such. *)
Lemma first_greatest_spec (l : list f32.t) :
  l <> [] -> Forall (fun y => y <> f32.nan) l ->
  let d := first_greatest l in
  (d < length l)%nat /\
  Forall (fun y => f32.leb y (nth d l f32.zero) = true) l /\
  (forall j, (j < d)%nat -> f32.ltb (nth j l f32.zero) (nth d l f32.zero) = true).
Proof.
  intros Hne Hl. destruct l as [|x l]; [contradiction|].
  inversion Hl as [|? ? Hx Hl']; subst.
  unfold first_greatest. rewrite (is_nan_false x Hx).
  apply (argmax_scan_spec l [x] x 0); cbn [length nth];
    [ lia | reflexivity | exact Hx | | intros j Hj; lia | exact Hl' ].
  constructor; [now apply leb_refl | constructor].
Qed.





(** ** The all-zero image *)

Lemma zero_image_normalized :
  per_image_normalized (repeat 0 784) = repeat f64.nan 784.
Proof. vm_compute. reflexivity. Qed.

Lemma round_nan_all n : map f32.round (repeat f64.nan n) = repeat f32.nan n.
Proof. induction n as [|n IH]; [reflexivity|]. cbn [repeat map]. now rewrite IH. Qed.

Lemma zero_image_logits ws :
  logits_for ws (repeat f64.nan 784) = repeat f32.nan 10.
Proof.
  pose proof (forward_logits ws (repeat f64.nan 784)) as H.
  rewrite round_nan_all, forward_nan in H.
  exact (eq_sym (f_equal (fun r => match r with Ok a => data a | Raise _ => [] end) H)).
Qed.

(** C3 (what the code does instead): on the all-zero 28 x 28 image the
    greatest pixel is 0, so every pixel becomes 0/0 = NaN and the model is
    given 784 NaNs.  Whatever the weights are, the ten logits of
    [model(imgarr)] are NaN, none of them finite, and the digit reported as
    the prediction is 0; what the cell prints before is what the compiled
    function of [model.predict] makes of the 784 NaNs. *)
Theorem inference_zero_image_nan (rt : keras.Runtime) (ws : nat -> keras.LayerWeights)
    (fetch : nat -> result Mnist) :
  let w := world_with (Some (flat_image 0)) fetch in
  image_maximum (pixels (convert_L (flat_image 0))) = 0 /\
  per_image_normalized (pixels (convert_L (flat_image 0))) = repeat f64.nan 784 /\
  keras.call (built ws) (mk_ndarray [1; 28; 28; 1]%nat (repeat f64.nan 784))
  = Ok (mk_ndarray [1; 10]%nat (repeat f32.nan 10)) /\
  Forall (fun y => f32.is_finite y = false) (repeat f32.nan 10) /\
  np.argmax (mk_ndarray [1; 10]%nat (repeat f32.nan 10)) = Ok 0%nat /\
  inference_cell rt (built ws) w
  = (Ok tt,
     with_stdout w
       ((if keras.predict_verbose rt then [ProgressBar 1] else [])
        ++ [ PrintArray
               (keras.graph_function rt (built ws)
                  (mk_ndarray [1; 28; 28; 1]%nat (repeat f32.nan 784)));
             PrintPrediction 0;
             Imshow (mk_ndarray [28; 28]%nat (repeat f64.nan 784)) ])).
Proof.
  cbv zeta. split; [reflexivity|]. split; [exact zero_image_normalized|].
  split; [|split; [|split]].
  - apply call_one; [apply repeat_length|].
    rewrite round_nan_all. apply forward_nan.
  - repeat constructor.
  - reflexivity.
  - rewrite inference_cell_run.
    change (files (world_with (Some (flat_image 0)) fetch) "tf_classification_user.png")
      with (Some (flat_image 0)).
    cbv beta iota.
    change (pixels (convert_L (flat_image 0))) with (repeat 0 784).
    rewrite repeat_length. cbn [Nat.eqb].
    unfold inference_output. cbv zeta.
    rewrite zero_image_normalized, zero_image_logits, round_nan_all. reflexivity.
Qed.

(** ** The training loop *)

Lemma Qltb_true x y : Qltb x y = true -> (x < y)%Q.
Proof.
  unfold Qltb. intros H. apply negb_true_iff in H.
  apply Qnot_le_lt. intros Hle. apply Qle_bool_iff in Hle. congruence.
Qed.

Lemma Qltb_false x y : Qltb x y = false -> (y <= x)%Q.
Proof.
  unfold Qltb. intros H. apply negb_false_iff in H. now apply Qle_bool_iff.
Qed.

Lemma Qltb_lt x y : (x < y)%Q -> Qltb x y = true.
Proof.
  intros H. unfold Qltb. apply negb_true_iff.
  destruct (Qle_bool y x) eqn:E; [|reflexivity].
  apply Qle_bool_iff in E. lra.
Qed.

Lemma Qle_bool_false x y : Qle_bool x y = false -> (y < x)%Q.
Proof.
  intros H. apply Qnot_le_lt. intros Hle. apply Qle_bool_iff in Hle. congruence.
Qed.

(** No power of two is a multiple of five. *)
Lemma pow2_mod5 (n : nat) : (2 ^ Z.of_nat n) mod 5 <> 0.
Proof.
  induction n as [|n IH]; [discriminate|].
  rewrite Nat2Z.inj_succ, Z.pow_succ_r by lia.
  generalize dependent (2 ^ Z.of_nat n). intros x Hx.
  Z.div_mod_to_equations. lia.
Qed.

Lemma pos_pow_1_l (p : positive) : (1 ^ p)%positive = 1%positive.
Proof.
  apply Pos2Z.inj. rewrite Pos2Z.inj_pow. apply Z.pow_1_l. lia.
Qed.

(** The value of a float is a fraction whose denominator is a power of
    two. *)
Lemma to_Q_dyadic (x : f32.t) :
  exists (n : Z) (k : nat), (f32.to_Q x == n # Z.to_pos (2 ^ Z.of_nat k))%Q.
Proof.
  destruct x as [s|s| |s m e]; try (exists 0, 0%nat; reflexivity).
  unfold f32.to_Q. set (z := cond_Zopp s (Z.pos m)).
  destruct e as [|p|p].
  - exists z, 0%nat. cbn. unfold Qeq. cbn. lia.
  - exists (z * 2 ^ Z.pos p), 0%nat.
    change (2 ^ Z.pos p)%Q with (Qpower_positive (2 # 1) p).
    rewrite Qpower_decomp_positive, pos_pow_1_l.
    unfold Qeq, Qmult, inject_Z. cbn [Qnum Qden Z.of_nat Z.pow Z.to_pos]. lia.
  - exists z, (Pos.to_nat p).
    change (2 ^ Z.neg p)%Q with (/ Qpower_positive (2 # 1) p)%Q.
    rewrite Qpower_decomp_positive, pos_pow_1_l, positive_nat_Z.
    rewrite <- Pos2Z.inj_pow. cbn [Z.to_pos].
    rewrite Qinv_pos. unfold Qeq, Qmult, inject_Z. cbn [Qnum Qden]. lia.
Qed.

(** The difference of two floats is never 0.001. *)
Lemma float_step_not_thousandth (c b : f32.t) :
  ~ (f32.to_Q b - f32.to_Q c == 1 # 1000)%Q.
Proof.
  destruct (to_Q_dyadic b) as (nb & kb & Hb).
  destruct (to_Q_dyadic c) as (nc & kc & Hc).
  rewrite Hb, Hc. clear Hb Hc.
  pose proof (pow2_mod5 (kb + kc)) as H5.
  rewrite Nat2Z.inj_add, Z.pow_add_r in H5 by lia.
  assert (Pb : 0 < 2 ^ Z.of_nat kb) by (apply Z.pow_pos_nonneg; lia).
  assert (Pc : 0 < 2 ^ Z.of_nat kc) by (apply Z.pow_pos_nonneg; lia).
  unfold Qeq, Qminus, Qplus, Qopp. cbn [Qnum Qden].
  rewrite Pos2Z.inj_mul, !Z2Pos.id by assumption.
  intros H.
  set (A := 2 ^ Z.of_nat kb) in *. set (B := 2 ^ Z.of_nat kc) in *.
  set (X := nb * B + - nc * A) in *.
  assert (HX : (A * B) mod 5 = (X * 1000) mod 5) by (f_equal; lia).
  replace (X * 1000) with (X * 200 * 5) in HX by lia.
  rewrite Z.mod_mul in HX by lia. contradiction.
Qed.

(** So a float improves on another by at least 0.001 exactly when it
    improves by more: the callback's test is the specification's. *)
Lemma improved_at_least (c b : f32.t) :
  EarlyStopping.improved early_stopping c b = improves_by_at_least (1 # 1000) c b.
Proof.
  assert (H : Qltb (f32.to_Q c + (1 # 1000)) (f32.to_Q b)
              = Qle_bool (1 # 1000) (f32.to_Q b - f32.to_Q c)).
  { pose proof (float_step_not_thousandth c b) as Hne.
    destruct (Qle_bool (1 # 1000) (f32.to_Q b - f32.to_Q c)) eqn:E.
    - apply Qle_bool_iff in E. apply Qltb_lt.
      destruct (Qlt_le_dec (f32.to_Q c + (1 # 1000)) (f32.to_Q b)) as [Hlt|Hge];
        [exact Hlt|].
      exfalso. apply Hne. lra.
    - apply Qle_bool_false in E.
      destruct (Qltb (f32.to_Q c + (1 # 1000)) (f32.to_Q b)) eqn:E2; [|reflexivity].
      apply Qltb_true in E2. lra. }
  unfold EarlyStopping.improved, improves_by_at_least.
  change (EarlyStopping.min_delta early_stopping) with (1 # 1000)%Q.
  destruct c as [[]|[]| |sc mc ec], b as [[]|[]| |sb mb eb]; try reflexivity; exact H.
Qed.

Section Improvement.
Variable d : Q.
Hypothesis Hd : (0 < d)%Q.

Lemma improves_not_inf c b :
  improves_by_at_least d c b = true -> c <> S754_infinity false.
Proof. intros H E. subst c. destruct b as [[]|[]| |s m e]; discriminate. Qed.

Lemma improves_irrefl c : improves_by_at_least d c c = false.
Proof.
  destruct c as [[]|[]| |s m e]; cbn; try reflexivity;
    (destruct (Qle_bool d _) eqn:E; [apply Qle_bool_iff in E; lra | reflexivity]).
Qed.

(** If [b'] improves on [b], a loss that does not improve on [b] does not
    improve on [b'] either. *)
Lemma improves_trans c b' b :
  improves_by_at_least d b' b = true ->
  improves_by_at_least d c b = false ->
  improves_by_at_least d c b' = false.
Proof.
  destruct c as [[]|[]| |sc mc ec], b' as [[]|[]| |sb' mb' eb'], b as [[]|[]| |sb mb eb];
    cbn; intros H1 H2; try discriminate; try reflexivity;
    apply Qle_bool_iff in H1; apply Qle_bool_false in H2;
    (destruct (Qle_bool d _) eqn:E; [apply Qle_bool_iff in E; lra | reflexivity]).
Qed.

(** In numbers: a finite loss that does not improve on a finite record by
    at least [d] is greater than the record minus [d]. *)
Lemma improves_false_bound c b :
  f32.is_finite c = true -> f32.is_finite b = true ->
  improves_by_at_least d c b = false -> (f32.to_Q b < f32.to_Q c + d)%Q.
Proof.
  destruct c as [[]|[]| |sc mc ec], b as [[]|[]| |sb mb eb];
    cbn; intros H1 H2 H; try discriminate; apply Qle_bool_false in H; lra.
Qed.

(** A finite loss that undercuts a finite record by [d] improves on it,
    and every finite loss improves on the initial record. *)
Lemma improves_finite c b :
  f32.is_finite c = true -> f32.is_finite b = true ->
  (f32.to_Q c + d <= f32.to_Q b)%Q -> improves_by_at_least d c b = true.
Proof.
  destruct c as [[]|[]| |sc mc ec], b as [[]|[]| |sb mb eb];
    cbn; intros H1 H2 H; try discriminate; apply Qle_bool_iff; lra.
Qed.

Lemma improves_on_infinity c :
  f32.is_finite c = true -> improves_by_at_least d c (S754_infinity false) = true.
Proof. destruct c as [[]|[]| |sc mc ec]; cbn; intros H; try discriminate; reflexivity. Qed.

Lemma recorded_snoc vals c :
  recorded d (vals ++ [c]) = record_epoch d (recorded d vals) c.
Proof. unfold recorded. now rewrite fold_left_app. Qed.

End Improvement.

Lemma infinity_dec (x : f32.t) :
  x = S754_infinity false \/ x <> S754_infinity false.
Proof. destruct x as [[]|[]| |s m e]; (now left) || (right; discriminate). Qed.

Section FitFacts.
Context {Weights OptimizerState : Type}.
Variable train_epoch :
  nat -> Weights * OptimizerState -> (Weights * OptimizerState) * (f32.t * f32.t).
Variable evaluate : Weights -> f32.t * f32.t.
Variable rel : EarlyStopping.Release.
Variable a : EarlyStopping.Args.
Hypothesis Hpatience : (2 <= EarlyStopping.patience a)%nat.
Hypothesis Hdelta : (0 < EarlyStopping.min_delta a)%Q.
Hypothesis Hrestore : EarlyStopping.restore_best_weights a = true.
Hypothesis Hwords :
  forall c b,
    EarlyStopping.improved a c b = improves_by_at_least (EarlyStopping.min_delta a) c b.

Let State := FitState Weights OptimizerState.

(** With a patience of two or more, the releases stop at the same
    epochs. *)
Lemma stops_patience better wait epoch :
  (better = true -> wait = 0%nat) -> (wait <= S epoch)%nat ->
  EarlyStopping.stops rel better (EarlyStopping.patience a) wait epoch
  = (EarlyStopping.patience a <=? wait)%nat.
Proof.
  intros Hb Hw.
  destruct (Nat.leb_spec (EarlyStopping.patience a) wait) as [Hle|Hgt].
  - assert (better = false)
      by (destruct better; [specialize (Hb eq_refl); lia | reflexivity]).
    subst better.
    assert (He : (0 <? epoch)%nat = true) by (apply Nat.ltb_lt; lia).
    apply Nat.leb_le in Hle.
    destruct rel; cbn [EarlyStopping.stops negb andb]; now rewrite ?Hle, ?He.
  - apply Nat.leb_gt in Hgt.
    destruct rel, better; cbn [EarlyStopping.stops negb andb]; now rewrite ?Hgt.
Qed.

(** The callback, field by field. *)
Lemma on_epoch_end_fields epoch logs (st : State) :
  (EarlyStopping.wait (callback st) <= epoch)%nat ->
  let cb := callback st in
  let better :=
    improves_by_at_least (EarlyStopping.min_delta a) (val_loss logs) (EarlyStopping.best cb) in
  let wait := if better then O else S (EarlyStopping.wait cb) in
  let checkpoint :=
    if better then Some (get_weights st)
    else match EarlyStopping.best_weights cb with
         | Some w => Some w
         | None =>
             if EarlyStopping.takes_first_checkpoint rel then Some (get_weights st) else None
         end in
  let stop := (EarlyStopping.patience a <=? wait)%nat in
  let st' := on_epoch_end _ _ rel a epoch logs st in
  history st' = history st /\
  optimizer_state st' = optimizer_state st /\
  EarlyStopping.wait (callback st') = wait /\
  EarlyStopping.best (callback st')
  = (if better then val_loss logs else EarlyStopping.best cb) /\
  EarlyStopping.best_weights (callback st') = checkpoint /\
  stop_training st' = stop || stop_training st /\
  get_weights st'
  = (if stop && EarlyStopping.restores_at_stop rel
     then match checkpoint with Some w => w | None => get_weights st end
     else get_weights st) /\
  (raised st' = raised st \/ stop = true /\ checkpoint = None).
Proof.
  intros Hw. cbv zeta. unfold on_epoch_end. cbv zeta.
  rewrite Hwords, Hrestore.
  set (better := improves_by_at_least _ _ _).
  rewrite stops_patience;
    [ | destruct better; [reflexivity | discriminate] | destruct better; lia ].
  rewrite andb_true_r.
  destruct better; cbn [andb].
  - replace (EarlyStopping.patience a <=? 0)%nat with false
      by (symmetry; apply Nat.leb_gt; lia).
    cbn [andb orb]. repeat split; try reflexivity. now left.
  - destruct (EarlyStopping.patience a <=? S (EarlyStopping.wait (callback st)))%nat;
      cbn [andb orb].
    + destruct (EarlyStopping.restores_at_stop rel).
      * destruct (EarlyStopping.best_weights (callback st)) as [wb|].
        -- repeat split; try reflexivity. now left.
        -- destruct (EarlyStopping.takes_first_checkpoint rel).
           ++ repeat split; try reflexivity. now left.
           ++ repeat split; try reflexivity. right. split; reflexivity.
      * repeat split; try reflexivity. now left.
    + repeat split; try reflexivity. now left.
Qed.

Lemma run_epoch_history epoch (st : State) :
  exists logs,
    history (run_epoch _ _ train_epoch evaluate rel a epoch st) = history st ++ [logs].
Proof.
  unfold run_epoch.
  destruct (train_epoch epoch (get_weights st, optimizer_state st)) as [[w o] [l acc]].
  destruct (evaluate w) as [vl vacc].
  eexists. unfold on_epoch_end. cbv zeta.
  repeat match goal with
  | |- context [if ?b then _ else _] => destruct b
  | |- context [match ?o with Some _ => _ | None => _ end] => destruct o
  end; reflexivity.
Qed.

Lemma fit_inv_init (w0 : Weights) (o0 : OptimizerState) :
  fit_inv evaluate rel a
    {| get_weights := w0; optimizer_state := o0; stop_training := false;
       callback := EarlyStopping.on_train_begin; history := []; raised := None |}.
Proof.
  constructor; unfold losses; cbn.
  - reflexivity.
  - split; [discriminate | lia].
  - lia.
  - lia.
  - intros k Hk. lia.
  - intros c [].
  - intros H. now contradiction H.
  - discriminate.
  - intros H. now contradiction H.
Qed.

Lemma fit_inv_step epoch (st : State) :
  fit_inv evaluate rel a st -> stop_training st = false ->
  epoch = length (history st) ->
  fit_inv evaluate rel a (run_epoch _ _ train_epoch evaluate rel a epoch st).
Proof.
  intros [Hrec Hstop Hwait Hwaited Hpre Hunb Hcp _ Hraised] Hrun Hepoch.
  assert (Hlt : (EarlyStopping.wait (callback st) < EarlyStopping.patience a)%nat).
  { destruct (Nat.lt_ge_cases (EarlyStopping.wait (callback st)) (EarlyStopping.patience a))
      as [H|H]; [exact H|].
    apply Hstop in H. congruence. }
  assert (Hnone : raised st = None).
  { destruct (raised st) eqn:E; [|reflexivity].
    destruct Hraised as [Hs _]; [discriminate | congruence]. }
  unfold run_epoch.
  destruct (train_epoch epoch (get_weights st, optimizer_state st)) as [[w o] [l acc]].
  destruct (evaluate w) as [vl vacc] eqn:Ev.
  assert (Hvl : fst (evaluate w) = vl) by now rewrite Ev.
  set (logs := {| logs_loss := l; logs_accuracy := acc; val_loss := vl; val_accuracy := vacc |}).
  set (st1 := {| get_weights := w; optimizer_state := o; stop_training := stop_training st;
                 callback := callback st; history := history st ++ [logs];
                 raised := raised st |}).
  assert (Hw1 : (EarlyStopping.wait (callback st1) <= epoch)%nat) by (cbn; lia).
  pose proof (on_epoch_end_fields epoch logs st1 Hw1) as F. cbv zeta in F.
  cbn [st1 callback get_weights history stop_training raised optimizer_state
       logs val_loss] in F.
  fold st1 in F.
  set (st' := on_epoch_end _ _ rel a epoch logs st1) in *.
  destruct F as (Fh & _ & Fwait & Fbest & Fcp & Fstop & Fw & Fraised).
  assert (Hlosses : losses st' = losses st ++ [vl]).
  { unfold losses. rewrite Fh, map_app. reflexivity. }
  rewrite Hrun, orb_false_r in Fstop.
  set (better := improves_by_at_least (EarlyStopping.min_delta a) vl
                   (EarlyStopping.best (callback st))) in *.
  assert (Hrec' : recorded (EarlyStopping.min_delta a) (losses st')
                  = (EarlyStopping.best (callback st'),
                                            EarlyStopping.wait (callback st'))).
  { rewrite Hlosses, recorded_snoc, Hrec, Fbest, Fwait.
    unfold record_epoch. cbn [fst snd]. fold better. now destruct better. }
  constructor.
  - exact Hrec'.
  - rewrite Fstop, Fwait. destruct better.
    + split; [intros H; apply Nat.leb_le in H; lia | lia].
    + split; [intros H; now apply Nat.leb_le in H | intros H; now apply Nat.leb_le].
  - rewrite Fwait. destruct better; lia.
  - rewrite Fwait, Fh, length_app. cbn [length]. destruct better; lia.
  - intros k Hk. rewrite Hlosses in *. rewrite length_app in Hk. cbn [length] in Hk.
    destruct (Nat.eq_dec k (length (losses st))) as [->|Hne].
    + rewrite firstn_app, Nat.sub_diag, firstn_all. cbn [firstn]. rewrite app_nil_r.
      unfold stale_epochs. now rewrite Hrec.
    + rewrite firstn_app.
      replace (k - length (losses st))%nat with 0%nat by lia.
      cbn [firstn]. rewrite app_nil_r. apply Hpre. lia.
  - intros c Hc. rewrite Hlosses in Hc. rewrite Fbest.
    apply in_app_or in Hc. destruct better eqn:Eb.
    + destruct Hc as [Hc|[<-|[]]].
      * exact (improves_trans _ Hdelta c vl _ Eb (Hunb c Hc)).
      * apply improves_irrefl, Hdelta.
    + destruct Hc as [Hc|[<-|[]]]; [now apply Hunb | exact Eb].
  - rewrite Fbest, Fcp, Hlosses. destruct better eqn:Eb.
    + intros _. exists w. split; [reflexivity|]. split; [exact Hvl|].
      apply in_or_app. right. now left.
    + intros Hb. destruct (Hcp Hb) as (wb & Hwb & Hev & Hin).
      exists wb. rewrite Hwb. split; [reflexivity|]. split; [exact Hev|].
      apply in_or_app. now left.
  - intros Hs Hr wb Hwb. rewrite Fw, Fstop in *. rewrite Hs, Hr. cbn [andb].
    rewrite Fcp in Hwb. now rewrite Hwb.
  - intros Hr. destruct Fraised as [E|[Hs Hc]].
    + rewrite E, Hnone in Hr. now contradiction Hr.
    + rewrite Fstop, Fbest, Fcp. split; [exact Hs|]. split; [|exact Hc].
      destruct better; [discriminate|].
      destruct (infinity_dec (EarlyStopping.best (callback st))) as [Hinf|Hinf];
        [exact Hinf|].
      destruct (Hcp Hinf) as (wb & Hwb & _). rewrite Hwb in Hc. discriminate.
Qed.

Lemma run_epoch_length epoch (st : State) :
  length (history (run_epoch _ _ train_epoch evaluate rel a epoch st))
  = S (length (history st)).
Proof.
  destruct (run_epoch_history epoch st) as (logs & ->).
  rewrite length_app. cbn [length]. lia.
Qed.

(** The loop keeps the invariant, runs at most [n] more epochs, and runs
    all of them unless the callback stops it. *)
Lemma fit_loop_inv n : forall epoch (st : State),
  fit_inv evaluate rel a st -> stop_training st = false ->
  epoch = length (history st) ->
  let r := fit_loop _ _ train_epoch evaluate rel a n epoch st in
  fit_inv evaluate rel a r /\
  (length (history r) <= length (history st) + n)%nat /\
  (stop_training r = false -> length (history r) = (length (history st) + n)%nat) /\
  (length (history st) + Nat.min 1 n <= length (history r))%nat.
Proof.
  induction n as [|n IH]; intros epoch st Hinv Hrun Hepoch; cbn [fit_loop].
  - cbv zeta. refine (conj Hinv (conj _ (conj _ _))); lia.
  - pose proof (fit_inv_step epoch st Hinv Hrun Hepoch) as Hinv'.
    pose proof (run_epoch_length epoch st) as Hlen.
    destruct (stop_training (run_epoch _ _ train_epoch evaluate rel a epoch st)) eqn:Hs.
    + cbv zeta. refine (conj Hinv' (conj _ (conj _ _))); [lia | congruence | lia].
    + specialize (IH (S epoch) _ Hinv' Hs ltac:(lia)). cbv zeta in IH.
      destruct IH as (Hi & Hle & Heq & Hge).
      cbv zeta. refine (conj Hi (conj _ (conj _ _))); [lia | | lia].
      intros Hr. specialize (Heq Hr). lia.
Qed.

(** The end of the training leaves everything as it is but the weights,
    which a release that restores there replaces by the checkpoint. *)
Lemma on_train_end_fields (st : State) :
  let st' := on_train_end _ _ rel a st in
  history st' = history st /\
  optimizer_state st' = optimizer_state st /\
  callback st' = callback st /\
  stop_training st' = stop_training st /\
  raised st' = raised st /\
  get_weights st'
  = (if EarlyStopping.restores_at_train_end rel
     then match EarlyStopping.best_weights (callback st) with
          | Some w => w
          | None => get_weights st
          end
     else get_weights st).
Proof.
  cbv zeta. unfold on_train_end. rewrite Hrestore, andb_true_r.
  destruct (EarlyStopping.restores_at_train_end rel); [|repeat split; reflexivity].
  destruct (EarlyStopping.best_weights (callback st)); repeat split; reflexivity.
Qed.

Section Trajectory.
Variable w0 : Weights.
Variable o0 : OptimizerState.

Lemma follows_training_init :
  follows_training train_epoch evaluate w0 o0 rel
    {| get_weights := w0; optimizer_state := o0; stop_training := false;
       callback := EarlyStopping.on_train_begin; history := []; raised := None |} 0.
Proof.
  constructor; cbn; try reflexivity.
  - intros H. now contradiction H.
  - intros H. now contradiction H.
Qed.

Lemma follows_training_step epoch (st : State) :
  fit_inv evaluate rel a st ->
  follows_training train_epoch evaluate w0 o0 rel st epoch ->
  stop_training st = false ->
  follows_training train_epoch evaluate w0 o0 rel
    (run_epoch _ _ train_epoch evaluate rel a epoch st) (S epoch).
Proof.
  intros Hinv [Hhist Hopt Hw Hcp Hrec] Hrun.
  assert (Hepoch : epoch = length (history st))
    by now rewrite Hhist, length_map, length_seq.
  pose proof (inv_waited _ _ _ _ Hinv) as Hwaited.
  assert (Hstate : (get_weights st, optimizer_state st) = trained train_epoch w0 o0 epoch).
  { rewrite (Hw (or_introl Hrun)), Hopt. now destruct (trained train_epoch w0 o0 epoch). }
  assert (Hlogs : map (plain_logs train_epoch evaluate w0 o0) (seq 0 (S epoch))
                  = history st ++ [plain_logs train_epoch evaluate w0 o0 epoch]).
  { rewrite seq_S, map_app, <- Hhist. reflexivity. }
  assert (Hplain : plain_logs train_epoch evaluate w0 o0 epoch
            = let '(w, o, (l, acc)) := train_epoch epoch (trained train_epoch w0 o0 epoch) in
              let '(vl, vacc) := evaluate w in
              {| logs_loss := l; logs_accuracy := acc;
                 val_loss := vl; val_accuracy := vacc |}) by reflexivity.
  assert (Htr : trained train_epoch w0 o0 (S epoch)
            = fst (train_epoch epoch (trained train_epoch w0 o0 epoch))) by reflexivity.
  unfold run_epoch. rewrite Hstate.
  destruct (train_epoch epoch (trained train_epoch w0 o0 epoch)) as [[w o] [l acc]].
  destruct (evaluate w) as [vl vacc].
  cbn [fst] in Htr.
  set (logs := {| logs_loss := l; logs_accuracy := acc; val_loss := vl; val_accuracy := vacc |}) in *.
  set (st1 := {| get_weights := w; optimizer_state := o; stop_training := stop_training st;
                 callback := callback st; history := history st ++ [logs];
                 raised := raised st |}).
  assert (Hw1 : (EarlyStopping.wait (callback st1) <= epoch)%nat) by (cbn; lia).
  pose proof (on_epoch_end_fields epoch logs st1 Hw1) as F. cbv zeta in F.
  cbn [st1 callback get_weights history stop_training raised optimizer_state
       logs val_loss] in F.
  fold st1 in F.
  set (st' := on_epoch_end _ _ rel a epoch logs st1) in *.
  destruct F as (Fh & Fo & Fwait & Fbest & Fcp & Fstop & Fw & _).
  rewrite Hrun, orb_false_r in Fstop.
  set (better := improves_by_at_least (EarlyStopping.min_delta a) vl
                   (EarlyStopping.best (callback st))) in *.
  assert (Hcp' : EarlyStopping.best (callback st') <> S754_infinity false ->
            forall wb, EarlyStopping.best_weights (callback st') = Some wb ->
              (EarlyStopping.wait (callback st') < S epoch)%nat /\
              wb = fst (trained train_epoch w0 o0
                          (S epoch - EarlyStopping.wait (callback st')))).
  { rewrite Fbest, Fcp, Fwait. destruct better.
    - intros _ wb E. injection E as <-. split; [lia|]. now rewrite Nat.sub_0_r, Htr.
    - intros Hb wb E.
      destruct (EarlyStopping.best_weights (callback st)) as [wb0|] eqn:Ewb;
        [|now contradiction (Hrec Hb)].
      injection E as <-. destruct (Hcp Hb wb0 eq_refl) as [Hlt Hwb].
      split; [lia|]. rewrite Hwb. f_equal. }
  constructor.
  - now rewrite Fh, Hlogs, Hplain.
  - now rewrite Fo, Htr.
  - intros Hcase. rewrite Fw, Htr. cbn [fst].
    destruct (EarlyStopping.patience a <=? _)%nat; [|reflexivity].
    destruct (EarlyStopping.restores_at_stop rel); [|reflexivity].
    cbn [andb]. rewrite Fstop, Fcp in Hcase.
    destruct Hcase as [H|[H|H]]; try discriminate. now rewrite H.
  - exact Hcp'.
  - rewrite Fbest, Fcp. destruct better; [discriminate|].
    intros Hb. pose proof (Hrec Hb) as Hne.
    destruct (EarlyStopping.best_weights (callback st)); [discriminate | contradiction].
Qed.

Lemma fit_loop_follows n : forall epoch (st : State),
  fit_inv evaluate rel a st ->
  follows_training train_epoch evaluate w0 o0 rel st epoch ->
  stop_training st = false ->
  exists epochs,
    follows_training train_epoch evaluate w0 o0 rel
      (fit_loop _ _ train_epoch evaluate rel a n epoch st) epochs.
Proof.
  induction n as [|n IH]; intros epoch st Hinv Hft Hrun; cbn [fit_loop].
  - now exists epoch.
  - pose proof (follows_training_step epoch st Hinv Hft Hrun) as Hft'.
    assert (Hepoch : epoch = length (history st))
      by now rewrite (ft_history _ _ _ _ _ _ _ Hft), length_map, length_seq.
    pose proof (fit_inv_step epoch st Hinv Hrun Hepoch) as Hinv'.
    destruct (stop_training (run_epoch _ _ train_epoch evaluate rel a epoch st)) eqn:Hs.
    + now exists (S epoch).
    + exact (IH (S epoch) _ Hinv' Hft' Hs).
Qed.

End Trajectory.

End FitFacts.

(** What a run of [model.fit] with the notebook's callback is: the state
    [r0] in which the loop ends, with the invariants of the loop, and what
    the end of the training makes of it. *)
Lemma model_fit_invariants {Weights OptimizerState : Type}
    (release : EarlyStopping.Release)
    (train_epoch : nat -> Weights * OptimizerState -> (Weights * OptimizerState) * (f32.t * f32.t))
    (evaluate : Weights -> f32.t * f32.t) (w0 : Weights) (o0 : OptimizerState) :
  exists r0,
    fit_inv evaluate release early_stopping r0 /\
    follows_training train_epoch evaluate w0 o0 release r0 (length (history r0)) /\
    (1 <= length (history r0) <= 100)%nat /\
    (stop_training r0 = false -> length (history r0) = 100%nat) /\
    let r := model_fit release train_epoch evaluate w0 o0 in
    history r = history r0 /\
    optimizer_state r = optimizer_state r0 /\
    callback r = callback r0 /\
    stop_training r = stop_training r0 /\
    raised r = raised r0 /\
    get_weights r
    = (if EarlyStopping.restores_at_train_end release
       then match EarlyStopping.best_weights (callback r0) with
            | Some w => w
            | None => get_weights r0
            end
       else get_weights r0).
Proof.
  assert (Hp : (2 <= EarlyStopping.patience early_stopping)%nat) by (cbn; lia).
  assert (Hd : (0 < EarlyStopping.min_delta early_stopping)%Q) by reflexivity.
  destruct (fit_loop_inv train_epoch evaluate release early_stopping Hp Hd eq_refl
              improved_at_least 100 0
              _ (fit_inv_init evaluate release early_stopping Hp w0 o0) eq_refl eq_refl)
    as (Hinv & Hle & Heq & Hge).
  destruct (fit_loop_follows train_epoch evaluate release early_stopping Hp Hd eq_refl
              improved_at_least w0 o0 100 0
              _ (fit_inv_init evaluate release early_stopping Hp w0 o0)
              (follows_training_init train_epoch evaluate release w0 o0) eq_refl)
    as (epochs & Hft).
  cbn [history length Nat.add Nat.min] in Hle, Heq, Hge.
  unfold model_fit, fit.
  set (r0 := fit_loop _ _ _ _ _ _ _ _ _) in *.
  assert (Hlen : length (history r0) = epochs).
  { rewrite (ft_history _ _ _ _ _ _ _ Hft), length_map, length_seq. reflexivity. }
  exists r0. rewrite Hlen. split; [exact Hinv|]. split; [exact Hft|].
  rewrite <- Hlen. split; [lia|]. split; [exact Heq|].
  cbv zeta. destruct (raised r0) as [e|] eqn:Er.
  - destruct (inv_raised _ _ _ _ Hinv) as (_ & _ & Hnone); [congruence|].
    rewrite Hnone, Er. repeat split; try reflexivity.
    now destruct (EarlyStopping.restores_at_train_end release).
  - pose proof (on_train_end_fields release early_stopping eq_refl r0) as F.
    cbv zeta in F. destruct F as (F1 & F2 & F3 & F4 & F5 & F6).
    rewrite F1, F2, F3, F4, F5, F6, Er. repeat split; reflexivity.
Qed.

(** Once a finite loss was observed, a loss is on record. *)
Lemma recorded_not_infinity d (vals : list f32.t) : forall s,
  fst s <> S754_infinity false ->
  fst (fold_left (record_epoch d) vals s) <> S754_infinity false.
Proof.
  induction vals as [|c vals IH]; intros s Hs; [exact Hs|].
  cbn [fold_left]. apply IH. unfold record_epoch.
  destruct (improves_by_at_least d c (fst s)) eqn:E; cbn [fst]; [|exact Hs].
  exact (improves_not_inf d c _ E).
Qed.

Lemma recorded_first_finite d (c0 : f32.t) (vals : list f32.t) :
  f32.is_finite c0 = true -> recorded_best d (c0 :: vals) <> S754_infinity false.
Proof.
  intros Hc. unfold recorded_best, recorded. cbn [fold_left].
  apply recorded_not_infinity. unfold record_epoch. cbn [fst].
  rewrite improves_on_infinity by exact Hc. cbn [fst].
  intros E. rewrite E in Hc. discriminate.
Qed.

(** C1 (as the code has it): [model.fit] with the notebook's callback runs
    between 1 and 100 epochs, whatever the release of Keras.  A loss goes on
    record when it improves on the loss on record by at least 0.001, which
    is what the callback's test decides on float32 losses, and the first
    finite loss always does.  The training is halted exactly when 5
    consecutive epochs have passed without a loss going on record, and no
    earlier.  After a halt with a loss on record, the call has not raised,
    the weights are the checkpoint of the loss on record, on which no
    observed loss improves by at least 0.001: the loss kept is less than
    0.001 above every finite loss observed. *)
Theorem early_stopping_run {Weights OptimizerState : Type}
    (release : EarlyStopping.Release)
    (train_epoch : nat -> Weights * OptimizerState -> (Weights * OptimizerState) * (f32.t * f32.t))
    (evaluate : Weights -> f32.t * f32.t) (w0 : Weights) (o0 : OptimizerState) :
  let r := model_fit release train_epoch evaluate w0 o0 in
  let vals := losses r in
  let record := recorded_best (1 # 1000) vals in
  (1 <= length vals <= 100)%nat /\
  (forall c b,
     EarlyStopping.improved early_stopping c b = improves_by_at_least (1 # 1000) c b) /\
  (forall c0, hd_error vals = Some c0 -> f32.is_finite c0 = true ->
     record <> S754_infinity false) /\
  (stop_training r = true <-> stale_epochs (1 # 1000) vals = 5%nat) /\
  (forall k, (k < length vals)%nat ->
     (stale_epochs (1 # 1000) (firstn k vals) < 5)%nat) /\
  (stop_training r = true -> record <> S754_infinity false ->
   raised r = None /\
   fst (evaluate (get_weights r)) = record /\
   In record vals /\
   (forall c, In c vals -> improves_by_at_least (1 # 1000) c record = false) /\
   (forall c, In c vals -> f32.is_finite c = true -> f32.is_finite record = true ->
      (f32.to_Q record < f32.to_Q c + (1 # 1000))%Q)).
Proof.
  cbv zeta.
  destruct (model_fit_invariants release train_epoch evaluate w0 o0)
    as (r0 & Hinv & _ & Hlen & _ & Hr).
  cbv zeta in Hr. destruct Hr as (Hh & _ & Hc & Hs & Hraised & Hw).
  set (r := model_fit release train_epoch evaluate w0 o0) in *.
  assert (Hlosses : losses r = losses r0) by (unfold losses; now rewrite Hh).
  destruct Hinv as [Hrec Hstop Hwait _ Hpre Hunb Hcp Hrest Hrai].
  change (EarlyStopping.patience early_stopping) with 5%nat in *.
  change (EarlyStopping.min_delta early_stopping) with (1 # 1000)%Q in *.
  rewrite Hlosses, Hs, Hraised, Hw.
  assert (Hl : length (losses r0) = length (history r0))
    by (unfold losses; apply length_map).
  assert (Hbest : recorded_best (1 # 1000) (losses r0) = EarlyStopping.best (callback r0))
    by (unfold recorded_best; now rewrite Hrec).
  assert (Hstale : stale_epochs (1 # 1000) (losses r0) = EarlyStopping.wait (callback r0))
    by (unfold stale_epochs; now rewrite Hrec).
  rewrite Hbest.
  split; [rewrite Hl; exact Hlen|].
  split; [exact improved_at_least|].
  split.
  { intros c0 Hhd Hfin. rewrite <- Hbest.
    destruct (losses r0) as [|c vals]; [discriminate|].
    injection Hhd as ->. now apply recorded_first_finite. }
  split; [rewrite Hstale, Hstop; lia|].
  split; [exact Hpre|].
  intros Hstopped Hrecord.
  destruct (Hcp Hrecord) as (wb & Hwb & Hev & Hin).
  split.
  { destruct (raised r0) eqn:E; [|reflexivity].
    destruct Hrai as (_ & Hinf & _); [discriminate | contradiction]. }
  split.
  { rewrite Hwb.
    destruct (EarlyStopping.restores_at_train_end release) eqn:Ee; [exact Hev|].
    rewrite (Hrest Hstopped ltac:(now destruct release) wb Hwb). exact Hev. }
  split; [exact Hin|]. split; [exact Hunb|].
  intros c Hc1 Hf1 Hf2.
  apply (improves_false_bound (1 # 1000) eq_refl c _ Hf1 Hf2 (Hunb c Hc1)).
Qed.

(** C1 as stated fails on the run [plateau], whatever the release.  The
    validation losses are 1, 0.99951171875, 1, 1, 1, 1.  The second improves
    on the first by less than 0.001 and does not go on record, so training
    halts after the sixth epoch and rolls back to the weights of the first
    epoch: their validation loss is 1, not the best observed, and worse
    than the best observed by 1/2048.  On all losses of the run the
    comparison in float64 arithmetic decides as the one on exact values. *)
Lemma retained_worse_than_best_observed :
  Forall (fun release =>
    let r := model_fit release count_epoch plateau 0%nat tt in
    let below := f32.div (f32.of_Z 2047) (f32.of_Z 2048) in
    stop_training r = true /\
    raised r = None /\
    losses r = [f32.one; below; f32.one; f32.one; f32.one; f32.one] /\
    get_weights r = 1%nat /\
    fst (plateau (get_weights r)) = f32.one /\
    f32.ltb below (fst (plateau (get_weights r))) = true /\
    (f32.to_Q (fst (plateau (get_weights r))) - f32.to_Q below == 1 # 2048)%Q /\
    forallb (fun c =>
      forallb (fun b =>
        Bool.eqb (EarlyStopping.improved_float64 early_stopping c b)
                 (EarlyStopping.improved early_stopping c b))
        (S754_infinity false :: losses r))
      (losses r) = true)
    releases.
Proof.
  repeat constructor; vm_compute; reflexivity.
Qed.

(** ** Errors *)

(** A call that raises ends the cell: what follows it is not run. *)
Lemma bind_raise {A B} (c : Cell A) (k : A -> Cell B) (w w' : World) e :
  c w = (Raise e, w') -> bind c k w = (Raise e, w').
Proof. intros H. unfold bind. now rewrite H. Qed.

(** C9: no cell handles an exception.  When the fetch of the dataset
    fails, the loading cell raises that very exception after its one
    attempt; when the image file is missing, the inference cell raises
    [FileNotFoundError]; when the image has not 784 pixels, the reshape
    raises [ValueError]; in both cases nothing has been printed.  Whatever
    a call raises ends the cell it is in. *)
Theorem errors_propagate (rt : keras.Runtime) (ws : nat -> keras.LayerWeights)
    (w : World) :
  (forall e,
     tfds_outcome w "mnist" (tfds_attempts w) = Raise e ->
     exists w',
       load_cell w = (Raise e, w') /\
       tfds_attempts w' = S (tfds_attempts w) /\
       tfds_outcome w' = tfds_outcome w /\
       stdout w' = stdout w) /\
  (files w "tf_classification_user.png" = None ->
   inference_cell rt (built ws) w
   = (Raise (FileNotFoundError "tf_classification_user.png"), w)) /\
  (forall img,
     files w "tf_classification_user.png" = Some img ->
     length (pixels (convert_L img)) <> 784%nat ->
     np.reshape (np_array (convert_L img)) [1; 28; 28; 1]%nat
     = Raise (ValueError "cannot reshape array") /\
     inference_cell rt (built ws) w = (Raise (ValueError "cannot reshape array"), w)) /\
  (forall (A B : Type) (c : Cell A) (k : A -> Cell B) e w',
     c w = (Raise e, w') -> bind c k w = (Raise e, w')).
Proof.
  split; [|split; [|split]].
  - intros e He. eexists. unfold load_cell, tfds_load. rewrite He.
    cbn [rbind]. split; [reflexivity|]. cbn. auto.
  - intros Hf. rewrite inference_cell_run, Hf. reflexivity.
  - intros img Hf Hlen. split.
    + unfold np.reshape. cbn [np_array data].
      change (size_of [1; 28; 28; 1]%nat) with 784%nat.
      destruct (Nat.eqb_spec 784 (length (pixels (convert_L img)))) as [E|_];
        [congruence | reflexivity].
    + rewrite inference_cell_run, Hf.
      destruct (Nat.eqb_spec (length (pixels (convert_L img))) 784) as [E|_];
        [contradiction | reflexivity].
  - intros A B c k e w'. apply bind_raise.
Qed.

Lemma errors_propagate_witness :
  (exists w',
     load_cell (world_with None fails_once)
     = (Raise (DownloadError "connection reset"), w') /\
     tfds_attempts w' = 1%nat /\
     tfds_outcome w' "mnist" 1%nat = Ok tiny_mnist) /\
  inference_cell quiet_runtime (built zero_weights) (world_with None fails_once)
  = (Raise (FileNotFoundError "tf_classification_user.png"),
     world_with None fails_once) /\
  inference_cell quiet_runtime (built zero_weights) (world_with (Some small_image) fails_once)
  = (Raise (ValueError "cannot reshape array"),
     world_with (Some small_image) fails_once).
Proof.
  split; [|split].
  - destruct (errors_propagate quiet_runtime zero_weights (world_with None fails_once))
      as (Hload & _).
    destruct (Hload (DownloadError "connection reset") eq_refl)
      as (w' & Hrun & Hatt & Hout & _).
    exists w'. split; [exact Hrun|]. split; [exact Hatt|]. now rewrite Hout.
  - destruct (errors_propagate quiet_runtime zero_weights (world_with None fails_once))
      as (_ & Hfile & _).
    exact (Hfile eq_refl).
  - destruct (errors_propagate quiet_runtime zero_weights (world_with (Some small_image) fails_once))
      as (_ & _ & Hshape & _).
    refine (proj2 (Hshape small_image eq_refl _)). cbn. lia.
Defined.

(** ** Compilation *)

(** The scan of [tf.argmax] keeps the position of the first greatest
    element seen. *)
Lemma tf_argmax_scan_spec l : forall pre mp mi,
  (mi < length pre)%nat -> nth mi pre f32.zero = mp -> mp <> f32.nan ->
  Forall (fun y => f32.leb y mp = true) pre ->
  (forall j, (j < mi)%nat -> f32.ltb (nth j pre f32.zero) mp = true) ->
  Forall (fun y => y <> f32.nan) l ->
  let r := tf_argmax_scan mp mi (length pre) l in
  (r < length (pre ++ l))%nat /\
  Forall (fun y => f32.leb y (nth r (pre ++ l) f32.zero) = true) (pre ++ l) /\
  (forall j, (j < r)%nat ->
     f32.ltb (nth j (pre ++ l) f32.zero) (nth r (pre ++ l) f32.zero) = true).
Proof.
  induction l as [|x l IH]; intros pre mp mi Hmi Hmp Hnan Hall Hbefore Hl.
  - cbn [tf_argmax_scan]. rewrite app_nil_r, Hmp. auto.
  - inversion Hl as [|? ? Hx Hl']; subst.
    cbn [tf_argmax_scan].
    replace (pre ++ x :: l) with ((pre ++ [x]) ++ l) by now rewrite <- app_assoc.
    replace (S (length pre)) with (length (pre ++ [x]))
      by (rewrite length_app; cbn [length]; lia).
    destruct (f32.ltb (nth mi pre f32.zero) x) eqn:Hlt.
    + apply IH; try assumption.
      * rewrite length_app. cbn [length]. lia.
      * apply nth_middle.
      * apply Forall_app. split.
        -- eapply Forall_impl; [|exact Hall]. cbn beta. intros y Hy.
           apply ltb_leb. eapply leb_ltb_trans; eassumption.
        -- constructor; [now apply leb_refl | constructor].
      * intros j Hj. rewrite app_nth1 by exact Hj.
        eapply leb_ltb_trans; [|exact Hlt].
        rewrite Forall_forall in Hall. apply Hall. now apply nth_In.
    + assert (Hle : f32.leb x (nth mi pre f32.zero) = true).
      { destruct (f32.leb x (nth mi pre f32.zero)) eqn:E; [reflexivity|].
        pose proof (leb_total _ _ Hx Hnan E). congruence. }
      apply IH; try assumption.
      * rewrite length_app. lia.
      * now apply app_nth1.
      * apply Forall_app. split; [exact Hall | now constructor].
      * intros j Hj. rewrite app_nth1 by lia. now apply Hbefore.
Qed.

(** A float that is neither NaN nor minus infinity is not below the
    lowest finite float, and equal to it if not above. *)
Lemma lowest_not_nan y : f32.leb f32.lowest y = true -> y <> f32.nan.
Proof. intros H E. subst y. discriminate. Qed.

Lemma lowest_eq x :
  f32.leb f32.lowest x = true -> f32.ltb f32.lowest x = false -> x = f32.lowest.
Proof.
  unfold f32.leb, f32.ltb, f32.lowest, SFleb, SFltb, SFcompare.
  destruct x as [[]|[]| |[] m e]; try discriminate.
  destruct (Z.compare_spec 104 e) as [E|E|E]; try discriminate.
  subst e.
  change (Pos.compare_cont Eq 16777215 m) with (Pos.compare 16777215 m).
  destruct (Pos.compare_spec 16777215 m) as [E|E|E]; cbn [CompOpp]; try discriminate.
  intros _ _. now subst m.
Qed.

Lemma tf_argmax_cons x l :
  f32.leb f32.lowest x = true -> tf_argmax (x :: l) = tf_argmax_scan x 0 1 l.
Proof.
  intros Hx. unfold tf_argmax. cbn [tf_argmax_scan].
  destruct (f32.ltb f32.lowest x) eqn:E; [reflexivity|].
  now rewrite (lowest_eq x Hx E).
Qed.

(** On logits that are neither NaN nor minus infinity [tf.argmax] finds
    the first greatest. *)
Lemma tf_argmax_spec (logits : list f32.t) :
  logits <> [] -> Forall (fun y => f32.leb f32.lowest y = true) logits ->
  let d := tf_argmax logits in
  (d < length logits)%nat /\
  Forall (fun y => f32.leb y (nth d logits f32.zero) = true) logits /\
  forall j, (j < d)%nat ->
    f32.ltb (nth j logits f32.zero) (nth d logits f32.zero) = true.
Proof.
  intros Hne Hall. destruct logits as [|x l]; [contradiction|].
  inversion Hall as [|? ? Hx Hl]; subst.
  rewrite (tf_argmax_cons x l Hx).
  apply (tf_argmax_scan_spec l [x] x 0); cbn [length nth];
    [ lia | reflexivity | now apply lowest_not_nan | | intros j Hj; lia | ].
  - constructor; [apply leb_refl; now apply lowest_not_nan | constructor].
  - eapply Forall_impl; [|exact Hl]. intros y. apply lowest_not_nan.
Qed.

Lemma sum_exp_nonneg z : (0 <= sum_exp z)%R.
Proof.
  induction z as [|a z IH]; cbn; [Lra.lra|].
  pose proof (exp_pos a). unfold sum_exp in IH. Lra.lra.
Qed.

Lemma sum_exp_ge z y : (y < length z)%nat -> (exp (nth y z 0%R) <= sum_exp z)%R.
Proof.
  revert y. induction z as [|a z IH]; intros y Hy; [cbn in Hy; lia|].
  pose proof (sum_exp_nonneg z) as Hz. pose proof (exp_pos a) as Ha.
  unfold sum_exp in *. cbn [map fold_right]. destruct y as [|y]; cbn [nth].
  - Lra.lra.
  - cbn [length] in Hy. specialize (IH y ltac:(lia)). Lra.lra.
Qed.

Lemma one_hot_sum (q : list R) y : forall s,
  fold_right Rplus 0%R
    (map (fun tq => (fst tq * ln (snd tq))%R)
       (combine (map (fun j => if (j =? y)%nat then 1%R else 0%R) (seq s (length q))) q))
  = if ((s <=? y) && (y <? s + length q))%nat then ln (nth (y - s) q 0%R) else 0%R.
Proof.
  induction q as [|a q IH]; intros s.
  - cbn [length seq map combine fold_right].
    replace ((s <=? y) && (y <? s + 0))%nat with false; [reflexivity|].
    symmetry. apply andb_false_iff.
    destruct (Nat.leb_spec s y); [right; apply Nat.ltb_ge; lia | now left].
  - cbn [length seq map combine fold_right fst snd]. rewrite IH.
    destruct (Nat.eqb_spec s y) as [->|Hne].
    + replace (S y <=? y)%nat with false by (symmetry; apply Nat.leb_gt; lia).
      rewrite Nat.leb_refl, Nat.sub_diag. cbn [andb nth].
      replace (y <? y + S (length q))%nat with true by (symmetry; apply Nat.ltb_lt; lia).
      Lra.lra.
    + destruct (Nat.leb_spec (S s) y) as [H1|H1].
      * replace (s <=? y)%nat with true by (symmetry; apply Nat.leb_le; lia).
        cbn [andb].
        replace (y <? s + S (length q))%nat with (y <? S s + length q)%nat
          by (f_equal; lia).
        replace (y - s)%nat with (S (y - S s)) by lia. cbn [nth].
        destruct (y <? S s + length q)%nat; Lra.lra.
      * replace (s <=? y)%nat with false by (symmetry; apply Nat.leb_gt; lia).
        cbn [andb]. Lra.lra.
Qed.

Lemma softmax_nth z y :
  (y < length z)%nat -> nth y (softmax z) 0%R = (exp (nth y z 0%R) / sum_exp z)%R.
Proof.
  intros Hy. unfold softmax.
  rewrite (nth_indep _ 0%R (exp 0 / sum_exp z)%R) by now rewrite length_map.
  apply (map_nth (fun a => (exp a / sum_exp z)%R)).
Qed.

(** The loss from logits is the cross-entropy of the softmax of the logits
    against the distribution that puts all weight on the label; it is never
    negative. *)
Lemma sparse_softmax_cross_entropy_spec y z :
  (y < length z)%nat ->
  sparse_softmax_cross_entropy_with_logits y z
  = crossentropy (one_hot (length z) y) (softmax z) /\
  (0 <= sparse_softmax_cross_entropy_with_logits y z)%R.
Proof.
  intros Hy.
  pose proof (sum_exp_ge z y Hy) as Hge. pose proof (exp_pos (nth y z 0%R)) as Hpos.
  assert (HS : (0 < sum_exp z)%R) by Lra.lra.
  unfold sparse_softmax_cross_entropy_with_logits. split.
  - unfold crossentropy, one_hot.
    replace (length z) with (length (softmax z)) by (unfold softmax; apply length_map).
    rewrite one_hot_sum. cbn [Nat.leb andb Nat.add].
    replace (y <? length (softmax z))%nat with true
      by (symmetry; apply Nat.ltb_lt; unfold softmax; now rewrite length_map).
    rewrite Nat.sub_0_r, softmax_nth by exact Hy.
    unfold Rdiv. rewrite ln_mult by (try apply Rinv_0_lt_compat; assumption).
    rewrite ln_exp, ln_Rinv by exact HS. Lra.lra.
  - rewrite <- (ln_exp (nth y z 0%R)) at 1.
    destruct Hge as [Hlt|Heq].
    + pose proof (ln_increasing _ _ Hpos Hlt). Lra.lra.
    + rewrite Heq. Lra.lra.
Qed.

(** C8: [model.compile] binds Adam with learning rate 0.001, the sparse
    categorical cross-entropy computed from logits, and the one metric
    sparse categorical accuracy.  The loss of a sample is the
    cross-entropy of the softmax of its logits against its label, computed
    from the logits as log-sum-exp minus the label's logit, and is never
    negative.  The metric counts a sample as correct exactly when
    [tf.argmax] of its logits is its integer label; on logits that are
    neither NaN nor minus infinity that is the position of the first
    greatest logit, and a NaN logit is passed over. *)
Theorem compile_binds :
  optimizer model_compile = Adam (1 # 1000) /\
  loss model_compile = SparseCategoricalCrossentropy true /\
  metrics model_compile = [SparseCategoricalAccuracy] /\
  (exists f,
     loss_fn (loss model_compile) = Some f /\
     forall (y : nat) (z : list R), (y < length z)%nat ->
       f y z = (ln (sum_exp z) - nth y z 0)%R /\
       f y z = crossentropy (one_hot (length z) y) (softmax z) /\
       (0 <= f y z)%R) /\
  (forall (y_true : Z) (logits : list f32.t),
     sparse_categorical_accuracy y_true logits = true
     <-> Z.of_nat (tf_argmax logits) = y_true) /\
  (forall (logits : list f32.t),
     logits <> [] -> Forall (fun y => f32.leb f32.lowest y = true) logits ->
     let d := tf_argmax logits in
     (d < length logits)%nat /\
     Forall (fun y => f32.leb y (nth d logits f32.zero) = true) logits /\
     forall j, (j < d)%nat ->
       f32.ltb (nth j logits f32.zero) (nth d logits f32.zero) = true) /\
  tf_argmax [f32.nan; f32.one; f32.of_Z 7] = 2%nat /\
  tf_argmax [f32.one; f32.nan; f32.zero] = 0%nat /\
  sparse_categorical_accuracy 2 [f32.nan; f32.one; f32.of_Z 7] = true.
Proof.
  split; [reflexivity|]. split; [reflexivity|]. split; [reflexivity|].
  split; [|split; [|split; [|split; [|split]]]].
  - exists sparse_softmax_cross_entropy_with_logits. split; [reflexivity|].
    intros y z Hy. split; [reflexivity|].
    apply sparse_softmax_cross_entropy_spec, Hy.
  - intros y_true logits. unfold sparse_categorical_accuracy. apply Z.eqb_eq.
  - intros logits Hne Hall. now apply tf_argmax_spec.
  - vm_compute. reflexivity.
  - vm_compute. reflexivity.
  - vm_compute. reflexivity.
Qed.

(** * Further properties of the notebook's code *)

(** ** The lookup cell *)

Lemma lookup_loop_nth l : forall n,
  lookup_loop (Z.of_nat (S n)) l
  = match nth_error l n with
    | Some s => (0, Some s)
    | None => (Z.of_nat (S n) - Z.of_nat (length l), None)
    end.
Proof.
  induction l as [|[images labels] l IH]; intros n.
  - cbn [lookup_loop length]. destruct n; cbn [nth_error]; f_equal; lia.
  - cbn [lookup_loop]. destruct n as [|n].
    + cbn [nth_error]. reflexivity.
    + replace (Z.of_nat (S (S n)) - 1) with (Z.of_nat (S n)) by lia.
      destruct (Z.eqb_spec (Z.of_nat (S n)) 0) as [E|_]; [lia|].
      rewrite IH. cbn [nth_error length].
      destruct (nth_error l n); [reflexivity|]. f_equal. lia.
Qed.

Lemma nth_error_firstn_lt {A} (l : list A) n k :
  (k < n)%nat -> nth_error (firstn n l) k = nth_error l k.
Proof.
  revert n k. induction l as [|x l IH]; intros n k Hk.
  - now rewrite firstn_nil.
  - destruct n; [lia|]. destruct k; [reflexivity|].
    cbn [firstn nth_error]. apply IH. lia.
Qed.

Lemma channel0_one_channel (images : ndarray Z) H W :
  shape images = [H; W; 1]%nat -> length (data images) = (H * W)%nat ->
  channel0 images = Ok (mk_ndarray [H; W] (data images)).
Proof.
  intros Hs Hl. unfold channel0. rewrite Hs, <- Hl, map_nth_seq. reflexivity.
Qed.

(** X1: the lookup cell shows the seventh sample of the split (not the first):
    its label and channel 0 of its image (for a one-channel image, the
    image itself), leaving the counter at 0.  On a split of fewer than
    seven samples it shows nothing, raises nothing, and leaves the counter
    at 7 minus the number of samples. *)
Theorem lookup_cell_seventh (train_split : list Sample) (rnd : nat -> nat) :
  lookup_cell (tfdata.TensorSliceDataset train_split) rnd
  = match nth_error train_split 6 with
    | Some (images, labels) =>
        rbind (channel0 images) (fun picture => Ok (0, Some (labels, picture)))
    | None => Ok (7 - Z.of_nat (length train_split), None)
    end /\
  (forall images labels,
     nth_error train_split 6 = Some (images, labels) ->
     shape images = [28; 28; 1]%nat -> length (data images) = 784%nat ->
     lookup_cell (tfdata.TensorSliceDataset train_split) rnd
     = Ok (0, Some (labels, mk_ndarray [28; 28]%nat (data images)))) /\
  ((length train_split < 7)%nat ->
   lookup_cell (tfdata.TensorSliceDataset train_split) rnd
   = Ok (7 - Z.of_nat (length train_split), None)).
Proof.
  assert (Hrun : lookup_cell (tfdata.TensorSliceDataset train_split) rnd
    = match nth_error train_split 6 with
      | Some (images, labels) =>
          rbind (channel0 images) (fun picture => Ok (0, Some (labels, picture)))
      | None => Ok (7 - Z.of_nat (length train_split), None)
      end).
  { unfold lookup_cell, take_pass. cbn [tfdata.iterate rbind].
    change (Z.to_nat 7) with 7%nat.
    pose proof (lookup_loop_nth (firstn 7 train_split) 6) as H.
    change (Z.of_nat 7) with 7 in H. rewrite H.
    rewrite nth_error_firstn_lt by lia.
    destruct (nth_error train_split 6) as [[images labels]|] eqn:E; [reflexivity|].
    apply nth_error_None in E.
    rewrite firstn_all2 by lia. reflexivity. }
  split; [exact Hrun|]. split.
  - intros images labels Hnth Hs Hl. rewrite Hrun, Hnth.
    rewrite (channel0_one_channel images 28 28 Hs Hl). reflexivity.
  - intros Hlt. rewrite Hrun.
    destruct (nth_error train_split 6) as [s|] eqn:E; [|reflexivity].
    assert (nth_error train_split 6 <> None) as Hn by congruence.
    apply nth_error_Some in Hn. lia.
Qed.

(** ** The shuffle is a full shuffle *)

(** X2: because its buffer holds the whole split, the training pipeline can
    emit the normalized samples in any order whatsoever: for every
    rearrangement of the split there are draws under which the concatenated
    batches are that rearrangement. *)
Theorem train_shuffle_is_full (m : Mnist) (target : list NormalizedSample) :
  num_examples (splits (info m) "train") = length (train m) ->
  train m <> [] ->
  Permutation (map normalize_img (train m)) target ->
  exists rnd batches,
    tfdata.iterate (ds_train (tfdata.TensorSliceDataset (train m)) (info m)) rnd
    = Ok batches /\
    concat batches = target.
Proof.
  intros Hinfo Hne Hperm.
  destruct (shuffle_pass_reaches _ _ Hperm) as [rnd Hrnd].
  rewrite length_map in Hrnd.
  destruct (length (train m)) as [|n] eqn:En.
  { destruct (train m); [contradiction | discriminate]. }
  exists rnd. eexists. rewrite ds_train_iterate, Hinfo.
  split; [reflexivity|].
  rewrite batch_iter_concat. cbn [rev app]. exact Hrnd.
Qed.

Lemma train_shuffle_is_full_witness :
  exists rnd batches,
    tfdata.iterate
      (ds_train (tfdata.TensorSliceDataset (train tiny_mnist)) (info tiny_mnist)) rnd
    = Ok batches /\
    concat batches = rev (map normalize_img (train tiny_mnist)).
Proof.
  apply (train_shuffle_is_full tiny_mnist).
  - reflexivity.
  - discriminate.
  - apply Permutation_rev.
Defined.

(** ** Order and range of normalized pixels *)

Lemma upto_in (n p : Z) : 0 <= p <= n -> In p (upto n).
Proof.
  intros Hp. unfold upto. rewrite <- (Z2Nat.id p) by lia.
  apply in_map, in_seq. lia.
Qed.

Lemma ltb_trans x y z :
  f32.ltb x y = true -> f32.ltb y z = true -> f32.ltb x z = true.
Proof. intros Hxy Hyz. apply (leb_ltb_trans x y z); [now apply ltb_leb | exact Hyz]. Qed.

Lemma train_pixel_steps :
  forallb (fun p => f32.ltb (train_pixel p) (train_pixel (p + 1))) (upto 254) = true.
Proof. vm_compute. reflexivity. Qed.

Lemma train_pixel_increasing p q :
  uint8 p -> uint8 q -> p < q -> f32.ltb (train_pixel p) (train_pixel q) = true.
Proof.
  intros Hp Hq Hlt.
  assert (Hstep : forall r, 0 <= r <= 254 ->
            f32.ltb (train_pixel r) (train_pixel (r + 1)) = true).
  { intros r Hr.
    exact (proj1 (forallb_forall _ _) train_pixel_steps r (upto_in 254 r Hr)). }
  replace q with (p + 1 + Z.of_nat (Z.to_nat (q - p - 1))) in * by lia.
  induction (Z.to_nat (q - p - 1)) as [|n IH].
  - rewrite Z.add_0_r. apply Hstep. unfold uint8 in *. lia.
  - unfold uint8 in *.
    apply (ltb_trans _ (train_pixel (p + 1 + Z.of_nat n))).
    + apply IH; lia.
    + replace (p + 1 + Z.of_nat (S n)) with (p + 1 + Z.of_nat n + 1) by lia.
      apply Hstep. lia.
Qed.

Lemma normalize_img_nth (image : ndarray Z) (label : Z) i :
  nth i (data (fst (normalize_img (image, label)))) f32.zero
  = if (i <? length (data image))%nat
    then train_pixel (nth i (data image) 0)
    else f32.zero.
Proof.
  cbn [normalize_img fst tf_div tf_cast_f32 data]. rewrite map_map.
  destruct (Nat.ltb_spec i (length (data image))) as [Hi|Hi].
  - rewrite (nth_indep _ f32.zero (train_pixel 0)) by now rewrite length_map.
    apply (map_nth (fun p => f32.div (f32.of_Z p) (f32.of_Z 255))).
  - apply nth_overflow. now rewrite length_map.
Qed.

(** X3: [normalize_img] keeps the order of intensities strictly: a brighter
    pixel becomes a greater float, so no two intensities collapse; black
    becomes exactly 0.0 and full white exactly 1.0. *)
Theorem normalize_img_increasing (image : ndarray Z) (label : Z) (i j : nat) :
  Forall uint8 (data image) ->
  (i < length (data image))%nat -> (j < length (data image))%nat ->
  let image' := fst (normalize_img (image, label)) in
  (nth i (data image) 0 < nth j (data image) 0 ->
   f32.ltb (nth i (data image') f32.zero) (nth j (data image') f32.zero) = true) /\
  (nth i (data image) 0 = 0 -> nth i (data image') f32.zero = f32.zero) /\
  (nth i (data image) 0 = 255 -> nth i (data image') f32.zero = f32.one).
Proof.
  intros Hall Hi Hj. cbv zeta. rewrite !normalize_img_nth.
  destruct (Nat.ltb_spec i (length (data image))) as [_|]; [|lia].
  destruct (Nat.ltb_spec j (length (data image))) as [_|]; [|lia].
  rewrite Forall_forall in Hall.
  split; [|split].
  - apply train_pixel_increasing; apply Hall; now apply nth_In.
  - intros ->. reflexivity.
  - intros ->. reflexivity.
Qed.

Lemma normalize_img_increasing_witness :
  let image := mk_ndarray [1; 3; 1]%nat [0; 128; 255] in
  let image' := fst (normalize_img (image, 4)) in
  f32.ltb (nth 1 (data image') f32.zero) (nth 2 (data image') f32.zero) = true /\
  nth 0 (data image') f32.zero = f32.zero /\
  nth 2 (data image') f32.zero = f32.one.
Proof.
  assert (H : Forall uint8 [0; 128; 255]) by (repeat constructor; unfold uint8; lia).
  pose proof (normalize_img_increasing (mk_ndarray [1; 3; 1]%nat [0; 128; 255]) 4 1 2 H
                ltac:(cbn; lia) ltac:(cbn; lia)) as H12.
  pose proof (normalize_img_increasing (mk_ndarray [1; 3; 1]%nat [0; 128; 255]) 4 0 2 H
                ltac:(cbn; lia) ltac:(cbn; lia)) as H0.
  pose proof (normalize_img_increasing (mk_ndarray [1; 3; 1]%nat [0; 128; 255]) 4 2 2 H
                ltac:(cbn; lia) ltac:(cbn; lia)) as H2.
  cbv zeta in *.
  split; [apply (proj1 H12); cbn; lia|].
  split; [apply (proj1 (proj2 H0)); reflexivity|].
  apply (proj2 (proj2 H2)); reflexivity.
Defined.

Lemma SFeqb_one x : SFeqb x f32.one = true -> x = f32.one.
Proof.
  change f32.one with (S754_finite false 8388608 (-23)).
  unfold SFeqb, SFcompare.
  destruct x as [[]|[]| |[] mm em]; try discriminate.
  destruct (Z.compare_spec em (-23)) as [->| |]; try discriminate.
  destruct (Pos.compare_cont Eq mm 8388608) eqn:E; try discriminate.
  apply Pos.compare_eq in E. subst mm. reflexivity.
Qed.

Lemma ratio_ok_all :
  forallb (fun m => forallb (fun p => ratio_ok m p) (upto m))
    (map (Z.add 1) (upto 254)) = true.
Proof. vm_compute. reflexivity. Qed.

Lemma ratio_ok_in m p : 1 <= m <= 255 -> 0 <= p <= m -> ratio_ok m p = true.
Proof.
  intros Hm Hp.
  assert (Hin : In m (map (Z.add 1) (upto 254))).
  { replace m with (1 + (m - 1)) by lia. apply in_map, upto_in. lia. }
  pose proof (proj1 (forallb_forall _ _) ratio_ok_all m Hin) as Hrow.
  exact (proj1 (forallb_forall _ _) Hrow p (upto_in m p Hp)).
Qed.

(** X4: what the inference cell feeds the model: for an 8-bit image with at
    least one non-zero pixel, dividing by [np.max] and casting to float32
    yields finite values of [0,1] only, and exactly 1.0 at every brightest
    pixel; for an all-zero image it yields NaN everywhere.  So the input
    holds a NaN exactly when the image is black. *)
Theorem inference_input_range (a : ndarray Z) :
  Forall uint8 (data a) -> data a <> [] ->
  exists m,
    np.max a = Ok m /\ In m (data a) /\
    (0 < m ->
     Forall (fun x => in_unit_interval (f32.round x) = true)
       (data (np.true_divide a m)) /\
     forall i, (i < length (data a))%nat -> nth i (data a) 0 = m ->
       f32.round (nth i (data (np.true_divide a m)) f64.zero) = f32.one) /\
    (m = 0 ->
     Forall (fun x => x = f64.nan) (data (np.true_divide a m))).
Proof.
  intros Hall Hne. unfold np.max.
  destruct (data a) as [|p0 ps] eqn:Ea; [contradiction|].
  destruct (fold_max_spec ps p0) as [Hin Hub].
  set (m := fold_left Z.max ps p0) in *.
  exists m. split; [reflexivity|]. split; [exact Hin|].
  rewrite Forall_forall in Hall.
  assert (Hm : uint8 m) by now apply Hall.
  cbn [np.true_divide data]. rewrite Ea.
  split.
  - intros Hpos. split.
    + apply Forall_map, Forall_forall. intros p Hp.
      specialize (Hub p Hp). specialize (Hall p Hp). unfold uint8 in *.
      pose proof (ratio_ok_in m p ltac:(lia) ltac:(lia)) as Hok.
      unfold ratio_ok, inference_pixel in Hok.
      apply andb_prop in Hok. exact (proj1 Hok).
    + intros i Hi Hnth.
      rewrite (nth_indep _ f64.zero (f64.div (f64.of_Z 0) (f64.of_Z m)))
        by now rewrite length_map.
      rewrite (map_nth (fun p => f64.div (f64.of_Z p) (f64.of_Z m))), Hnth.
      unfold uint8 in Hm.
      pose proof (ratio_ok_in m m ltac:(lia) ltac:(lia)) as Hok.
      unfold ratio_ok, inference_pixel in Hok.
      apply andb_prop in Hok. destruct Hok as [_ Hone].
      rewrite Z.eqb_refl in Hone. cbn [negb orb] in Hone.
      apply SFeqb_one. exact Hone.
  - intros Hz. apply Forall_map, Forall_forall. intros p Hp.
    specialize (Hub p Hp). specialize (Hall p Hp). unfold uint8 in *.
    assert (p = 0) by lia. subst p. rewrite Hz. reflexivity.
Qed.

Lemma inference_input_range_witness :
  exists m,
    np.max (mk_ndarray [1; 4]%nat [0; 10; 20; 30]) = Ok m /\
    In m [0; 10; 20; 30] /\
    (0 < m ->
     Forall (fun x => in_unit_interval (f32.round x) = true)
       (data (np.true_divide (mk_ndarray [1; 4]%nat [0; 10; 20; 30]) m))).
Proof.
  assert (H : Forall uint8 [0; 10; 20; 30]) by (repeat constructor; unfold uint8; lia).
  destruct (inference_input_range (mk_ndarray [1; 4]%nat [0; 10; 20; 30]) H
              ltac:(discriminate)) as (m & Hmax & Hin & Hpos & _).
  exists m. split; [exact Hmax|]. split; [exact Hin|].
  intros Hm. exact (proj1 (Hpos Hm)).
Defined.

(** ** What the inference cell does not look at *)

(** X5: the inference cell never consults the width, the height or the mode of
    the image: two files with the same sequence of pixels give the same
    result and the same output, so an image of 14 x 56 or 784 x 1 pixels is
    classified as if it were 28 x 28. *)
Theorem inference_ignores_dimensions (rt : keras.Runtime)
    (ws : nat -> keras.LayerWeights) (w w' : World) (img img' : Image) :
  files w "tf_classification_user.png" = Some img ->
  files w' "tf_classification_user.png" = Some img' ->
  pixels (convert_L img) = pixels (convert_L img') ->
  stdout w = stdout w' ->
  fst (inference_cell rt (built ws) w) = fst (inference_cell rt (built ws) w') /\
  stdout (snd (inference_cell rt (built ws) w))
  = stdout (snd (inference_cell rt (built ws) w')) /\
  (length (pixels (convert_L img)) = 784%nat ->
   fst (inference_cell rt (built ws) w) = Ok tt).
Proof.
  intros Hf Hf' Hpx Hout. rewrite !inference_cell_run, Hf, Hf', <- Hpx.
  destruct (length (pixels (convert_L img)) =? 784)%nat eqn:E;
    cbn [fst snd with_stdout stdout].
  - rewrite Hout. split; [reflexivity|]. split; reflexivity.
  - split; [reflexivity|]. split; [exact Hout|].
    intros Hlen. rewrite Hlen in E. discriminate.
Qed.

Lemma inference_ignores_dimensions_witness :
  let tall := {| mode := "L";
                 convert_L := {| width := 14; height := 56; pixels := repeat 51 784 |} |} in
  fst (inference_cell quiet_runtime (built zero_weights) (world_with (Some (flat_image 51)) fails_once))
  = fst (inference_cell quiet_runtime (built zero_weights) (world_with (Some tall) fails_once)) /\
  stdout (snd (inference_cell quiet_runtime (built zero_weights)
                 (world_with (Some (flat_image 51)) fails_once)))
  = stdout (snd (inference_cell quiet_runtime (built zero_weights)
                   (world_with (Some tall) fails_once))) /\
  fst (inference_cell quiet_runtime (built zero_weights) (world_with (Some (flat_image 51)) fails_once))
  = Ok tt.
Proof.
  cbv zeta.
  destruct (inference_ignores_dimensions quiet_runtime zero_weights
              (world_with (Some (flat_image 51)) fails_once)
              (world_with (Some {| mode := "L";
                                   convert_L := {| width := 14; height := 56;
                                                   pixels := repeat 51 784 |} |})
                 fails_once)
              (flat_image 51) _ eq_refl eq_refl eq_refl eq_refl)
    as (Hres & Hout & Hok).
  split; [exact Hres|]. split; [exact Hout|]. apply Hok. apply repeat_length.
Defined.

(** ** [np.argmax] against [tf.argmax] *)

Lemma ltb_not_leb a b : f32.ltb a b = true -> f32.leb b a = false.
Proof.
  unfold f32.leb, f32.ltb, SFleb, SFltb, SFcompare.
  destruct a as [[]|[]| |[] ma ea], b as [[]|[]| |[] mb eb]; intros H; by_cases.
Qed.

(** There is one position only that holds a greatest element with only
    smaller elements before it. *)
Lemma first_greatest_unique (l : list f32.t) d1 d2 :
  (d1 < length l)%nat -> (d2 < length l)%nat ->
  Forall (fun y => f32.leb y (nth d1 l f32.zero) = true) l ->
  (forall j, (j < d2)%nat -> f32.ltb (nth j l f32.zero) (nth d2 l f32.zero) = true) ->
  (d2 <= d1)%nat.
Proof.
  intros H1 H2 Hmax Hfirst.
  destruct (Nat.le_gt_cases d2 d1) as [Hle|Hlt]; [exact Hle|].
  specialize (Hfirst d1 Hlt). apply ltb_not_leb in Hfirst.
  rewrite Forall_forall in Hmax.
  rewrite (Hmax (nth d2 l f32.zero)) in Hfirst by now apply nth_In.
  discriminate.
Qed.

(** X6: on logits that are neither NaN nor minus infinity, the digit
    [np.argmax] reports in the inference cell is the class [tf.argmax] finds
    for the accuracy metric of the training, so a sample counts as correct in
    the metric exactly when the inference cell would print its label. *)
Theorem prediction_matches_metric (sh : list nat) (logits : list f32.t) (y_true : Z) :
  logits <> [] -> Forall (fun y => f32.leb f32.lowest y = true) logits ->
  np.argmax (mk_ndarray sh logits) = Ok (tf_argmax logits) /\
  (sparse_categorical_accuracy y_true logits = true
   <-> np.argmax (mk_ndarray sh logits) = Ok (Z.to_nat y_true) /\ 0 <= y_true).
Proof.
  intros Hne Hlow.
  assert (Hnan : Forall (fun y => y <> f32.nan) logits)
    by (eapply Forall_impl; [|exact Hlow]; intros y; apply lowest_not_nan).
  assert (Heq : first_greatest logits = tf_argmax logits).
  { pose proof (first_greatest_spec logits Hne Hnan) as Hnp. cbv zeta in Hnp.
    destruct Hnp as (Hn1 & Hn2 & Hn3).
    pose proof (tf_argmax_spec logits Hne Hlow) as Htf.
    cbv zeta in Htf. destruct Htf as (Ht1 & Ht2 & Ht3).
    apply Nat.le_antisymm.
    - exact (first_greatest_unique _ _ _ Ht1 Hn1 Ht2 Hn3).
    - exact (first_greatest_unique _ _ _ Hn1 Ht1 Hn2 Ht3). }
  rewrite (first_greatest_argmax sh logits Hne), Heq.
  split; [reflexivity|].
  unfold sparse_categorical_accuracy. rewrite Z.eqb_eq. split.
  - intros <-. rewrite Nat2Z.id. split; [reflexivity | lia].
  - intros [H Hy]. injection H as H. rewrite H. lia.
Qed.

Lemma prediction_matches_metric_witness :
  let logits := [f32.zero; f32.one; f32.one] in
  np.argmax (mk_ndarray [1; 3]%nat logits) = Ok (tf_argmax logits) /\
  tf_argmax logits = 1%nat /\
  sparse_categorical_accuracy 1 logits = true.
Proof.
  cbv zeta.
  assert (Hlow : Forall (fun y => f32.leb f32.lowest y = true) [f32.zero; f32.one; f32.one])
    by (repeat constructor).
  destruct (prediction_matches_metric [1; 3]%nat [f32.zero; f32.one; f32.one] 1
              ltac:(discriminate) Hlow) as (Hnp & Hacc).
  split; [exact Hnp|]. split; [reflexivity|].
  apply Hacc. split; [rewrite Hnp; reflexivity | lia].
Defined.

(** ** NaN among the logits *)

Lemma leb_nan_l y : f32.leb f32.nan y = false.
Proof. reflexivity. Qed.

Lemma is_nan_true x : f32.is_nan x = true -> x = f32.nan.
Proof. destruct x; intros H; try discriminate. reflexivity. Qed.

Lemma argmax_scan_first_nan l : forall mp mi i,
  In f32.nan l ->
  exists k,
    np.argmax_scan mp mi i l = (i + k)%nat /\
    (k < length l)%nat /\
    nth k l f32.zero = f32.nan /\
    forall j, (j < k)%nat -> nth j l f32.zero <> f32.nan.
Proof.
  induction l as [|x l IH]; intros mp mi i Hin; [destruct Hin|].
  cbn [np.argmax_scan].
  destruct (f32.is_nan x) eqn:Ex.
  - apply is_nan_true in Ex. subst x. rewrite leb_nan_l.
    exists 0%nat. cbn [length nth].
    split; [lia|]. split; [lia|]. split; [reflexivity|]. intros j Hj. lia.
  - assert (Hx : x <> f32.nan) by (intros ->; discriminate).
    destruct Hin as [E|Hin]; [congruence|].
    assert (Hnext : forall mp' mi',
              exists k, np.argmax_scan mp' mi' (S i) l = (i + k)%nat /\
                (k < length (x :: l))%nat /\
                nth k (x :: l) f32.zero = f32.nan /\
                forall j, (j < k)%nat -> nth j (x :: l) f32.zero <> f32.nan).
    { intros mp' mi'. destruct (IH mp' mi' (S i) Hin) as (k & Hk & Hlt & Hn & Hb).
      exists (S k). cbn [length nth].
      split; [lia|]. split; [lia|]. split; [exact Hn|].
      intros [|j] Hj; [exact Hx | apply Hb; lia]. }
    destruct (f32.leb x mp); apply Hnext.
Qed.

(** X7: a NaN beats every number: when a logit is NaN, [np.argmax] reports the
    position of the first NaN logit as the prediction, whatever the other
    logits are. *)
Theorem argmax_reports_first_nan (sh : list nat) (logits : list f32.t) :
  In f32.nan logits ->
  exists digit,
    np.argmax (mk_ndarray sh logits) = Ok digit /\
    (digit < length logits)%nat /\
    nth digit logits f32.zero = f32.nan /\
    forall j, (j < digit)%nat -> nth j logits f32.zero <> f32.nan.
Proof.
  intros Hin. destruct logits as [|x l]; [destruct Hin|].
  unfold np.argmax. cbn [data].
  destruct (f32.is_nan x) eqn:Ex.
  - apply is_nan_true in Ex. subst x. exists 0%nat. cbn [length nth].
    split; [reflexivity|]. split; [lia|]. split; [reflexivity|]. intros j Hj. lia.
  - assert (Hx : x <> f32.nan) by (intros ->; discriminate).
    destruct Hin as [E|Hin]; [congruence|].
    destruct (argmax_scan_first_nan l x 0 1 Hin) as (k & Hk & Hlt & Hn & Hb).
    exists (S k). cbn [length nth].
    split; [now rewrite Hk|]. split; [lia|]. split; [exact Hn|].
    intros [|j] Hj; [exact Hx | apply Hb; lia].
Qed.

Lemma argmax_reports_first_nan_witness :
  exists digit,
    np.argmax (mk_ndarray [1; 3]%nat [f32.one; f32.nan; f32.of_Z 7]) = Ok digit /\
    (digit < 3)%nat /\
    nth digit [f32.one; f32.nan; f32.of_Z 7] f32.zero = f32.nan.
Proof.
  destruct (argmax_reports_first_nan [1; 3]%nat [f32.one; f32.nan; f32.of_Z 7]
              ltac:(right; left; reflexivity)) as (d & Hd & Hlt & Hn & _).
  exists d. split; [exact Hd|]. split; [exact Hlt | exact Hn].
Defined.

(** ** Early stopping and the course of training *)

Lemma plain_logs_val_loss {Weights OptimizerState}
    (train_epoch : nat -> Weights * OptimizerState -> (Weights * OptimizerState) * (f32.t * f32.t))
    (evaluate : Weights -> f32.t * f32.t) (w0 : Weights) (o0 : OptimizerState) (n : nat) :
  val_loss (plain_logs train_epoch evaluate w0 o0 n)
  = fst (evaluate (fst (trained train_epoch w0 o0 (S n)))).
Proof.
  unfold plain_logs. cbn [trained].
  destruct (train_epoch n (trained train_epoch w0 o0 n)) as [[w o] [l acc]].
  cbn [fst]. now destruct (evaluate w).
Qed.

(** The validation losses of a run are those of uninterrupted training. *)
Lemma losses_follow {Weights OptimizerState}
    (train_epoch : nat -> Weights * OptimizerState -> (Weights * OptimizerState) * (f32.t * f32.t))
    (evaluate : Weights -> f32.t * f32.t) (w0 : Weights) (o0 : OptimizerState)
    release (st : FitState Weights OptimizerState) epoch :
  follows_training train_epoch evaluate w0 o0 release st epoch ->
  losses st
  = map (fun n => fst (evaluate (fst (trained train_epoch w0 o0 n)))) (seq 1 epoch).
Proof.
  intros Hft. unfold losses. rewrite (ft_history _ _ _ _ _ _ _ Hft).
  rewrite map_map, <- seq_shift, map_map.
  apply map_ext. intros n. apply plain_logs_val_loss.
Qed.

(** X8: when the first validation loss is a finite number, early stopping
    never changes the course of training and never raises: the history is
    that of uninterrupted training, and the optimizer ends in the state of
    the last epoch run.  When training stops early, at least six epochs
    have run and the model is left with the weights it had five epochs
    before the last.  When all 100 epochs run, the model is left with the
    weights of the last epoch, or, in a release that restores at the end
    of the training, with those of the last epoch whose loss went on
    record. *)
Theorem early_stop_rolls_back_five_epochs {Weights OptimizerState : Type}
    (release : EarlyStopping.Release)
    (train_epoch : nat -> Weights * OptimizerState -> (Weights * OptimizerState) * (f32.t * f32.t))
    (evaluate : Weights -> f32.t * f32.t) (w0 : Weights) (o0 : OptimizerState) :
  f32.is_finite (fst (evaluate (fst (trained train_epoch w0 o0 1)))) = true ->
  let r := model_fit release train_epoch evaluate w0 o0 in
  let N := length (history r) in
  history r = map (plain_logs train_epoch evaluate w0 o0) (seq 0 N) /\
  optimizer_state r = snd (trained train_epoch w0 o0 N) /\
  raised r = None /\
  (stop_training r = true ->
   (6 <= N)%nat /\
   get_weights r = fst (trained train_epoch w0 o0 (N - 5))) /\
  (stop_training r = false ->
   N = 100%nat /\
   get_weights r
   = fst (trained train_epoch w0 o0
            (if EarlyStopping.restores_at_train_end release
             then N - stale_epochs (1 # 1000) (losses r)
             else N))).
Proof.
  intros Hfirst. cbv zeta.
  destruct (model_fit_invariants release train_epoch evaluate w0 o0)
    as (r0 & Hinv & Hft & Hlen & Hcap & Hr).
  cbv zeta in Hr. destruct Hr as (Hh & Ho & Hc & Hs & Hraised & Hw).
  set (r := model_fit release train_epoch evaluate w0 o0) in *.
  assert (Hlosses : losses r = losses r0) by (unfold losses; now rewrite Hh).
  rewrite Hlosses, Hh, Ho, Hs, Hraised, Hw.
  pose proof (losses_follow _ _ _ _ _ _ _ Hft) as Hval.
  pose proof (inv_recorded _ _ _ _ Hinv) as Hrec.
  change (EarlyStopping.min_delta early_stopping) with (1 # 1000)%Q in Hrec.
  assert (Hbest : EarlyStopping.best (callback r0) <> S754_infinity false).
  { replace (EarlyStopping.best (callback r0))
      with (recorded_best (1 # 1000) (losses r0))
      by (unfold recorded_best; now rewrite Hrec).
    rewrite Hval. destruct (length (history r0)) as [|n]; [lia|].
    cbn [seq map]. now apply recorded_first_finite. }
  assert (Hstale : stale_epochs (1 # 1000) (losses r0) = EarlyStopping.wait (callback r0))
    by (unfold stale_epochs; now rewrite Hrec).
  destruct (inv_checkpoint _ _ _ _ Hinv Hbest) as (wb & Hwb & _).
  destruct (ft_checkpoint _ _ _ _ _ _ _ Hft Hbest wb Hwb) as [Hlt Hback].
  rewrite Hwb, Hstale.
  split; [exact (ft_history _ _ _ _ _ _ _ Hft)|].
  split; [exact (ft_optimizer _ _ _ _ _ _ _ Hft)|].
  split.
  { destruct (raised r0) eqn:E; [|reflexivity].
    destruct (inv_raised _ _ _ _ Hinv) as (_ & Hinf & _); [congruence | contradiction]. }
  split.
  - intros Hstopped.
    pose proof (proj1 (inv_stop _ _ _ _ Hinv) Hstopped) as Hge.
    pose proof (inv_wait _ _ _ _ Hinv) as Hle.
    change (EarlyStopping.patience early_stopping) with 5%nat in *.
    assert (Hwait : EarlyStopping.wait (callback r0) = 5%nat) by lia.
    rewrite Hwait in *. split; [lia|].
    destruct (EarlyStopping.restores_at_train_end release) eqn:Ee; [exact Hback|].
    rewrite (inv_restored _ _ _ _ Hinv Hstopped ltac:(now destruct release) wb Hwb).
    exact Hback.
  - intros Hrun. split; [now apply Hcap|].
    destruct (EarlyStopping.restores_at_train_end release); [exact Hback|].
    apply (ft_weights _ _ _ _ _ _ _ Hft). now left.
Qed.

Lemma early_stop_rolls_back_five_epochs_witness :
  let r := model_fit EarlyStopping.restores_unchecked count_epoch plateau 0%nat tt in
  length (history r) = 6%nat /\
  stop_training r = true /\
  raised r = None /\
  get_weights r = 1%nat.
Proof.
  cbv zeta.
  destruct (early_stop_rolls_back_five_epochs EarlyStopping.restores_unchecked
              count_epoch plateau 0%nat tt eq_refl) as (_ & _ & Hraised & Hstop & _).
  assert (Hs : stop_training
                 (model_fit EarlyStopping.restores_unchecked count_epoch plateau 0%nat tt)
               = true) by (vm_compute; reflexivity).
  split; [vm_compute; reflexivity|]. split; [exact Hs|]. split; [exact Hraised|].
  destruct (Hstop Hs) as [_ Hw]. rewrite Hw. vm_compute. reflexivity.
Defined.

Lemma recorded_falling (val : nat -> f32.t) n :
  (forall k, (k <= n)%nat -> f32.is_finite (val (S k)) = true) ->
  (forall k, (k < n)%nat ->
     (f32.to_Q (val (S (S k))) + (1 # 1000) < f32.to_Q (val (S k)))%Q) ->
  recorded (1 # 1000) (map val (seq 1 (S n))) = (val (S n), 0%nat).
Proof.
  induction n as [|n IH]; intros Hfin Hfall.
  - unfold recorded. cbn [seq map fold_left]. unfold record_epoch. cbn [fst snd].
    now rewrite improves_on_infinity by (apply Hfin; lia).
  - rewrite seq_S, map_app. cbn [map Nat.add].
    rewrite recorded_snoc, IH
      by (intros k Hk; (apply Hfin || apply Hfall); lia).
    unfold record_epoch. cbn [fst snd].
    rewrite improves_finite; [reflexivity | apply Hfin; lia | apply Hfin; lia |].
    apply Qlt_le_weak. apply Hfall. lia.
Qed.

Lemma falling_least (val : nat -> f32.t) n :
  (forall k, (k < n)%nat ->
     (f32.to_Q (val (S (S k))) + (1 # 1000) < f32.to_Q (val (S k)))%Q) ->
  forall k, (k <= n)%nat -> (f32.to_Q (val (S n)) <= f32.to_Q (val (S k)))%Q.
Proof.
  induction n as [|n IH]; intros Hfall k Hk.
  - replace k with 0%nat by lia. lra.
  - destruct (Nat.eq_dec k (S n)) as [->|Hne]; [lra|].
    specialize (IH (fun j Hj => Hfall j (Nat.lt_lt_succ_r _ _ Hj)) k ltac:(lia)).
    specialize (Hfall n (Nat.lt_succ_diag_r n)). lra.
Qed.

(** X9: while every epoch's validation loss is a finite number that
    undercuts that of the epoch before by more than 0.001, training is never
    stopped early: all 100 epochs run, and the model ends with the weights of
    the last epoch, whose validation loss is the least that was observed. *)
Theorem steady_improvement_runs_to_the_cap {Weights OptimizerState : Type}
    (release : EarlyStopping.Release)
    (train_epoch : nat -> Weights * OptimizerState -> (Weights * OptimizerState) * (f32.t * f32.t))
    (evaluate : Weights -> f32.t * f32.t) (w0 : Weights) (o0 : OptimizerState) :
  (forall n, (n < 100)%nat ->
     f32.is_finite (fst (evaluate (fst (trained train_epoch w0 o0 (S n))))) = true) ->
  (forall n, (n < 99)%nat ->
     (f32.to_Q (fst (evaluate (fst (trained train_epoch w0 o0 (S (S n)))))) + (1 # 1000)
      < f32.to_Q (fst (evaluate (fst (trained train_epoch w0 o0 (S n))))))%Q) ->
  let r := model_fit release train_epoch evaluate w0 o0 in
  stop_training r = false /\
  raised r = None /\
  length (history r) = 100%nat /\
  get_weights r = fst (trained train_epoch w0 o0 100) /\
  forall c, In c (losses r) ->
    (f32.to_Q (fst (evaluate (get_weights r))) <= f32.to_Q c)%Q.
Proof.
  intros Hfin Hfall. cbv zeta.
  destruct (model_fit_invariants release train_epoch evaluate w0 o0)
    as (r0 & Hinv & Hft & Hlen & Hcap & Hr).
  cbv zeta in Hr. destruct Hr as (Hh & Ho & Hc & Hs & Hraised & Hw).
  set (r := model_fit release train_epoch evaluate w0 o0) in *.
  assert (Hlosses : losses r = losses r0) by (unfold losses; now rewrite Hh).
  rewrite Hlosses, Hh, Hs, Hraised.
  set (val := fun n => fst (evaluate (fst (trained train_epoch w0 o0 n)))) in *.
  pose proof (losses_follow _ _ _ _ _ _ _ Hft) as Hval. fold val in Hval.
  pose proof (inv_recorded _ _ _ _ Hinv) as Hrec.
  change (EarlyStopping.min_delta early_stopping) with (1 # 1000)%Q in Hrec.
  destruct (length (history r0)) as [|n] eqn:EN; [lia|].
  assert (Hfin' : forall k, (k <= n)%nat -> f32.is_finite (val (S k)) = true)
    by (intros k Hk; apply Hfin; lia).
  assert (Hfall' : forall k, (k < n)%nat ->
            (f32.to_Q (val (S (S k))) + (1 # 1000) < f32.to_Q (val (S k)))%Q)
    by (intros k Hk; apply Hfall; lia).
  rewrite Hval, (recorded_falling val n Hfin' Hfall') in Hrec.
  injection Hrec as Hbest Hwait.
  assert (Hstop : stop_training r0 = false).
  { apply not_true_is_false. intros Hstopped.
    pose proof (proj1 (inv_stop _ _ _ _ Hinv) Hstopped) as Hge.
    rewrite <- Hwait in Hge. cbn in Hge. lia. }
  specialize (Hcap Hstop). assert (n = 99%nat) by lia. subst n.
  assert (Hweights : get_weights r = fst (trained train_epoch w0 o0 100)).
  { rewrite Hw. destruct (EarlyStopping.restores_at_train_end release).
    - assert (Hb : EarlyStopping.best (callback r0) <> S754_infinity false).
      { rewrite <- Hbest. intros E. specialize (Hfin' 99%nat ltac:(lia)).
        rewrite E in Hfin'. discriminate. }
      destruct (inv_checkpoint _ _ _ _ Hinv Hb) as (wb & Hwb & _).
      destruct (ft_checkpoint _ _ _ _ _ _ _ Hft Hb wb Hwb) as [_ Hback].
      rewrite Hwb, Hback, <- Hwait. reflexivity.
    - apply (ft_weights _ _ _ _ _ _ _ Hft). now left. }
  split; [exact Hstop|].
  split.
  { destruct (raised r0) eqn:E; [|reflexivity].
    destruct (inv_raised _ _ _ _ Hinv) as (Hstopped & _); [congruence | congruence]. }
  split; [reflexivity|]. split; [exact Hweights|].
  intros c Hc'. rewrite Hval in Hc'. apply in_map_iff in Hc'.
  destruct Hc' as (k & <- & Hk). apply in_seq in Hk.
  rewrite Hweights. change (f32.to_Q (val 100%nat) <= f32.to_Q (val k))%Q.
  destruct k as [|k]; [lia|].
  apply (falling_least val 99 Hfall' k). lia.
Qed.

Lemma steady_improvement_runs_to_the_cap_witness :
  let r := model_fit EarlyStopping.restores_on_train_end count_epoch steady_fall 0%nat tt in
  stop_training r = false /\
  raised r = None /\
  length (history r) = 100%nat /\
  get_weights r = fst (trained count_epoch 0%nat tt 100) /\
  forall c, In c (losses r) ->
    (f32.to_Q (fst (steady_fall (get_weights r))) <= f32.to_Q c)%Q.
Proof.
  apply (steady_improvement_runs_to_the_cap EarlyStopping.restores_on_train_end
           count_epoch steady_fall 0%nat tt).
  - intros n Hn.
    do 100 (destruct n as [|n]; [vm_compute; reflexivity|]).
    lia.
  - intros n Hn.
    do 99 (destruct n as [|n]; [vm_compute; reflexivity|]).
    lia.
Defined.

(** ** The visualization cell *)


